(** * TargetProjectLocator: import resolution in the project graph

    A shallow embedding of the class [TargetProjectLocator]
    (src/packages/gradle/src/utils/get-gradle-report.ts, second document of
    the file) and of the string and path primitives it calls.

    Modelling conventions.
    - JavaScript strings are [string]; [null] and [undefined] are kept apart
      in the type [value], with JavaScript truthiness ([truthy]).
    - The instance is the record [TargetProjectLocator]; every method that
      touches [this] is a computation in the monad [M], which threads the
      instance, a log of the collaborator calls made so far, and exceptions.
    - Records used as dictionaries ([nodes], [externalNodes], the tsconfig
      [paths]) are association lists in [Object.keys] order, looked up by own
      key; the two [Map] caches and the project root index are [gmap]s.
    - [path] is the POSIX flavour of Node's module. *)

From Stdlib Require Import String Ascii List Bool Arith Lia.
From stdpp Require Import gmap strings.
Import ListNotations.
Open Scope string_scope.
Open Scope list_scope.

(** ** JavaScript string primitives *)

Module JsString.

(** [s.startsWith(p)] *)
Fixpoint startsWith (s p : string) {struct p} : bool :=
  match p, s with
  | EmptyString, _ => true
  | String c p', String d s' => if Ascii.eqb c d then startsWith s' p' else false
  | String _ _, EmptyString => false
  end.

(** [s.includes(n)], equivalently [s.indexOf(n) !== -1] *)
Fixpoint includes (s n : string) : bool :=
  startsWith s n ||
  match s with
  | EmptyString => false
  | String _ s' => includes s' n
  end.

(** [s.substring(k)] *)
Fixpoint substringFrom (k : nat) (s : string) : string :=
  match k, s with
  | O, _ => s
  | S k', String _ s' => substringFrom k' s'
  | S _, EmptyString => EmptyString
  end.

(** [s.endsWith(p)] *)
Definition endsWith (s p : string) : bool :=
  (String.length p <=? String.length s)%nat &&
  String.eqb (substringFrom (String.length s - String.length p) s) p.

(** [s.replace(/p$/, '')] for a literal suffix [p] *)
Definition dropSuffix (s p : string) : string :=
  if endsWith s p
  then String.substring 0 (String.length s - String.length p) s
  else s.

(** [s.split(sep)] for a one-character separator; never empty. *)
Fixpoint split (sep : ascii) (s : string) : list string :=
  match s with
  | EmptyString => [EmptyString]
  | String c s' =>
      if Ascii.eqb c sep then EmptyString :: split sep s'
      else match split sep s' with
           | h :: r => String c h :: r
           | [] => [String c EmptyString]
           end
  end.

(** [l.join(sep)] *)
Fixpoint join (sep : string) (l : list string) : string :=
  match l with
  | [] => EmptyString
  | [x] => x
  | x :: r => x +:+ sep +:+ join sep r
  end.

(** [s.replace(/\\/g, '/')] *)
Fixpoint slashes (s : string) : string :=
  match s with
  | EmptyString => EmptyString
  | String c s' =>
      String (if Ascii.eqb c "\"%char then "/"%char else c) (slashes s')
  end.

End JsString.

(** ** Node's [path.posix] *)

Module Path.
Import JsString.

Definition isSlash (c : ascii) : bool := Ascii.eqb c "/"%char.

Fixpoint dropWhile (f : ascii -> bool) (l : list ascii) : list ascii :=
  match l with
  | c :: r => if f c then dropWhile f r else l
  | [] => []
  end.

(** [posix.dirname]: the scan runs from the last character down to index
    1; trailing slashes are skipped, then the name, and the directory ends
    before the slash that is met next. *)
Definition dirname (path : string) : string :=
  match path with
  | EmptyString => "."
  | String c0 rest =>
      let hasRoot := isSlash c0 in
      let scan := dropWhile (fun c => negb (isSlash c))
                    (dropWhile isSlash (rev (list_ascii_of_string rest))) in
      match scan with
      | [] => if hasRoot then "/" else "."
      | _ :: before =>
          match before with
          | [] => if hasRoot then "//" else String c0 EmptyString
          | _ => String c0 (string_of_list_ascii (rev before))
          end
      end
  end.

(** One step of [normalizeString] on a stack of segments kept in reverse. *)
Definition normStep (allowAboveRoot : bool) (stack : list string) (seg : string)
  : list string :=
  if String.eqb seg "" || String.eqb seg "." then stack
  else if String.eqb seg ".." then
    match stack with
    | top :: below =>
        if String.eqb top ".." then
          (if allowAboveRoot then ".." :: stack else stack)
        else below
    | [] => if allowAboveRoot then [".."] else []
    end
  else seg :: stack.

Definition normalizeSegments (allowAboveRoot : bool) (path : string) : list string :=
  rev (fold_left (normStep allowAboveRoot) (split "/" path) []).

(** [posix.normalize] *)
Definition normalize (path : string) : string :=
  if String.eqb path "" then "."
  else
    let isAbsolute := startsWith path "/" in
    let trailingSeparator := endsWith path "/" in
    let body := join "/" (normalizeSegments (negb isAbsolute) path) in
    if String.eqb body "" then
      (if isAbsolute then "/" else if trailingSeparator then "./" else ".")
    else
      let body := if trailingSeparator then body +:+ "/" else body in
      if isAbsolute then "/" +:+ body else body.

(** [posix.join(...args)] *)
Definition pjoin (args : list string) : string :=
  match List.filter (fun a => negb (String.eqb a "")) args with
  | [] => "."
  | parts => normalize (join "/" parts)
  end.

(** Segments of [posix.resolve(p)] below the root, for the working
    directory [cwd]. *)
Definition resolveSegments (cwd p : string) : list string :=
  normalizeSegments false (if startsWith p "/" then p else cwd +:+ "/" +:+ p).

Fixpoint dropCommon (a b : list string) : list string * list string :=
  match a, b with
  | x :: a', y :: b' => if String.eqb x y then dropCommon a' b' else (a, b)
  | _, _ => (a, b)
  end.

(** [posix.relative(from, to)] *)
Definition relative (cwd from to : string) : string :=
  if String.eqb from to then ""
  else
    let '(up, down) := dropCommon (resolveSegments cwd from) (resolveSegments cwd to) in
    join "/" (map (fun _ => "..") up ++ down).

End Path.


(** ** Values, exceptions and the data model *)

(** A JavaScript value of type [string | null | undefined]. *)
Inductive value : Type :=
| VStr (s : string)
| VNull
| VUndefined.

(** JavaScript truthiness: only a non-empty string is truthy. *)
Definition truthy (v : value) : bool :=
  match v with
  | VStr s => negb (String.eqb s "")
  | VNull | VUndefined => false
  end.

Definition ofOption (o : option string) : value :=
  match o with
  | Some s => VStr s
  | None => VUndefined
  end.

(** What a [Map<string, string | null>] hands back from [get] on a key it
    holds: the stored string, or [null]. *)
Definition ofCached (o : option string) : value :=
  match o with
  | Some s => VStr s
  | None => VNull
  end.

Inductive exn : Type := Error (message : string).

Inductive outcome (A : Type) : Type :=
| Return (a : A)
| Throw (e : exn).
Arguments Return {A} a.
Arguments Throw {A} e.

(** [ProjectGraphProjectNode]: [name] and [data.root]. *)
Record ProjectGraphProjectNode : Type := {
  node_name : string;
  node_root : string
}.

(** [ProjectGraphExternalNode]: [name], [data.packageName], [data.version]. *)
Record ProjectGraphExternalNode : Type := {
  ext_name : string;
  ext_packageName : string;
  ext_version : string
}.

(** The parsed package descriptor, as far as [findNpmPackage] reads it. *)
Record PackageJson : Type := {
  pkg_name : option string;
  pkg_version : option string
}.

(** The alias table [compilerOptions.paths], keys in declaration order. *)
Definition PathsTable : Type := list (string * list string).

(** The root tsconfig as read by [readJsonFile]:
    [config?.compilerOptions?.paths]. *)
Record TsConfigJson : Type := {
  compilerOptions_paths : option PathsTable
}.

Record RootTsConfig : Type := {
  tsc_path : option string;
  tsc_absolutePath : option string;
  tsc_config : option TsConfigJson
}.

(** Own-key lookup in a record used as a dictionary. *)
Fixpoint getOwn {A : Type} (k : string) (o : list (string * A)) : option A :=
  match o with
  | [] => None
  | (k', v) :: rest => if String.eqb k' k then Some v else getOwn k rest
  end.

(** The names that every plain object inherits from [Object.prototype]. *)
Definition objectPrototypeNames : list string :=
  ["constructor"; "__defineGetter__"; "__defineSetter__"; "hasOwnProperty";
   "__lookupGetter__"; "__lookupSetter__"; "isPrototypeOf"; "propertyIsEnumerable";
   "toString"; "valueOf"; "__proto__"; "toLocaleString"].

Definition inheritedMember (k : string) : bool :=
  existsb (String.eqb k) objectPrototypeNames.

(** What [this.paths[key]] holds when it is truthy: the array declared under
    an own key, or a member of [Object.prototype] (a function, or the
    prototype itself), which is not iterable. *)
Inductive PathsEntry : Type :=
| Targets (targets : list string)
| Inherited (member : string).

(** [table[k]] on the alias table, a plain object: the own key first, then
    the prototype. *)
Definition getProperty (k : string) (table : PathsTable) : option PathsEntry :=
  match getOwn k table with
  | Some targets => Some (Targets targets)
  | None => if inheritedMember k then Some (Inherited k) else None
  end.

(** Iterating over a value that is not iterable. *)
Definition notIterable : exn := Error "TypeError".

(** The fields of a [TargetProjectLocator] instance. *)
Record TargetProjectLocator : Type := {
  nodes : list (string * ProjectGraphProjectNode);
  externalNodes : list (string * ProjectGraphExternalNode);
  projectRootMappings : gmap string string;
  npmProjects : list ProjectGraphExternalNode;
  tsConfig : RootTsConfig;
  paths : option PathsTable;
  typescriptResolutionCache : gmap string (option string);
  npmResolutionCache : gmap string (option string)
}.

(** The collaborators whose invocations are counted. *)
Inductive Call : Type :=
| CallFindExternalPackageJsonPath (packageName dir : string)
| CallReadFileSync (file : string)
| CallResolveModuleByImport (importExpr filePath : string)
| CallRequireResolve (importExpr dir : string).

(** The imported functions and constants that are not part of the class. *)
Record Host : Type := {
  workspaceRoot : string;
  cwd : string;
  builtinModules : list string;
  getRootTsConfigFileName : option string;
  readJsonFile : string -> outcome TsConfigJson;
  findExternalPackageJsonPath : string -> string -> outcome (option string);
  readFileSync : string -> outcome string;
  parseJson : string -> outcome PackageJson;
  resolveModuleByImport : string -> string -> option string -> outcome (option string);
  requireResolve : string -> string -> outcome string
}.

(** ** The state and exception monad of the methods *)

Record World : Type := {
  this : TargetProjectLocator;
  calls : list Call
}.

Definition M (A : Type) : Type := World -> outcome A * World.

Definition ret {A : Type} (a : A) : M A := fun w => (Return a, w).

Definition bind {A B : Type} (m : M A) (k : A -> M B) : M B :=
  fun w =>
    match m w with
    | (Return a, w') => k a w'
    | (Throw e, w') => (Throw e, w')
    end.

(** [try { body } catch { handler }] *)
Definition tryCatch {A : Type} (body : M A) (handler : exn -> M A) : M A :=
  fun w =>
    match body w with
    | (Return a, w') => (Return a, w')
    | (Throw e, w') => handler e w'
    end.

Definition getThis : M TargetProjectLocator := fun w => (Return (this w), w).

(** Invoke a collaborator: the call is logged, then its outcome is passed
    on, exception included. *)
Definition invoke {A : Type} (c : Call) (r : outcome A) : M A :=
  fun w => (r, {| this := this w; calls := calls w ++ [c] |}).

Definition lift {A : Type} (r : outcome A) : M A := fun w => (r, w).

Declare Scope locator_scope.
Delimit Scope locator_scope with locator.
Notation "'let*' x ':=' m 'in' k" := (bind m (fun x => k))
  (at level 10, x name, m at level 100, k at level 200) : locator_scope.
Notation "'run' m 'then' k" := (bind m (fun _ => k))
  (at level 10, m at level 100, k at level 200) : locator_scope.

(** [this.typescriptResolutionCache.set(k, v)] *)
Definition typescriptResolutionCache_set (k : string) (v : option string) : M unit :=
  fun w =>
    let t := this w in
    (Return tt,
     {| this := {| nodes := nodes t;
                   externalNodes := externalNodes t;
                   projectRootMappings := projectRootMappings t;
                   npmProjects := npmProjects t;
                   tsConfig := tsConfig t;
                   paths := paths t;
                   typescriptResolutionCache := <[k := v]> (typescriptResolutionCache t);
                   npmResolutionCache := npmResolutionCache t |};
        calls := calls w |}).

(** [this.npmResolutionCache.set(k, v)] *)
Definition npmResolutionCache_set (k : string) (v : option string) : M unit :=
  fun w =>
    let t := this w in
    (Return tt,
     {| this := {| nodes := nodes t;
                   externalNodes := externalNodes t;
                   projectRootMappings := projectRootMappings t;
                   npmProjects := npmProjects t;
                   tsConfig := tsConfig t;
                   paths := paths t;
                   typescriptResolutionCache := typescriptResolutionCache t;
                   npmResolutionCache := <[k := v]> (npmResolutionCache t) |};
        calls := calls w |}).

(** ** Imported helpers of the repository that the class relies on *)

Module Imported.
Import JsString.

(** Modelled from the spec: [isRelativePath] (utils/fileutils) is not among
    the sources; a specifier is "syntactically relative" when it is [.] or
    [..] or starts with [./] or [../]. *)
Definition isRelativePath (path : string) : bool :=
  String.eqb path "." || String.eqb path ".." ||
  startsWith path "./" || startsWith path "../".

(** Modelled from the spec: [createProjectRootMappings]
    (project-graph/utils/find-project-for-path) is not among the sources;
    the index is "built once from all ProjectNodes by normalizing each root
    path to a single separator convention" and maps the normalized root to
    the project identifier. *)
Definition createProjectRootMappings
    (nodes : list (string * ProjectGraphProjectNode)) : gmap string string :=
  fold_left (fun m kn => <[slashes (node_root (snd kn)) := fst kn]> m) nodes ∅.

(** The directories that enclose a path, the path itself first and the
    workspace root [.] last; the segments are given in reverse. *)
Fixpoint enclosing (rsegs : list string) : list string :=
  match rsegs with
  | [] => ["."]
  | _ :: above => join "/" (rev rsegs) :: enclosing above
  end.

Fixpoint firstMapped (m : gmap string string) (candidates : list string)
  : option string :=
  match candidates with
  | [] => None
  | c :: rest =>
      match m !! c with
      | Some p => Some p
      | None => firstMapped m rest
      end
  end.

(** Modelled from the spec: [findProjectForPath] is not among the sources;
    it answers with the project of the longest project root that encloses
    the path ("longest-matching-prefix among project roots"), or nothing. *)
Definition findProjectForPath (filePath : string) (m : gmap string string)
  : option string :=
  firstMapped m (enclosing (rev (split "/" (slashes filePath)))).

End Imported.

(** ** The class [TargetProjectLocator] *)

Section Locator.
Import JsString Path Imported.
Local Open Scope locator_scope.

Variable host : Host.

(** [builtInModuleSet]: the builtin names and their [node:] forms. *)
Definition builtInModuleSet : list string :=
  builtinModules host ++ map (fun x => "node:" +:+ x) (builtinModules host).

Definition builtInModuleSet_has (importExpr : string) : bool :=
  existsb (String.eqb importExpr) builtInModuleSet.

Definition getAbsolutePath (path : string) : string :=
  pjoin [workspaceRoot host; path].

Definition getRootTsConfig : outcome RootTsConfig :=
  match getRootTsConfigFileName host with
  | None =>
      Return {| tsc_path := None; tsc_absolutePath := None; tsc_config := None |}
  | Some path =>
      if String.eqb path "" then
        Return {| tsc_path := None; tsc_absolutePath := None; tsc_config := None |}
      else
        let absolutePath := getAbsolutePath path in
        match readJsonFile host absolutePath with
        | Return config =>
            Return {| tsc_path := Some path;
                      tsc_absolutePath := Some absolutePath;
                      tsc_config := Some config |}
        | Throw e => Throw e
        end
  end.

(** The field initialisers, run by the constructor in declaration order. *)
Definition new_TargetProjectLocator
    (nodes0 : list (string * ProjectGraphProjectNode))
    (externalNodes0 : list (string * ProjectGraphExternalNode))
  : outcome TargetProjectLocator :=
  match getRootTsConfig with
  | Throw e => Throw e
  | Return tsConfig0 =>
      Return
        {| nodes := nodes0;
           externalNodes := externalNodes0;
           projectRootMappings := createProjectRootMappings nodes0;
           npmProjects :=
             flat_map
               (fun k => match getOwn k externalNodes0 with
                         | Some n => [n]
                         | None => []
                         end)
               (List.filter (fun k => startsWith k "npm:") (map fst externalNodes0));
           tsConfig := tsConfig0;
           paths :=
             match tsc_config tsConfig0 with
             | Some config => compilerOptions_paths config
             | None => None
             end;
           typescriptResolutionCache := ∅;
           npmResolutionCache := ∅ |}
  end.

(** [findMatchingProjectFiles]: [this.nodes[project]]; when the index
    finds no project the record has no such property. *)
Definition findMatchingProjectFiles (t : TargetProjectLocator) (file : string)
  : option ProjectGraphProjectNode :=
  match findProjectForPath file (projectRootMappings t) with
  | Some project => getOwn project (nodes t)
  | None => None
  end.

Definition findProjectOfResolvedModule (t : TargetProjectLocator)
    (resolvedModule : string) : value :=
  if startsWith resolvedModule "node_modules/" ||
     includes resolvedModule "/node_modules/"
  then VUndefined
  else
    let normalizedResolvedModule :=
      if startsWith resolvedModule "./"
      then substringFrom 2 resolvedModule
      else resolvedModule in
    match findMatchingProjectFiles t normalizedResolvedModule with
    | Some importedProject => VStr (node_name importedProject)
    | None => VUndefined
    end.

(** The predicate handed to [Object.keys(this.paths).find]. *)
Definition wildcardMatches (normalizedImportExpr path : string) : bool :=
  endsWith path "/*" &&
  (startsWith normalizedImportExpr (dropSuffix path "*") ||
   String.eqb normalizedImportExpr (dropSuffix path "/*")).

Definition findPaths (t : TargetProjectLocator) (normalizedImportExpr : string)
  : option (string * PathsEntry) :=
  match paths t with
  | None => None
  | Some table =>
      match getProperty normalizedImportExpr table with
      | Some entry => Some (normalizedImportExpr, entry)
      | None =>
          match find (wildcardMatches normalizedImportExpr) (map fst table) with
          | Some wildcardPath =>
              match getProperty wildcardPath table with
              | Some entry => Some (wildcardPath, entry)
              | None => None
              end
          | None => None
          end
      end
  end.

(** The candidate [r] computed for one target [p] of the matched alias. *)
Definition expandTarget (path importExpr p : string) : string :=
  if endsWith p "/*"
  then pjoin [dirname p; relative (cwd host) (dropSuffix path "*") importExpr]
  else p.

(** The [for (let p of paths)] loop: the first truthy project wins. *)
Fixpoint firstResolvedProject (t : TargetProjectLocator)
    (path importExpr : string) (targets : list string) : option value :=
  match targets with
  | [] => None
  | p :: rest =>
      let maybeResolvedProject :=
        findProjectOfResolvedModule t (expandTarget path importExpr p) in
      if truthy maybeResolvedProject then Some maybeResolvedProject
      else firstResolvedProject t path importExpr rest
  end.

Definition parsePackageNameFromImportExpression (importExpression : string)
  : string :=
  if startsWith importExpression "@"
  then join "/" (firstn 2 (split "/" importExpression))
  else hd "" (split "/" importExpression).

(** [pkg.data.packageName === json.name && pkg.data.version === json.version] *)
Definition matchesDescriptor (json : PackageJson) (pkg : ProjectGraphExternalNode)
  : bool :=
  match pkg_name json, pkg_version json with
  | Some n, Some v =>
      String.eqb (ext_packageName pkg) n && String.eqb (ext_version pkg) v
  | _, _ => false
  end.

Definition findNpmPackage (importExpr projectRoot : string) : M value :=
  let packageName := parsePackageNameFromImportExpression importExpr in
  let npmImportForProject := packageName +:+ "__" +:+ projectRoot in
  let* t := getThis in
  match npmResolutionCache t !! npmImportForProject with
  | Some cached => ret (ofCached cached)
  | None =>
      tryCatch
        (let fullProjectRootPath := pjoin [workspaceRoot host; projectRoot] in
         let* externalPackageJsonPath :=
           invoke (CallFindExternalPackageJsonPath packageName fullProjectRootPath)
                  (findExternalPackageJsonPath host packageName fullProjectRootPath) in
         if truthy (ofOption externalPackageJsonPath) then
           let file := default "" externalPackageJsonPath in
           let* content := invoke (CallReadFileSync file) (readFileSync host file) in
           let* externalPackageJson := lift (parseJson host content) in
           match find (matchesDescriptor externalPackageJson) (npmProjects t) with
           | None => ret VUndefined
           | Some matchingExternalNode =>
               run npmResolutionCache_set npmImportForProject
                     (Some (ext_name matchingExternalNode))
               then ret (VStr (ext_name matchingExternalNode))
           end
         else ret VUndefined)
        (fun _ => ret VUndefined)
  end.

Definition resolveImportWithTypescript (normalizedImportExpr filePath : string)
  : M value :=
  let* t := getThis in
  let* resolvedModule :=
    match typescriptResolutionCache t !! normalizedImportExpr with
    | Some cached => ret (ofCached cached)
    | None =>
        let* resolved :=
          invoke (CallResolveModuleByImport normalizedImportExpr filePath)
                 (resolveModuleByImport host normalizedImportExpr filePath
                    (tsc_absolutePath (tsConfig t))) in
        run typescriptResolutionCache_set normalizedImportExpr
              (if truthy (ofOption resolved) then resolved else None)
        then ret (ofOption resolved)
    end in
  match resolvedModule with
  | VStr m =>
      if truthy resolvedModule && negb (includes m "node_modules/") then
        let resolvedProject := findProjectOfResolvedModule t m in
        if truthy resolvedProject then ret resolvedProject else ret VUndefined
      else ret VUndefined
  | _ => ret VUndefined
  end.

Definition resolveImportWithRequire (normalizedImportExpr filePath : string)
  : M string :=
  let* resolved :=
    invoke (CallRequireResolve normalizedImportExpr (dirname filePath))
           (requireResolve host normalizedImportExpr (dirname filePath)) in
  ret (relative (cwd host) (workspaceRoot host) resolved).

(** The block "find project using tsconfig paths" of
    [findProjectWithImport]: [Return None] when the block is left without a
    [return]; [for (let p of paths)] throws when [paths] is not an array. *)
Definition resolveViaPaths (t : TargetProjectLocator) (importExpr : string)
  : outcome (option value) :=
  match findPaths t importExpr with
  | Some (path, Targets targets) =>
      Return (firstResolvedProject t path importExpr targets)
  | Some (path, Inherited _) => Throw notIterable
  | None => Return None
  end.

(** The final [try { ... } catch {}] of [findProjectWithImport]; [None] when
    the block was left through the handler. *)
Definition resolveViaRequire (importExpr filePath : string) : M (option value) :=
  tryCatch
    (let* resolvedModule := resolveImportWithRequire importExpr filePath in
     let* t := getThis in
     ret (Some (findProjectOfResolvedModule t resolvedModule)))
    (fun _ => ret None).

Definition findProjectWithImport (importExpr projectRoot filePath : string)
  : M value :=
  let* t := getThis in
  if isRelativePath importExpr then
    let resolvedModule := pjoin [dirname filePath; importExpr] in
    ret (findProjectOfResolvedModule t resolvedModule)
  else
    let* viaPaths := lift (resolveViaPaths t importExpr) in
    match viaPaths with
    | Some maybeResolvedProject => ret maybeResolvedProject
    | None =>
        if builtInModuleSet_has importExpr then
          run npmResolutionCache_set importExpr None then ret VNull
        else
          let* npmProject := findNpmPackage importExpr projectRoot in
          if truthy npmProject then ret npmProject
          else
            let* resolvedProject :=
              match tsc_config (tsConfig t) with
              | Some _ => resolveImportWithTypescript importExpr filePath
              | None => ret VUndefined
              end in
            if truthy resolvedProject then ret resolvedProject
            else
              let* viaRequire := resolveViaRequire importExpr filePath in
              match viaRequire with
              | Some found => ret found
              | None =>
                  run npmResolutionCache_set importExpr None then ret VNull
              end
    end.

End Locator.

Arguments findProjectOfResolvedModule t resolvedModule : simpl never.

(** ** Workspaces used in the examples *)

Module Demo.
Import JsString Path Imported.

Definition leftPadJson : string := "{ name: left-pad, version: 1.2.0 }".

(** A POSIX host: [left-pad] is installed, the language and runtime
    resolvers find nothing. *)
Definition host (table : PathsTable) : Host :=
  {| workspaceRoot := "/work";
     cwd := "/work";
     builtinModules := ["fs"; "path"; "fs/promises"; "child_process"];
     getRootTsConfigFileName := Some "tsconfig.base.json";
     readJsonFile := fun _ => Return {| compilerOptions_paths := Some table |};
     findExternalPackageJsonPath := fun packageName _ =>
       if String.eqb packageName "left-pad"
       then Return (Some "/work/node_modules/left-pad/package.json")
       else Return None;
     readFileSync := fun file =>
       if String.eqb file "/work/node_modules/left-pad/package.json"
       then Return leftPadJson
       else Throw (Error "ENOENT");
     parseJson := fun content =>
       if String.eqb content leftPadJson
       then Return {| pkg_name := Some "left-pad"; pkg_version := Some "1.2.0" |}
       else Throw (Error "JSON");
     resolveModuleByImport := fun _ _ _ => Return None;
     requireResolve := fun _ _ => Throw (Error "MODULE_NOT_FOUND") |}.

Definition projects : list (string * ProjectGraphProjectNode) :=
  [ ("app1", {| node_name := "app1"; node_root := "apps/app1" |});
    ("lib", {| node_name := "lib"; node_root := "apps/lib" |});
    ("shared", {| node_name := "shared"; node_root := "libs/shared" |}) ].

Definition externals : list (string * ProjectGraphExternalNode) :=
  [ ("npm:left-pad@1.0.0",
     {| ext_name := "npm:left-pad@1.0.0";
        ext_packageName := "left-pad"; ext_version := "1.0.0" |});
    ("npm:left-pad",
     {| ext_name := "npm:left-pad";
        ext_packageName := "left-pad"; ext_version := "1.2.0" |});
    ("npm:left-pad-copy",
     {| ext_name := "npm:left-pad-copy";
        ext_packageName := "left-pad"; ext_version := "1.2.0" |}) ].

Definition emptyLocator : TargetProjectLocator :=
  {| nodes := []; externalNodes := [];
     projectRootMappings := ∅; npmProjects := [];
     tsConfig := {| tsc_path := None; tsc_absolutePath := None; tsc_config := None |};
     paths := None;
     typescriptResolutionCache := ∅; npmResolutionCache := ∅ |}.

(** A freshly constructed instance, before any call. *)
Definition fresh (h : Host) : World :=
  {| this := match new_TargetProjectLocator h projects externals with
             | Return t => t
             | Throw _ => emptyLocator
             end;
     calls := [] |}.

(** An instance in which a project root lies below [node_modules]. *)
Definition vendored : TargetProjectLocator :=
  {| nodes := [("dep", {| node_name := "dep";
                          node_root := "libs/shared/node_modules/dep" |})];
     externalNodes := [];
     projectRootMappings :=
       createProjectRootMappings
         [("dep", {| node_name := "dep";
                     node_root := "libs/shared/node_modules/dep" |})];
     npmProjects := [];
     tsConfig := {| tsc_path := None; tsc_absolutePath := None; tsc_config := None |};
     paths := None;
     typescriptResolutionCache := ∅; npmResolutionCache := ∅ |}.

Definition interiorWildcard : PathsTable := [("@org/*", ["libs/*/src/index"])].
Definition trailingWildcard : PathsTable := [("@org/*", ["libs/*"])].
Definition shadowedExact : PathsTable :=
  [("@org/*", ["libs/*"]); ("@org/shared", ["apps/lib/src/index.ts"])].

(** The same host with a language resolver that fails by throwing. *)
Definition throwingTypescript (h : Host) : Host :=
  {| workspaceRoot := workspaceRoot h; cwd := cwd h;
     builtinModules := builtinModules h;
     getRootTsConfigFileName := getRootTsConfigFileName h;
     readJsonFile := readJsonFile h;
     findExternalPackageJsonPath := findExternalPackageJsonPath h;
     readFileSync := readFileSync h;
     parseJson := parseJson h;
     resolveModuleByImport := fun _ _ _ => Throw (Error "resolution error");
     requireResolve := requireResolve h |}.

(** The same host with a runtime resolver that finds a workspace file. *)
Definition requireFindsLib (h : Host) : Host :=
  {| workspaceRoot := workspaceRoot h; cwd := cwd h;
     builtinModules := builtinModules h;
     getRootTsConfigFileName := getRootTsConfigFileName h;
     readJsonFile := readJsonFile h;
     findExternalPackageJsonPath := findExternalPackageJsonPath h;
     readFileSync := readFileSync h;
     parseJson := parseJson h;
     resolveModuleByImport := resolveModuleByImport h;
     requireResolve := fun _ _ => Return "/work/apps/lib/index.js" |}.

End Demo.

(** ** Vocabulary of the properties *)

Module Vocabulary.
Import JsString.

(** A path traverses an installed-dependency directory when one of its
    components other than the last is [node_modules]. *)
Fixpoint hasDependencyDir (segments : list string) : bool :=
  match segments with
  | [] => false
  | s :: rest =>
      match rest with
      | [] => false
      | _ :: _ => String.eqb s "node_modules" || hasDependencyDir rest
      end
  end.

Definition traversesNodeModules (path : string) : bool :=
  hasDependencyDir (split "/" path).

(** A pattern of the alias table matches a specifier when it is equal to it
    or when it is a wildcard pattern that covers it. *)
Definition patternMatches (specifier pattern : string) : bool :=
  String.eqb pattern specifier || wildcardMatches specifier pattern.

(** The lookup as the specification words it: the first pattern in
    declaration order that matches, with its targets. *)
Definition firstDeclaredMatch (table : PathsTable) (specifier : string)
  : option (string * PathsEntry) :=
  option_map (fun entry => (fst entry, Targets (snd entry)))
    (find (fun entry => patternMatches specifier (fst entry)) table).

(** The first wildcard pattern in declaration order that covers the
    specifier, with its targets. *)
Definition firstWildcardMatch (table : PathsTable) (specifier : string)
  : option (string * PathsEntry) :=
  option_map (fun entry => (fst entry, Targets (snd entry)))
    (find (fun entry => wildcardMatches specifier (fst entry)) table).

(** The state built by the constructor is the same in both instances. *)
Definition sameConstructedState (t t' : TargetProjectLocator) : Prop :=
  nodes t' = nodes t /\
  externalNodes t' = externalNodes t /\
  projectRootMappings t' = projectRootMappings t /\
  npmProjects t' = npmProjects t /\
  tsConfig t' = tsConfig t /\
  paths t' = paths t.

(** A computation that never touches the constructor-built state. *)
Definition framed {A : Type} (m : M A) : Prop :=
  forall w, sameConstructedState (this w) (this (snd (m w))).

Definition isPackageLookup (c : Call) : bool :=
  match c with CallFindExternalPackageJsonPath _ _ => true | _ => false end.

Definition isLanguageResolution (c : Call) : bool :=
  match c with CallResolveModuleByImport _ _ => true | _ => false end.

Definition isRuntimeResolution (c : Call) : bool :=
  match c with CallRequireResolve _ _ => true | _ => false end.

(** The calls [findNpmPackage] makes: the locator and the file read. *)
Definition isPackageWork (c : Call) : bool :=
  match c with
  | CallFindExternalPackageJsonPath _ _ | CallReadFileSync _ => true
  | _ => false
  end.

(** A computation whose collaborator calls all satisfy [P]. *)
Definition logs {A : Type} (P : Call -> Prop) (m : M A) : Prop :=
  forall w, exists d, calls (snd (m w)) = calls w ++ d /\ Forall P d.

Definition count (f : Call -> bool) (log : list Call) : nat :=
  length (List.filter f log).

(** The index of the instance is the one the constructor builds. *)
Definition indexed (t : TargetProjectLocator) : Prop :=
  projectRootMappings t = Imported.createProjectRootMappings (nodes t).

(** [n], filed under [k], is the one project whose root is [root]. *)
Definition onlyProjectRootedAt (t : TargetProjectLocator) (root k : string)
    (n : ProjectGraphProjectNode) : Prop :=
  In (k, n) (nodes t) /\
  getOwn k (nodes t) = Some n /\
  slashes (node_root n) = root /\
  forall k' n', In (k', n') (nodes t) -> slashes (node_root n') = root -> k' = k.

Definition noProjectRootedAt (t : TargetProjectLocator) (root : string) : Prop :=
  forall k n, In (k, n) (nodes t) -> slashes (node_root n) <> root.

(** The world [w] after the collaborator calls [d], the instance as is. *)
Definition after (w : World) (d : list Call) : World :=
  {| this := this w; calls := calls w ++ d |}.

(** The language-resolution step of [findProjectWithImport], guarded by
    [if (this.tsConfig.config)]. *)
Definition languageStep (host : Host) (t : TargetProjectLocator)
    (importExpr filePath : string) : M value :=
  match tsc_config (tsConfig t) with
  | Some _ => resolveImportWithTypescript host importExpr filePath
  | None => ret VUndefined
  end.

(** [findProjectWithImport] from "try to find npm package" to its end: the
    code that runs once the specifier is neither relative, nor mapped to a
    project by an alias, nor a builtin. *)
Definition fallbackChain (host : Host) (t : TargetProjectLocator)
    (importExpr projectRoot filePath : string) : M value :=
  bind (findNpmPackage host importExpr projectRoot) (fun npmProject =>
  if truthy npmProject then ret npmProject
  else
    bind (languageStep host t importExpr filePath) (fun resolvedProject =>
    if truthy resolvedProject then ret resolvedProject
    else
      bind (resolveViaRequire host importExpr filePath) (fun viaRequire =>
      match viaRequire with
      | Some found => ret found
      | None => bind (npmResolutionCache_set importExpr None) (fun _ => ret VNull)
      end))).

(** The key under which [findNpmPackage] caches. *)
Definition npmImportForProject (importExpr projectRoot : string) : string :=
  parsePackageNameFromImportExpression importExpr +:+ "__" +:+ projectRoot.

(** The specifier is read from the prototype of the alias table: there is a
    table, it does not declare the specifier, and the specifier is the name
    of a member that every object inherits. *)
Definition inheritedAlias (t : TargetProjectLocator) (specifier : string) : bool :=
  match paths t with
  | Some table =>
      match getOwn specifier table with
      | Some _ => false
      | None => inheritedMember specifier
      end
  | None => false
  end.

End Vocabulary.

(** ** Where a returned identifier comes from *)

Module Provenance.

(** [s] is the [name] of a project node of the instance. *)
Definition isProjectName (t : TargetProjectLocator) (s : string) : Prop :=
  exists k n, getOwn k (nodes t) = Some n /\ node_name n = s.

(** [s] is the [name] of one of the scanned external nodes. *)
Definition isExternalName (t : TargetProjectLocator) (s : string) : Prop :=
  exists n, In n (npmProjects t) /\ ext_name n = s.

End Provenance.

(** ** Entries that survive a call *)

Module Survival.

(** Every entry of [typescriptResolutionCache] in [t] is the same in [t'],
    and so is every entry of [npmResolutionCache] under a key other than
    [importExpr]. *)
Definition keepsEntries (importExpr : string) (t t' : TargetProjectLocator) : Prop :=
  (forall k c,
     typescriptResolutionCache t !! k = Some c ->
     typescriptResolutionCache t' !! k = Some c) /\
  (forall k c,
     k <> importExpr ->
     npmResolutionCache t !! k = Some c ->
     npmResolutionCache t' !! k = Some c).

End Survival.

(** ** More string primitives

    A character of a [string] stands for one UTF-16 code unit below 256. *)

Module JsText.
Import JsString.

(** The white space that [trim] removes, among the code units below 256:
    TAB, LF, VT, FF, CR, SP and NBSP. *)
Definition isWhiteSpace (c : ascii) : bool :=
  existsb (N.eqb (N_of_ascii c)) [9; 10; 11; 12; 13; 32; 160]%N.

Fixpoint trimStart (s : string) : string :=
  match s with
  | EmptyString => EmptyString
  | String c s' => if isWhiteSpace c then trimStart s' else s
  end.

Fixpoint trimEnd (s : string) : string :=
  match s with
  | EmptyString => EmptyString
  | String c s' =>
      match trimEnd s' with
      | EmptyString => if isWhiteSpace c then EmptyString else String c EmptyString
      | kept => String c kept
      end
  end.

(** [s.trim()] *)
Definition trim (s : string) : string := trimEnd (trimStart s).

(** [s.replaceAll(c, '')] for a one-character [c] *)
Fixpoint removeAll (c : ascii) (s : string) : string :=
  match s with
  | EmptyString => EmptyString
  | String d s' => if Ascii.eqb d c then removeAll c s' else String d (removeAll c s')
  end.

(** [s.includes(c)] for a one-character [c] *)
Fixpoint hasChar (c : ascii) (s : string) : bool :=
  match s with
  | EmptyString => false
  | String d s' => Ascii.eqb d c || hasChar c s'
  end.

(** [s.split(sep)] for a non-empty separator; [skip] counts the characters
    of a separator just met that are still to be passed. *)
Fixpoint splitOn (sep : string) (skip : nat) (s : string) : list string :=
  match s with
  | EmptyString => [EmptyString]
  | String c s' =>
      match skip with
      | S k => splitOn sep k s'
      | O =>
          if startsWith s sep
          then EmptyString :: splitOn sep (String.length sep - 1) s'
          else match splitOn sep 0 s' with
               | h :: r => String c h :: r
               | [] => [String c EmptyString]
               end
      end
  end.

(** [s.replace(pat, by)] for a string pattern and a replacement without
    [$]: the first occurrence only. *)
Fixpoint replaceFirst (pat by_ : string) (s : string) : string :=
  if startsWith s pat
  then by_ +:+ substringFrom (String.length pat) s
  else match s with
       | EmptyString => EmptyString
       | String c s' => String c (replaceFirst pat by_ s')
       end.

End JsText.

(** ** The listing of Gradle projects

    [processProjects] of src/packages/gradle/src/utils/get-gradle-report.ts. *)

Module Gradle.
Import JsString JsText.

(** What [processProjects] returns. *)
Record ProjectsListing : Type := {
  projectName : option string;
  compositeProjects : list string
}.

(** Calling a method on [undefined]. *)
Definition typeError : exn := Error "TypeError".

(** The name read from the text after [--- ]: the lines
    [let includedBuild] to the last assignment to it. *)
Definition includedBuildOf (dep : string) : outcome string :=
  let includedBuild :=
    if startsWith dep "Included build " then Some (substringFrom 15 dep)
    else if startsWith dep "Project " then Some (substringFrom 8 dep)
    else None in
  match includedBuild with
  | None => Throw typeError
  | Some named =>
      let cleaned := trim (removeAll "'" (dropSuffix named " (n)")) in
      Return (if startsWith cleaned ":" then substringFrom 1 cleaned else cleaned)
  end.

(** One turn of the loop [for (const line of projectsLines)]. *)
Definition processLine (acc : ProjectsListing) (line : string)
  : outcome ProjectsListing :=
  if startsWith line "Root project" then
    Return {| projectName := Some (trim (removeAll "'" (substringFrom 13 line)));
              compositeProjects := compositeProjects acc |}
  else if truthy (ofOption (projectName acc)) then
    match splitOn "--- " 0 line with
    | indents :: more =>
        if String.eqb indents "\" || String.eqb indents "+" then
          match more with
          | [] => Throw typeError
          | dep :: _ =>
              match includedBuildOf dep with
              | Throw e => Throw e
              | Return includedBuild =>
                  if truthy (VStr includedBuild)
                  then Return {| projectName := projectName acc;
                                 compositeProjects :=
                                   compositeProjects acc ++ [includedBuild] |}
                  else Return acc
              end
          end
        else Return acc
    | [] => Return acc
    end
  else Return acc.

Fixpoint processLines (acc : ProjectsListing) (projectsLines : list string)
  : outcome ProjectsListing :=
  match projectsLines with
  | [] => Return acc
  | line :: rest =>
      match processLine acc line with
      | Return acc' => processLines acc' rest
      | Throw e => Throw e
      end
  end.

Definition processProjects (projectsLines : list string) : outcome ProjectsListing :=
  processLines {| projectName := None; compositeProjects := [] |} projectsLines.

End Gradle.

Module Entries.
Import JsText.

(** An entry of [compositeProjects] as [processProjects] leaves it. *)
Definition clean (name : string) : Prop :=
  name <> "" /\ hasChar "'" name = false.

End Entries.

(** ** The migration of the graph cache directory

    src/packages/nx/src/migrations/update-19-1-0/move-graph-cache-directory.ts.
    The migration uses two methods of the [Tree] interface. *)

Module Migration.
Import JsString JsText.

Class Tree (T : Type) : Type := {
  read : T -> string -> option string;
  write : T -> string -> string -> T
}.

(** What the migration relies on: a file reads back as written, and writing
    one file leaves the others as they were. *)
Class TreeLaws (T : Type) `{Tree T} : Prop := {
  read_write : forall (t : T) (path content : string),
    read (write t path content) path = Some content;
  read_write_other : forall (t : T) (path other content : string),
    other <> path -> read (write t path content) other = read t other
}.

(** A tree held in memory: the files by path. *)
#[global] Instance memoryTree : Tree (gmap string string) := {|
  read := fun t path => t !! path;
  write := fun t path content => <[path := content]> t
|}.

Definition moveGraphCacheDirectory {T : Type} `{Tree T} (tree : T) : T :=
  match read tree ".gitignore" with
  | None => tree
  | Some gitignore =>
      if negb (truthy (VStr gitignore)) then tree
      else
        let includesNxWorkspaceData := includes gitignore ".nx/workspace-data" in
        if includesNxWorkspaceData then tree
        else
          let includesNxCache := includes gitignore ".nx/cache" in
          if negb includesNxCache then tree
          else
            let updatedGitignore :=
              replaceFirst ".nx/cache"
                (join (String "010"%char EmptyString) [".nx/cache"; ".nx/workspace-data"])
                gitignore in
            write tree ".gitignore" updatedGitignore
  end.

End Migration.

Module MigrationDemo.
Import Migration.

Definition newline : string := String "010"%char EmptyString.

(** A [.gitignore] that lists the cache directory only. *)
Definition gitignore : string :=
  "node_modules" +:+ newline +:+ ".nx/cache" +:+ newline +:+ "dist".

Definition workspace : gmap string string :=
  <[".gitignore" := gitignore]> (<["README.md" := "# demo"]> ∅).

(** The same with the workspace data directory listed after it. *)
Definition migrated : string :=
  "node_modules" +:+ newline +:+ ".nx/cache" +:+ newline +:+ ".nx/workspace-data"
  +:+ newline +:+ "dist".

End MigrationDemo.

(** ** The project reports of Gradle

    [processProjectReports] of src/packages/gradle/src/utils/get-gradle-report.ts,
    on a platform whose name does not start with [win]: [node:path] is
    [path.posix] there. The loop [while (index < projectReportLines.length)]
    can go round without moving [index]; it is run on fuel. *)

Module Reports.
Import JsString JsText Gradle.

Definition fileSeparator : string := "file://".

Definition newLineSeparator : string := String "010"%char EmptyString.

(** [s.substring(start, end)]: the bounds are put in order; a negative bound
    counts as 0, which is what the subtraction of [nat] gives. *)
Definition substringBetween (start end_ : nat) (s : string) : string :=
  String.substring (Nat.min start end_) (Nat.max start end_ - Nat.min start end_) s.

(** [const [_, second] = pieces] *)
Definition second (pieces : list string) : option string := nth_error pieces 1.

(** [new Array(n + 1).join('-')] *)
Fixpoint dashes (n : nat) : string :=
  match n with
  | O => EmptyString
  | S n' => String "-"%char (dashes n')
  end.

Definition andThen {A B : Type} (r : outcome A) (k : A -> outcome B) : outcome B :=
  match r with
  | Return a => k a
  | Throw e => Throw e
  end.

Record GradleReport : Type := {
  gradleFileToGradleProjectMap : gmap string string;
  buildFileToDepsMap : gmap string (option string);
  gradleFileToOutputDirsMap : gmap string (gmap string string);
  gradleProjectToTasksTypeMap : gmap string (gmap string string);
  gradleProjectToProjectName : gmap string string
}.

(** The maps of [processProjectReports]: the two it keeps to itself and the
    five it returns. *)
Record Collected : Type := {
  dependenciesMap : gmap string (option string);
  gradleProjectToGradleFileMap : gmap string string;
  returned : GradleReport
}.

Definition nothingCollected : Collected := {|
  dependenciesMap := ∅;
  gradleProjectToGradleFileMap := ∅;
  returned := {| gradleFileToGradleProjectMap := ∅; buildFileToDepsMap := ∅;
                 gradleFileToOutputDirsMap := ∅; gradleProjectToTasksTypeMap := ∅;
                 gradleProjectToProjectName := ∅ |}
|}.

(** The inner loop [while (index < length && !lines[index].includes(fileSeparator))]. *)
Fixpoint seekFrom (rest : list string) (index : nat) : nat :=
  match rest with
  | [] => index
  | line :: rest' =>
      if includes line fileSeparator then index else seekFrom rest' (S index)
  end.

Definition seek (projectReportLines : list string) (index : nat) : nat :=
  seekFrom (skipn index projectReportLines) index.

(** [const [_, file] = projectReportLines[index].split(fileSeparator)] *)
Definition reportFile (projectReportLines : list string) (index : nat)
  : outcome (option string) :=
  match nth_error projectReportLines index with
  | None => Throw typeError
  | Some line => Return (second (splitOn fileSeparator 0 line))
  end.

(** What the loop over [propertyReportLines] assigns. *)
Record Properties : Type := {
  prop_projectName : option string;
  prop_absBuildFilePath : option string;
  prop_absBuildDirPath : option string;
  outputDirMap : gmap string string
}.

(** The loop [while (i < tasksFileLines.length)] with the loop
    [while (tasksFileLines[++i] !== '')] inside it: [type] is the type of
    the group of tasks being read, if one is. *)
Fixpoint scanTasks (type : option string) (tasksFileLines : list string)
    (taskTypeMap : gmap string string) : outcome (gmap string string) :=
  match tasksFileLines with
  | [] =>
      match type with
      | Some _ => Throw typeError
      | None => Return taskTypeMap
      end
  | line :: rest =>
      match type with
      | Some type' =>
          if String.eqb line "" then scanTasks None rest taskTypeMap
          else
            let taskName := hd "" (splitOn " - " 0 line) in
            scanTasks type rest (<[taskName := type']> taskTypeMap)
      | None =>
          if endsWith line "tasks" then
            match rest with
            | underline :: rest' =>
                if String.eqb underline (dashes (String.length line))
                then scanTasks
                       (Some (substringBetween 0 (String.length line - 6) line))
                       rest' taskTypeMap
                else scanTasks None rest taskTypeMap
            | [] => scanTasks None rest taskTypeMap
            end
          else scanTasks None rest taskTypeMap
      end
  end.

Section Host.

Variable workspaceRoot : string.
Variable cwd : string.
Variable existsSync : option string -> bool.
Variable readFileSync : string -> outcome string.
Variable normalizePath : string -> string.

(** [existsSync(file) ? readFileSync(file).toString().split(newLineSeparator) : []] *)
Definition linesOf (file : option string) : outcome (list string) :=
  if existsSync file then
    match file with
    | Some path =>
        andThen (readFileSync path) (fun text => Return (splitOn newLineSeparator 0 text))
    | None => Throw typeError
    end
  else Return [].

(** One turn of [for (const line of propertyReportLines)]. *)
Definition propertyLine (acc : Properties) (line : string) : outcome Properties :=
  let acc1 :=
    if startsWith line "name: "
    then {| prop_projectName := Some (substringFrom 6 line);
            prop_absBuildFilePath := prop_absBuildFilePath acc;
            prop_absBuildDirPath := prop_absBuildDirPath acc;
            outputDirMap := outputDirMap acc |}
    else acc in
  let acc2 :=
    if startsWith line "buildFile: "
    then {| prop_projectName := prop_projectName acc1;
            prop_absBuildFilePath := Some (substringFrom 11 line);
            prop_absBuildDirPath := prop_absBuildDirPath acc1;
            outputDirMap := outputDirMap acc1 |}
    else acc1 in
  let acc3 :=
    if startsWith line "buildDir: "
    then {| prop_projectName := prop_projectName acc2;
            prop_absBuildFilePath := prop_absBuildFilePath acc2;
            prop_absBuildDirPath := Some (substringFrom 10 line);
            outputDirMap := outputDirMap acc2 |}
    else acc2 in
  if includes line "Dir: " then
    match splitOn ": " 0 line with
    | dirName :: dirPath :: _ =>
        let taskName := replaceFirst "Dir" "" dirName in
        Return {| prop_projectName := prop_projectName acc3;
                  prop_absBuildFilePath := prop_absBuildFilePath acc3;
                  prop_absBuildDirPath := prop_absBuildDirPath acc3;
                  outputDirMap :=
                    <[taskName := "{workspaceRoot}/" +:+ Path.relative cwd workspaceRoot dirPath]>
                      (outputDirMap acc3) |}
    | _ => Throw typeError
    end
  else Return acc3.

Fixpoint propertyLines (acc : Properties) (propertyReportLines : list string)
  : outcome Properties :=
  match propertyReportLines with
  | [] => Return acc
  | line :: rest => andThen (propertyLine acc line) (fun acc' => propertyLines acc' rest)
  end.

Definition noProperties : Properties := {|
  prop_projectName := None;
  prop_absBuildFilePath := None;
  prop_absBuildDirPath := None;
  outputDirMap := ∅
|}.

(** The block [if (line.endsWith(':dependencyReport'))]. *)
Definition dependencyReport (projectReportLines : list string) (line : string)
    (st : Collected) (index : nat) : outcome (Collected * nat) :=
  if endsWith line ":dependencyReport" then
    let gradleProject := substringBetween 7 (String.length line - 17) line in
    let index := seek projectReportLines index in
    andThen (reportFile projectReportLines index) (fun file =>
    Return ({| dependenciesMap := <[gradleProject := file]> (dependenciesMap st);
               gradleProjectToGradleFileMap := gradleProjectToGradleFileMap st;
               returned := returned st |}, index))
  else Return (st, index).

(** The block [if (line.endsWith('propertyReport'))]; the flag tells
    whether it ended in [continue]. *)
Definition propertyReport (projectReportLines : list string) (line : string)
    (st : Collected) (index : nat) : outcome (Collected * nat * bool) :=
  if endsWith line "propertyReport" then
    let gradleProject := substringBetween 7 (String.length line - 15) line in
    let index := seek projectReportLines index in
    andThen (reportFile projectReportLines index) (fun file =>
    andThen (linesOf file) (fun propertyReportLines =>
    andThen (propertyLines noProperties propertyReportLines) (fun props =>
    match prop_projectName props, prop_absBuildFilePath props, prop_absBuildDirPath props with
    | Some projectName, Some absBuildFilePath, Some absBuildDirPath =>
        if negb (truthy (VStr projectName)) || negb (truthy (VStr absBuildFilePath))
           || negb (truthy (VStr absBuildDirPath))
        then Return (st, index, true)
        else
          let buildFile := normalizePath (Path.relative cwd workspaceRoot absBuildFilePath) in
          let buildDir := Path.relative cwd workspaceRoot absBuildDirPath in
          let dirs :=
            <["classes" := "{workspaceRoot}/" +:+ Path.pjoin [buildDir; "classes"]]>
              (<["build" := "{workspaceRoot}/" +:+ buildDir]> (outputDirMap props)) in
          let report := returned st in
          Return
            ({| dependenciesMap := dependenciesMap st;
                gradleProjectToGradleFileMap :=
                  <[gradleProject := buildFile]> (gradleProjectToGradleFileMap st);
                returned :=
                  {| gradleFileToGradleProjectMap :=
                       <[buildFile := gradleProject]> (gradleFileToGradleProjectMap report);
                     buildFileToDepsMap :=
                       <[buildFile := mjoin (dependenciesMap st !! gradleProject)]>
                         (buildFileToDepsMap report);
                     gradleFileToOutputDirsMap :=
                       <[buildFile := dirs]> (gradleFileToOutputDirsMap report);
                     gradleProjectToTasksTypeMap := gradleProjectToTasksTypeMap report;
                     gradleProjectToProjectName :=
                       <[gradleProject := projectName]> (gradleProjectToProjectName report)
                  |} |}, index, false)
    | _, _, _ => Return (st, index, true)
    end)))
  else Return (st, index, false).

(** The block [if (line.endsWith('taskReport'))]. *)
Definition taskReport (projectReportLines : list string) (line : string)
    (st : Collected) (index : nat) : outcome (Collected * nat) :=
  if endsWith line "taskReport" then
    let gradleProject := substringBetween 7 (String.length line - 11) line in
    let index := seek projectReportLines index in
    andThen (reportFile projectReportLines index) (fun file =>
    andThen (linesOf file) (fun tasksFileLines =>
    andThen (scanTasks None tasksFileLines ∅) (fun taskTypeMap =>
    let report := returned st in
    Return
      ({| dependenciesMap := dependenciesMap st;
          gradleProjectToGradleFileMap := gradleProjectToGradleFileMap st;
          returned :=
            {| gradleFileToGradleProjectMap := gradleFileToGradleProjectMap report;
               buildFileToDepsMap := buildFileToDepsMap report;
               gradleFileToOutputDirsMap := gradleFileToOutputDirsMap report;
               gradleProjectToTasksTypeMap :=
                 <[gradleProject := taskTypeMap]> (gradleProjectToTasksTypeMap report);
               gradleProjectToProjectName := gradleProjectToProjectName report |} |},
       index))))
  else Return (st, index).

(** One turn of [while (index < projectReportLines.length)], for an [index]
    below the length: the maps and the [index] of the next turn. *)
Definition turn (projectReportLines : list string) (st : Collected) (index : nat)
  : outcome (Collected * nat) :=
  let line := trim (nth index projectReportLines "") in
  if startsWith line "> Task " then
    andThen (dependencyReport projectReportLines line st index) (fun '(st1, index1) =>
    andThen (propertyReport projectReportLines line st1 index1)
      (fun '(st2, index2, continued) =>
    if continued then Return (st2, index2)
    else
      andThen (taskReport projectReportLines line st2 index2) (fun '(st3, index3) =>
      Return (st3, S index3))))
  else Return (st, S index).

(** The loop, for [fuel] turns at most; [None] when they do not suffice. *)
Fixpoint turns (fuel : nat) (projectReportLines : list string) (st : Collected)
    (index : nat) : option (outcome Collected) :=
  match fuel with
  | O => None
  | S fuel' =>
      if (index <? List.length projectReportLines)%nat then
        match turn projectReportLines st index with
        | Return (st', index') => turns fuel' projectReportLines st' index'
        | Throw e => Some (Throw e)
        end
      else Some (Return st)
  end.

Definition processProjectReports (fuel : nat) (projectReportLines : list string)
  : option (outcome GradleReport) :=
  match turns fuel projectReportLines nothingCollected 0 with
  | Some (Return st) => Some (Return (returned st))
  | Some (Throw e) => Some (Throw e)
  | None => None
  end.

End Host.

End Reports.

Module ReportLines.
Import JsString JsText Reports.

(** A line of the report that starts a task, as the loop tells it. *)
Definition isTaskLine (line : string) : bool := startsWith (trim line) "> Task ".

(** A task line that one of the three blocks handles. *)
Definition isReportTask (line : string) : bool :=
  endsWith (trim line) ":dependencyReport" || endsWith (trim line) "propertyReport"
  || endsWith (trim line) "taskReport".

(** The three properties that the block of the property report asks for. *)
Definition complete (props : Properties) : bool :=
  truthy (ofOption (prop_projectName props))
  && truthy (ofOption (prop_absBuildFilePath props))
  && truthy (ofOption (prop_absBuildDirPath props)).

Definition emptyReport : GradleReport := returned nothingCollected.

(** The maps keyed by build file have the same keys, and the Gradle project
    of every build file has a project name. *)
Definition consistent (report : GradleReport) : Prop :=
  dom (gradleFileToGradleProjectMap report) = dom (buildFileToDepsMap report) /\
  dom (gradleFileToGradleProjectMap report) = dom (gradleFileToOutputDirsMap report) /\
  forall buildFile gradleProject,
    gradleFileToGradleProjectMap report !! buildFile = Some gradleProject ->
    is_Some (gradleProjectToProjectName report !! gradleProject).

End ReportLines.

Module ReportsDemo.
Import Reports.

(** The property report of the project [:app]. *)
Definition properties : string :=
  "name: app" +:+ newLineSeparator +:+ "buildFile: /ws/app/build.gradle"
  +:+ newLineSeparator +:+ "buildDir: /ws/app/build".

Definition propertiesFile : string := "/ws/app/build/reports/project/properties.txt".

Definition existsSync (file : option string) : bool :=
  match file with
  | Some path => String.eqb path propertiesFile
  | None => false
  end.

Definition readFileSync (path : string) : outcome string :=
  if String.eqb path propertiesFile then Return properties
  else Throw (Error "ENOENT").

Definition normalizePath (path : string) : string := JsString.slashes path.

(** The output of [projectReport] for the property report alone. *)
Definition projectReportLines : list string :=
  ["> Task :app:propertyReport";
   "See the report at: file://" +:+ propertiesFile;
   "BUILD SUCCESSFUL in 1s"].

(** A task line that holds the address of its report itself. *)
Definition addressed : string := "> Task file://:app:propertyReport".

End ReportsDemo.

(** ** The cached report

    [getGradleReport], [invalidateGradleReportCache] and
    [runProjectsForSettingsFiles] of
    src/packages/gradle/src/utils/get-gradle-report.ts. The variable
    [gradleReportCache] of the module and the runs of Gradle are the state;
    the marks of [performance] and the messages of [console.error] are left
    out. *)

Module ReportCache.
Import JsString JsText Gradle Reports.

(** A [GradleReport] with its two optional fields filled in. *)
Record FullReport : Type := {
  maps : GradleReport;
  settingsFileToProjectNameMap : gmap string (option string);
  projectNames : gset (option string)
}.

(** The state of the module, and the runs of Gradle so far: the task and
    the directory of each. *)
Record ModuleState : Type := {
  gradleReportCache : option FullReport;
  execs : list (string * string)
}.

Definition invalidateGradleReportCache (w : ModuleState) : ModuleState :=
  {| gradleReportCache := None; execs := execs w |}.

(** The three variables that the callback of [settingFiles.forEach] updates. *)
Record Gathered : Type := {
  gathered_lines : list string;
  gathered_settings : gmap string (option string);
  gathered_names : gset (option string)
}.

Definition nothingGathered : Gathered :=
  {| gathered_lines := []; gathered_settings := ∅; gathered_names := ∅ |}.

Section Host.

Variable workspaceRoot : string.
Variable cwd : string.
Variable existsSync : option string -> bool.
Variable readFileSync : string -> outcome string.
Variable normalizePath : string -> string.
(** [glob.sync('**/settings.{gradle.kts,gradle}')] *)
Variable settingFiles : list string.
(** [execGradle([task], { cwd }).toString()] *)
Variable execGradle : string -> string -> outcome string.

(** The callback of [settingFiles.forEach]. *)
Definition forSettingFile (g : Gathered) (log : list (string * string))
    (settingFile : string) : outcome Gathered * list (string * string) :=
  let settingDir := Path.dirname settingFile in
  let projectReportLines :=
    match execGradle "projectReport" settingDir with
    | Return output => gathered_lines g ++ splitOn newLineSeparator 0 output
    | Throw _ => gathered_lines g
    end in
  let log := log ++ [("projectReport", settingDir); ("projects", settingDir)] in
  match execGradle "projects" settingDir with
  | Throw _ =>
      (Return {| gathered_lines := projectReportLines;
                 gathered_settings := gathered_settings g;
                 gathered_names := gathered_names g |}, log)
  | Return output =>
      match processProjects (splitOn newLineSeparator 0 output) with
      | Throw e => (Throw e, log)
      | Return listing =>
          (Return {| gathered_lines := projectReportLines;
                     gathered_settings :=
                       <[settingFile := projectName listing]> (gathered_settings g);
                     gathered_names :=
                       list_to_set (map Some (compositeProjects listing))
                       ∪ ({[projectName listing]} ∪ gathered_names g) |}, log)
      end
  end.

Fixpoint forEachSettingFile (g : Gathered) (log : list (string * string))
    (files : list string) : outcome Gathered * list (string * string) :=
  match files with
  | [] => (Return g, log)
  | settingFile :: rest =>
      match forSettingFile g log settingFile with
      | (Return g', log') => forEachSettingFile g' log' rest
      | (Throw e, log') => (Throw e, log')
      end
  end.

Definition runProjectsForSettingsFiles (log : list (string * string))
  : outcome Gathered * list (string * string) :=
  forEachSettingFile nothingGathered log settingFiles.

(** [None] when the turns of the loop of [processProjectReports] do not
    suffice. *)
Definition getGradleReport (fuel : nat) (w : ModuleState)
  : option (outcome FullReport * ModuleState) :=
  match gradleReportCache w with
  | Some report => Some (Return report, w)
  | None =>
      match runProjectsForSettingsFiles (execs w) with
      | (Throw e, log) => Some (Throw e, {| gradleReportCache := None; execs := log |})
      | (Return g, log) =>
          match processProjectReports workspaceRoot cwd existsSync readFileSync
                  normalizePath fuel (gathered_lines g) with
          | None => None
          | Some (Throw e) =>
              Some (Throw e, {| gradleReportCache := None; execs := log |})
          | Some (Return report) =>
              let full := {| maps := report;
                             settingsFileToProjectNameMap := gathered_settings g;
                             projectNames := gathered_names g |} in
              Some (Return full, {| gradleReportCache := Some full; execs := log |})
          end
      end
  end.

End Host.

(** The runs of Gradle for a list of settings files: two for each. *)
Definition runsFor (settingFiles : list string) : list (string * string) :=
  flat_map (fun settingFile =>
              [("projectReport", Path.dirname settingFile);
               ("projects", Path.dirname settingFile)]) settingFiles.

End ReportCache.

(** ** The path primitives on sample inputs *)

Module PathExamples.
Import JsString Path.
Example dirname_file : dirname "apps/app1/src/main" = "apps/app1/src".
Proof. reflexivity. Qed.
Example dirname_bare : dirname "main" = ".".
Proof. reflexivity. Qed.
Example dirname_root : dirname "/a" = "/".
Proof. reflexivity. Qed.
Example dirname_trailing : dirname "a/b/" = "a".
Proof. reflexivity. Qed.
Example dirname_star : dirname "libs/*" = "libs".
Proof. reflexivity. Qed.
Example join_up : pjoin ["apps/app1/src"; "../lib/util"] = "apps/app1/lib/util".
Proof. reflexivity. Qed.
Example join_above : pjoin ["a"; "../../b"] = "../b".
Proof. reflexivity. Qed.
Example join_empty : pjoin ["libs"; ""] = "libs".
Proof. reflexivity. Qed.
Example relative_alias : relative "/work" "@org/" "@org/shared" = "shared".
Proof. reflexivity. Qed.
Example relative_up : relative "/work" "/work/a/b" "/work/c" = "../../c".
Proof. reflexivity. Qed.
Example split_scoped : split "/" "@org/shared/x" = ["@org"; "shared"; "x"].
Proof. reflexivity. Qed.
Example drop_star : dropSuffix "@org/*" "*" = "@org/".
Proof. reflexivity. Qed.
End PathExamples.

(** ** Facts about the string primitives *)

Module JsStringFacts.
Import JsString.

Lemma string_app_nil (b : string) : "" +:+ b = b.
Proof. reflexivity. Qed.

Lemma string_app_cons (c : ascii) (a b : string) :
  String c a +:+ b = String c (a +:+ b).
Proof. reflexivity. Qed.

Ltac push_app := repeat rewrite ?string_app_cons, ?string_app_nil.

Lemma string_app_assoc (a b c : string) : (a +:+ b) +:+ c = a +:+ b +:+ c.
Proof. induction a as [|x a IH]; push_app; [reflexivity | now rewrite IH]. Qed.

Lemma string_app_empty_r (a : string) : a +:+ "" = a.
Proof. induction a as [|x a IH]; push_app; [reflexivity | now rewrite IH]. Qed.

Lemma string_length_app (a b : string) :
  String.length (a +:+ b) = String.length a + String.length b.
Proof.
  induction a as [|x a IH]; push_app; simpl; [reflexivity | now rewrite IH].
Qed.

Lemma startsWith_app (p s : string) : startsWith (p +:+ s) p = true.
Proof.
  induction p as [|c p IH]; push_app; simpl; [reflexivity|].
  now rewrite Ascii.eqb_refl.
Qed.

Lemma startsWith_split (s p : string) :
  startsWith s p = true -> exists r, s = p +:+ r.
Proof.
  revert s; induction p as [|c p IH]; intros s H; simpl in *.
  - now exists s.
  - destruct s as [|d s]; [discriminate|].
    destruct (Ascii.eqb c d) eqn:E; [|discriminate].
    apply Ascii.eqb_eq in E; subst d.
    destruct (IH _ H) as [r ->]. now exists r.
Qed.

Lemma includes_here (s n : string) : startsWith s n = true -> includes s n = true.
Proof. intros H. destruct s; simpl in *; now rewrite H. Qed.

Lemma includes_later (c : ascii) (s n : string) :
  includes s n = true -> includes (String c s) n = true.
Proof. intros H. cbn [includes]. rewrite H. apply orb_true_r. Qed.

Lemma includes_app (a s n : string) :
  includes s n = true -> includes (a +:+ s) n = true.
Proof.
  induction a as [|c a IH]; intros H; push_app; [exact H|].
  apply includes_later; auto.
Qed.

Lemma split_nonempty (sep : ascii) (s : string) : split sep s <> [].
Proof.
  induction s as [|c s IH]; simpl; [discriminate|].
  destruct (Ascii.eqb c sep); [discriminate|].
  destruct (split sep s); discriminate.
Qed.

Lemma join_cons (sep x : string) (l : list string) :
  l <> [] -> join sep (x :: l) = x +:+ sep +:+ join sep l.
Proof. destruct l; [congruence | reflexivity]. Qed.

Lemma join_split (s : string) : join "/" (split "/" s) = s.
Proof.
  induction s as [|c s IH]; [reflexivity|].
  cbn [split].
  destruct (Ascii.eqb c "/") eqn:E.
  - apply Ascii.eqb_eq in E; subst c.
    rewrite join_cons by apply split_nonempty.
    now rewrite IH.
  - pose proof (split_nonempty "/" s) as Hne.
    destruct (split "/" s) as [|h r]; [congruence|].
    destruct r as [|h' r]; cbn [join] in *; push_app; now rewrite <- IH.
Qed.

Lemma split_app_sep (a b : string) :
  split "/" (a +:+ "/" +:+ b) = split "/" a ++ split "/" b.
Proof.
  induction a as [|c a IH]; [reflexivity|].
  rewrite (string_app_cons c a). cbn [split]. rewrite IH.
  destruct (Ascii.eqb c "/"); [reflexivity|].
  pose proof (split_nonempty "/" a) as Hne.
  destruct (split "/" a); [congruence | reflexivity].
Qed.

Lemma substringFrom_app (a b : string) :
  substringFrom (String.length a) (a +:+ b) = b.
Proof.
  induction a as [|c a IH]; push_app; simpl; [now destruct b | assumption].
Qed.

Lemma substring_prefix (a b : string) :
  String.substring 0 (String.length a) (a +:+ b) = a.
Proof.
  induction a as [|c a IH]; push_app; simpl; [now destruct b|]. now rewrite IH.
Qed.

Lemma endsWith_app (a p : string) : endsWith (a +:+ p) p = true.
Proof.
  unfold endsWith. rewrite string_length_app.
  replace (String.length a + String.length p - String.length p)
    with (String.length a) by lia.
  rewrite substringFrom_app, String.eqb_refl, andb_true_r.
  apply Nat.leb_le; lia.
Qed.

Lemma dropSuffix_app (a p : string) : dropSuffix (a +:+ p) p = a.
Proof.
  unfold dropSuffix. rewrite endsWith_app, string_length_app.
  replace (String.length a + String.length p - String.length p)
    with (String.length a) by lia.
  apply substring_prefix.
Qed.

End JsStringFacts.

(** ** The constructor-built state is a frame of every method *)

Module Frame.
Import Vocabulary.

Lemma same_refl (t : TargetProjectLocator) : sameConstructedState t t.
Proof. repeat split. Qed.

Lemma same_trans (t1 t2 t3 : TargetProjectLocator) :
  sameConstructedState t1 t2 -> sameConstructedState t2 t3 ->
  sameConstructedState t1 t3.
Proof.
  unfold sameConstructedState.
  intros (?&?&?&?&?&?) (?&?&?&?&?&?). repeat split; congruence.
Qed.

Lemma framed_ret {A : Type} (a : A) : framed (ret a).
Proof. intros w. apply same_refl. Qed.

Lemma framed_lift {A : Type} (r : outcome A) : framed (lift r).
Proof. intros w. apply same_refl. Qed.

Lemma framed_getThis : framed getThis.
Proof. intros w. apply same_refl. Qed.

Lemma framed_invoke {A : Type} (c : Call) (r : outcome A) : framed (invoke c r).
Proof. intros w. apply same_refl. Qed.

Lemma framed_npm_set (k : string) (v : option string) :
  framed (npmResolutionCache_set k v).
Proof. intros w. repeat split. Qed.

Lemma framed_ts_set (k : string) (v : option string) :
  framed (typescriptResolutionCache_set k v).
Proof. intros w. repeat split. Qed.

Lemma framed_bind {A B : Type} (m : M A) (k : A -> M B) :
  framed m -> (forall a, framed (k a)) -> framed (bind m k).
Proof.
  intros Hm Hk w. unfold bind.
  specialize (Hm w). destruct (m w) as [[a|e] w']; simpl in *; [|exact Hm].
  eapply same_trans; [exact Hm | apply Hk].
Qed.

Lemma framed_tryCatch {A : Type} (body : M A) (handler : exn -> M A) :
  framed body -> (forall e, framed (handler e)) -> framed (tryCatch body handler).
Proof.
  intros Hm Hk w. unfold tryCatch.
  specialize (Hm w). destruct (body w) as [[a|e] w']; simpl in *; [exact Hm|].
  eapply same_trans; [exact Hm | apply Hk].
Qed.

Create HintDb framed.
#[global] Hint Resolve framed_ret framed_lift framed_getThis framed_invoke
  framed_npm_set framed_ts_set : framed.

Ltac framed_step :=
  match goal with
  | |- framed (bind _ _) => apply framed_bind; [|intros ?]
  | |- framed (tryCatch _ _) => apply framed_tryCatch; [|intros ?]
  | |- framed (match ?x with _ => _ end) => destruct x
  | |- framed (let _ := _ in _) => cbv zeta
  | |- framed _ => solve [auto with framed]
  end.

Section Methods.
Variable host : Host.

Lemma framed_findNpmPackage (importExpr projectRoot : string) :
  framed (findNpmPackage host importExpr projectRoot).
Proof. unfold findNpmPackage. repeat framed_step. Qed.

Lemma framed_resolveImportWithTypescript (importExpr filePath : string) :
  framed (resolveImportWithTypescript host importExpr filePath).
Proof. unfold resolveImportWithTypescript. repeat framed_step. Qed.

Lemma framed_resolveViaRequire (importExpr filePath : string) :
  framed (resolveViaRequire host importExpr filePath).
Proof.
  unfold resolveViaRequire, resolveImportWithRequire. repeat framed_step.
Qed.

Lemma framed_findProjectWithImport (importExpr projectRoot filePath : string) :
  framed (findProjectWithImport host importExpr projectRoot filePath).
Proof.
  pose proof framed_findNpmPackage.
  pose proof framed_resolveImportWithTypescript.
  pose proof framed_resolveViaRequire.
  unfold findProjectWithImport. repeat framed_step.
Qed.

End Methods.

End Frame.

(** ** Which collaborators a method can call *)

Module Logs.
Import Vocabulary.

Section Kind.
Context {P : Call -> Prop}.

Lemma logs_silent {A : Type} (m : M A) :
  (forall w, calls (snd (m w)) = calls w) -> logs P m.
Proof. intros H w. exists []. rewrite app_nil_r. split; [apply H | constructor]. Qed.

Lemma logs_ret {A : Type} (a : A) : logs P (ret a).
Proof. now apply logs_silent. Qed.

Lemma logs_lift {A : Type} (r : outcome A) : logs P (lift r).
Proof. now apply logs_silent. Qed.

Lemma logs_getThis : logs P getThis.
Proof. now apply logs_silent. Qed.

Lemma logs_npm_set (k : string) (v : option string) :
  logs P (npmResolutionCache_set k v).
Proof. now apply logs_silent. Qed.

Lemma logs_ts_set (k : string) (v : option string) :
  logs P (typescriptResolutionCache_set k v).
Proof. now apply logs_silent. Qed.

Lemma logs_invoke {A : Type} (c : Call) (r : outcome A) : P c -> logs P (invoke c r).
Proof. intros H w. exists [c]. split; [reflexivity | now constructor]. Qed.

Lemma logs_bind {A B : Type} (m : M A) (k : A -> M B) :
  logs P m -> (forall a, logs P (k a)) -> logs P (bind m k).
Proof.
  intros Hm Hk w. unfold bind.
  destruct (Hm w) as (d & Hd & Hf). destruct (m w) as [[a|e] w']; cbn [snd] in *.
  - destruct (Hk a w') as (d' & Hd' & Hf'). exists (d ++ d').
    rewrite Hd', Hd, app_assoc. split; [reflexivity | now apply Forall_app].
  - now exists d.
Qed.

Lemma logs_tryCatch {A : Type} (body : M A) (handler : exn -> M A) :
  logs P body -> (forall e, logs P (handler e)) -> logs P (tryCatch body handler).
Proof.
  intros Hm Hk w. unfold tryCatch.
  destruct (Hm w) as (d & Hd & Hf). destruct (body w) as [[a|e] w']; cbn [snd] in *.
  - now exists d.
  - destruct (Hk e w') as (d' & Hd' & Hf'). exists (d ++ d').
    rewrite Hd', Hd, app_assoc. split; [reflexivity | now apply Forall_app].
Qed.

End Kind.

Ltac logs_step :=
  match goal with
  | |- logs _ (bind _ _) => apply logs_bind; [|intros ?]
  | |- logs _ (tryCatch _ _) => apply logs_tryCatch; [|intros ?]
  | |- logs _ (invoke _ _) => apply logs_invoke; reflexivity
  | |- logs _ (match ?x with _ => _ end) => destruct x
  | |- logs _ (let _ := _ in _) => cbv zeta
  | |- logs _ _ =>
      first [apply logs_ret | apply logs_lift | apply logs_getThis
            | apply logs_npm_set | apply logs_ts_set]
  end.

Lemma logs_findNpmPackage (host : Host) (importExpr projectRoot : string) :
  logs (fun c => isPackageWork c = true) (findNpmPackage host importExpr projectRoot).
Proof. unfold findNpmPackage. repeat logs_step. Qed.

Lemma logs_resolveImportWithTypescript (host : Host) (importExpr filePath : string) :
  logs (fun c => isLanguageResolution c = true)
    (resolveImportWithTypescript host importExpr filePath).
Proof. unfold resolveImportWithTypescript. repeat logs_step. Qed.

Lemma count_app (f : Call -> bool) (l k : list Call) :
  count f (l ++ k) = count f l + count f k.
Proof. unfold count. now rewrite List.filter_app, length_app. Qed.

Lemma count_none (f : Call -> bool) (l : list Call) :
  Forall (fun c => f c = false) l -> count f l = 0.
Proof.
  unfold count. induction 1 as [|c l Hc _ IH]; simpl; [reflexivity|].
  now rewrite Hc.
Qed.

End Logs.

(** ** What the pure queries read *)

Module Reads.
Import JsString JsStringFacts Imported Vocabulary.

Lemma findProjectOfResolvedModule_same (t t' : TargetProjectLocator) (m : string) :
  sameConstructedState t t' ->
  findProjectOfResolvedModule t' m = findProjectOfResolvedModule t m.
Proof.
  intros (Hn&_&Hp&_). unfold findProjectOfResolvedModule, findMatchingProjectFiles.
  now rewrite Hn, Hp.
Qed.

Lemma firstResolvedProject_same (host : Host) (t t' : TargetProjectLocator)
    (path e : string) (targets : list string) :
  sameConstructedState t t' ->
  firstResolvedProject host t' path e targets =
  firstResolvedProject host t path e targets.
Proof.
  intros H. induction targets as [|p rest IH]; simpl; [reflexivity|].
  now rewrite IH, (findProjectOfResolvedModule_same t t').
Qed.

Lemma resolveViaPaths_same (host : Host) (t t' : TargetProjectLocator) (e : string) :
  sameConstructedState t t' ->
  resolveViaPaths host t' e = resolveViaPaths host t e.
Proof.
  intros H. unfold resolveViaPaths.
  assert (findPaths t' e = findPaths t e) as ->.
  { unfold findPaths. destruct H as (_&_&_&_&_&Hp). now rewrite Hp. }
  destruct (findPaths t e) as [[path [targets|member]]|]; [|reflexivity|reflexivity].
  f_equal. now apply firstResolvedProject_same.
Qed.

(** A specifier is its package name, or continues it after a slash. *)
Lemma packageName_prefix (e : string) :
  let name := parsePackageNameFromImportExpression e in
  e = name \/ exists rest, e = name +:+ "/" +:+ rest.
Proof.
  cbv zeta. unfold parsePackageNameFromImportExpression.
  pose proof (join_split e) as J.
  pose proof (split_nonempty "/" e) as Hne.
  destruct (split "/" e) as [|h tl]; [congruence|].
  destruct (startsWith e "@").
  - destruct tl as [|x [|y z]].
    + left. now rewrite <- J.
    + left. now rewrite <- J.
    + right. exists (join "/" (y :: z)). rewrite <- J at 1.
      change (firstn 2 (h :: x :: y :: z)) with [h; x].
      rewrite !join_cons by discriminate.
      change (join "/" [h; x]) with (h +:+ "/" +:+ x).
      now rewrite !string_app_assoc.
  - destruct tl as [|x z].
    + left. now rewrite <- J.
    + right. exists (join "/" (x :: z)). rewrite <- J at 1.
      now rewrite join_cons by discriminate.
Qed.

Lemma string_app_inv_head (a b c : string) : a +:+ b = a +:+ c -> b = c.
Proof.
  induction a as [|x a IH]; push_app; intros H; [exact H|].
  injection H as H. auto.
Qed.

(** The key written by "nothing found, cache for later" is never the key
    that [findNpmPackage] reads for the same call. *)
Lemma npmImportForProject_ne (e r : string) : npmImportForProject e r <> e.
Proof.
  unfold npmImportForProject.
  destruct (packageName_prefix e) as [H|[rest H]]; intros K;
    remember (parsePackageNameFromImportExpression e) as name eqn:Hn;
    clear Hn; subst e.
  - apply (f_equal String.length) in K.
    rewrite !string_length_app in K. simpl in K. lia.
  - apply string_app_inv_head in K. discriminate K.
Qed.

End Reads.

Module Rerun.
Import JsString JsStringFacts Imported Vocabulary Reads.

Lemma after_nil (w : World) : after w [] = w.
Proof. destruct w as [t cs]. unfold after. simpl. now rewrite app_nil_r. Qed.

Lemma after_after (w : World) (d d' : list Call) :
  after (after w d) d' = after w (d ++ d').
Proof. unfold after. simpl. now rewrite app_assoc. Qed.

Lemma Forall_sublist {A : Type} (P : A -> Prop) (l k : list A) :
  sublist l k -> Forall P k -> Forall P l.
Proof.
  induction 1 as [|x l k _ IH|x l k _ IH]; intros H;
    [constructor | | ]; inversion H; subst; auto.
Qed.

Ltac same_world :=
  unfold after; cbn [this calls]; rewrite <- ?app_assoc; reflexivity.

Section Stages.
Variable host : Host.

Lemma findNpmPackage_hit (e r : string) (w : World) (c : option string) :
  npmResolutionCache (this w) !! npmImportForProject e r = Some c ->
  findNpmPackage host e r w = (Return (ofCached c), w).
Proof.
  intros H. unfold findNpmPackage, bind, getThis, ret.
  unfold npmImportForProject in H. now rewrite H.
Qed.

(** A lookup that misses the cache and matches no node leaves the
    instance alone and is repeated as it was by the next call. *)
Ltac missed Hc :=
  eexists VUndefined, _, _; split; [reflexivity|]; cbn [this calls];
  split; [rewrite <- ?app_assoc; reflexivity|];
  split; [repeat split|]; split; [reflexivity|]; split; [reflexivity|];
  split; [repeat constructor|];
  intros w2 (_&_&_&Hsame&_) Hkey; cbn [this] in Hsame, Hkey;
  rewrite Hkey, Hc, ?Hsame;
  repeat match goal with H : _ = _ |- _ => rewrite H end;
  eexists; split; [same_world|]; split; [reflexivity | discriminate].

Lemma findNpmPackage_twice (e r : string) (w : World) :
  exists v d1 w1,
    findNpmPackage host e r w = (Return v, w1) /\
    calls w1 = calls w ++ d1 /\
    sameConstructedState (this w) (this w1) /\
    typescriptResolutionCache (this w1) = typescriptResolutionCache (this w) /\
    (forall k, k <> npmImportForProject e r ->
       npmResolutionCache (this w1) !! k = npmResolutionCache (this w) !! k) /\
    Forall (fun c => isLanguageResolution c = false) d1 /\
    forall w2,
      sameConstructedState (this w1) (this w2) ->
      npmResolutionCache (this w2) !! npmImportForProject e r =
      npmResolutionCache (this w1) !! npmImportForProject e r ->
      exists d2,
        findNpmPackage host e r w2 = (Return v, after w2 d2) /\
        sublist d2 d1 /\
        (truthy v = true -> d2 = []).
Proof.
  destruct w as [t cs].
  unfold findNpmPackage, npmImportForProject, bind, tryCatch, getThis, ret,
    invoke, lift, npmResolutionCache_set.
  cbn [this calls fst snd].
  set (K := parsePackageNameFromImportExpression e +:+ "__" +:+ r).
  set (dir := Path.pjoin [workspaceRoot host; r]).
  set (pn := parsePackageNameFromImportExpression e).
  destruct (npmResolutionCache t !! K) as [c|] eqn:Hc.
  - exists (ofCached c), [], {| this := t; calls := cs |}.
    cbn [this calls]. rewrite app_nil_r.
    repeat split; auto.
    intros w2 _ H2. exists []. rewrite after_nil, H2, Hc.
    repeat split; auto.
  - destruct (findExternalPackageJsonPath host pn dir) as [p|x] eqn:Hf;
      cbn [this calls]; [|missed Hc].
    destruct (truthy (ofOption p)) eqn:Hp; [|missed Hc].
    destruct (readFileSync host (default "" p)) as [content|x] eqn:Hr;
      cbn [this calls]; [|missed Hc].
    destruct (parseJson host content) as [json|x] eqn:Hj;
      cbn [this calls]; [|missed Hc].
    destruct (find (matchesDescriptor json) (npmProjects t)) as [n|] eqn:Hn;
      cbn [this calls]; [|missed Hc].
    eexists (VStr (ext_name n)), _, _; split; [reflexivity|]; cbn [this calls].
    split; [rewrite <- ?app_assoc; reflexivity|].
    split; [repeat split|]. split; [reflexivity|].
    split; [intros k Hk; simpl; now rewrite lookup_insert_ne|].
    split; [repeat constructor|].
    intros w2 _ H2. simpl in H2. rewrite H2, lookup_insert_eq.
    exists []. rewrite after_nil. repeat split; auto. apply sublist_nil_l.
Qed.

Ltac rerun_close :=
  first [ exists []; rewrite after_nil; split; [reflexivity|]
        | eexists; split; [same_world|] ];
  (split; [first [apply sublist_nil_l | reflexivity]|]);
  first [intros _; reflexivity | intros [? ?]; discriminate].

Lemma resolveImportWithTypescript_twice (e f : string) (w : World) :
  exists r1 d1 w1,
    resolveImportWithTypescript host e f w = (r1, w1) /\
    calls w1 = calls w ++ d1 /\
    sameConstructedState (this w) (this w1) /\
    npmResolutionCache (this w1) = npmResolutionCache (this w) /\
    forall w2,
      sameConstructedState (this w1) (this w2) ->
      typescriptResolutionCache (this w2) !! e =
      typescriptResolutionCache (this w1) !! e ->
      exists d2,
        resolveImportWithTypescript host e f w2 = (r1, after w2 d2) /\
        sublist d2 d1 /\
        ((exists v, r1 = Return v) -> d2 = []).
Proof.
  destruct w as [t cs].
  unfold resolveImportWithTypescript, bind, getThis, ret, invoke,
    typescriptResolutionCache_set.
  cbn [this calls].
  assert (Hq : forall w2 m, sameConstructedState t (this w2) ->
            findProjectOfResolvedModule (this w2) m =
            findProjectOfResolvedModule t m)
    by (intros; now apply findProjectOfResolvedModule_same).
  assert (Ha : forall w2, sameConstructedState t (this w2) ->
            tsc_absolutePath (tsConfig (this w2)) = tsc_absolutePath (tsConfig t))
    by (intros w2 (_&_&_&_&Ht&_); now rewrite Ht).
  destruct (typescriptResolutionCache t !! e) as [c|] eqn:Hc.
  - destruct c as [m|]; cbn [ofCached truthy];
      [destruct (negb (m =? "")%string && negb (includes m "node_modules/")) eqn:Hb;
       [destruct (truthy (findProjectOfResolvedModule t m)) eqn:Ht|]|];
      (eexists _, [], _; split; [reflexivity|]; cbn [this calls];
       split; [now rewrite app_nil_r|]; split; [repeat split|];
       split; [reflexivity|];
       intros w2 Hs Hk; rewrite Hk, Hc; cbn [ofCached truthy];
       rewrite ?Hb, ?(Hq w2 _ Hs), ?Ht; rerun_close).
  - destruct (resolveModuleByImport host e f (tsc_absolutePath (tsConfig t)))
      as [[m|]|x] eqn:Hr; cbn [this calls ofOption truthy].
    + destruct (negb (m =? "")%string) eqn:Hm; cbn [andb];
        [destruct (negb (includes m "node_modules/")) eqn:Hb;
         [destruct (truthy (findProjectOfResolvedModule t m)) eqn:Ht|]|];
        (eexists _, _, _; split; [reflexivity|]; cbn [this calls];
         split; [reflexivity|]; split; [repeat split|];
         split; [reflexivity|];
         intros w2 Hs Hk; simpl in Hs, Hk;
         rewrite Hk, lookup_insert_eq; cbn [ofCached truthy andb];
         rewrite ?Hm, ?Hb, ?(Hq w2 _ Hs), ?Ht; cbn [andb]; rerun_close).
    + eexists _, _, _; split; [reflexivity|]; cbn [this calls].
      split; [reflexivity|]. split; [repeat split|]. split; [reflexivity|].
      intros w2 Hs Hk; simpl in Hs, Hk.
      rewrite Hk, lookup_insert_eq. cbn [ofCached]. rerun_close.
    + eexists _, _, _; split; [reflexivity|]; cbn [this calls].
      split; [reflexivity|]. split; [repeat split|]. split; [reflexivity|].
      intros w2 Hs Hk; simpl in Hs, Hk.
      rewrite Hk, Hc, (Ha w2 Hs), Hr. rerun_close.
Qed.

Lemma resolveViaRequire_twice (e f : string) (w : World) :
  exists x,
    resolveViaRequire host e f w =
      (Return x, after w [CallRequireResolve e (Path.dirname f)]) /\
    forall w2,
      sameConstructedState (this w) (this w2) ->
      resolveViaRequire host e f w2 =
        (Return x, after w2 [CallRequireResolve e (Path.dirname f)]).
Proof.
  unfold resolveViaRequire, resolveImportWithRequire, tryCatch, bind, getThis,
    ret, invoke.
  destruct (requireResolve host e (Path.dirname f)) as [abs|x]; cbn [this calls].
  - eexists; split; [reflexivity|]. intros w2 Hs.
    now rewrite (findProjectOfResolvedModule_same _ _ _ Hs).
  - eexists; split; [reflexivity|]. reflexivity.
Qed.

Lemma findProjectWithImport_fallback (e r f : string) (w : World) :
  isRelativePath e = false ->
  resolveViaPaths host (this w) e = Return None ->
  builtInModuleSet_has host e = false ->
  findProjectWithImport host e r f w = fallbackChain host (this w) e r f w.
Proof.
  intros H1 H2 H3. unfold findProjectWithImport, fallbackChain, languageStep.
  unfold bind at 1. unfold getThis. now rewrite H1, H2, H3.
Qed.

Lemma languageStep_twice (t : TargetProjectLocator) (e f : string) (w : World) :
  sameConstructedState t (this w) ->
  exists r1 d1 w1,
    languageStep host t e f w = (r1, w1) /\
    calls w1 = calls w ++ d1 /\
    sameConstructedState (this w) (this w1) /\
    npmResolutionCache (this w1) = npmResolutionCache (this w) /\
    forall t' w2,
      sameConstructedState t t' ->
      sameConstructedState (this w1) (this w2) ->
      typescriptResolutionCache (this w2) !! e =
      typescriptResolutionCache (this w1) !! e ->
      exists d2,
        languageStep host t' e f w2 = (r1, after w2 d2) /\
        sublist d2 d1 /\
        ((exists v, r1 = Return v) -> d2 = []).
Proof.
  intros Ht. unfold languageStep.
  destruct (tsc_config (tsConfig t)) as [config|] eqn:Hcfg.
  - destruct (resolveImportWithTypescript_twice e f w)
      as (r1 & d1 & w1 & H1 & H2 & H3 & H4 & H5).
    exists r1, d1, w1. repeat (split; [assumption|]).
    intros t' w2 (_&_&_&_&Hc&_) Hs Hk. rewrite Hc, Hcfg. now apply H5.
  - exists (Return VUndefined), [], w. unfold ret.
    split; [reflexivity|]. split; [now rewrite app_nil_r|].
    split; [apply Frame.same_refl|]. split; [reflexivity|].
    intros t' w2 (_&_&_&_&Hc&_) Hs Hk. rewrite Hc, Hcfg.
    exists []. rewrite after_nil. repeat split. apply sublist_nil_l.
Qed.

Lemma fallbackChain_twice (t : TargetProjectLocator) (e r f : string) (w : World) :
  sameConstructedState t (this w) ->
  exists r1 d1 w1,
    fallbackChain host t e r f w = (r1, w1) /\
    calls w1 = calls w ++ d1 /\
    sameConstructedState (this w) (this w1) /\
    forall t',
      sameConstructedState t t' ->
      exists d2,
        fallbackChain host t' e r f w1 = (r1, after w1 d2) /\
        sublist d2 d1 /\
        ((exists v, r1 = Return v) ->
         Forall (fun c => isLanguageResolution c = false) d2).
Proof.
  intros Ht. unfold fallbackChain.
  destruct (findNpmPackage_twice e r w)
    as (v & dA & wa & HA & HcA & HsA & HtA & HnA & HfA & HrA).
  unfold bind at 1. rewrite HA.
  destruct (truthy v) eqn:Hv.
  { exists (Return v), dA, wa. unfold ret.
    do 3 (split; [auto|]). intros t' Ht'.
    destruct (HrA wa (Frame.same_refl _) eq_refl) as (d2 & H2 & Hsub & Hnil).
    exists d2. unfold bind. rewrite H2, Hv.
    split; [reflexivity|]. split; [assumption|].
    intros _. rewrite (Hnil eq_refl). constructor. }
  assert (Hta : sameConstructedState t (this wa))
    by (eapply Frame.same_trans; eassumption).
  destruct (languageStep_twice t e f wa Hta)
    as (rB & dB & wb & HB & HcB & HsB & HnB & HrB).
  unfold bind at 1. rewrite HB.
  assert (Hab : sameConstructedState (this wa) (this wb)) by exact HsB.
  assert (Hwb : sameConstructedState (this w) (this wb))
    by (eapply Frame.same_trans; eassumption).
  destruct rB as [u|x].
  2:{ exists (Throw x), (dA ++ dB), wb.
      split; [reflexivity|]. split; [now rewrite HcB, HcA, app_assoc|].
      split; [assumption|]. intros t' Ht'.
      destruct (HrA wb Hab) as (dA2 & HA2 & HsubA & _); [now rewrite HnB|].
      destruct (HrB t' (after wb dA2) Ht' (Frame.same_refl _) eq_refl)
        as (dB2 & HB2 & HsubB & _).
      exists (dA2 ++ dB2). unfold bind at 1. rewrite HA2, Hv.
      unfold bind at 1. rewrite HB2, after_after.
      split; [reflexivity|]. split; [now apply sublist_app|].
      intros [? ?]; discriminate. }
  destruct (truthy u) eqn:Hu.
  { exists (Return u), (dA ++ dB), wb. unfold ret.
    split; [reflexivity|]. split; [now rewrite HcB, HcA, app_assoc|].
    split; [assumption|]. intros t' Ht'.
    destruct (HrA wb Hab) as (dA2 & HA2 & HsubA & _); [now rewrite HnB|].
    destruct (HrB t' (after wb dA2) Ht' (Frame.same_refl _) eq_refl)
      as (dB2 & HB2 & HsubB & HnilB).
    rewrite (HnilB (ex_intro _ u eq_refl)) in *.
    exists (dA2 ++ []). unfold bind at 1. rewrite HA2, Hv.
    unfold bind at 1. rewrite HB2, after_after, Hu.
    split; [reflexivity|]. split; [now apply sublist_app|].
    intros _. rewrite app_nil_r. eapply Forall_sublist; eassumption. }
  destruct (resolveViaRequire_twice e f wb) as (x & HC & HrC).
  cbv beta iota. unfold bind at 1. rewrite HC.
  set (req := CallRequireResolve e (Path.dirname f)) in *.
  destruct x as [found|].
  { exists (Return found), (dA ++ dB ++ [req]), (after wb [req]). unfold ret.
    split; [reflexivity|].
    split; [cbn [after calls]; now rewrite HcB, HcA, <- !app_assoc|].
    split; [assumption|]. intros t' Ht'.
    destruct (HrA (after wb [req]) Hab) as (dA2 & HA2 & HsubA & _);
      [cbn [after this]; now rewrite HnB|].
    destruct (HrB t' (after (after wb [req]) dA2) Ht' (Frame.same_refl _) eq_refl)
      as (dB2 & HB2 & HsubB & HnilB).
    rewrite (HnilB (ex_intro _ u eq_refl)) in *.
    exists (dA2 ++ [] ++ [req]). unfold bind at 1. rewrite HA2, Hv.
    unfold bind at 1. rewrite HB2, after_after, Hu.
    unfold bind at 1. erewrite HrC by apply Frame.same_refl.
    rewrite !after_after.
    split; [now rewrite <- !app_assoc|].
    split; [repeat apply sublist_app; auto; reflexivity|].
    intros _. apply Forall_app. split; [eapply Forall_sublist; eassumption|].
    repeat constructor. }
  set (w1 := snd (npmResolutionCache_set e None (after wb [req]))).
  assert (Hw1 : sameConstructedState (this wb) (this w1)) by (repeat split).
  exists (Return VNull), (dA ++ dB ++ [req]), w1. unfold ret.
  split; [reflexivity|].
  split; [cbn; now rewrite HcB, HcA, <- !app_assoc|].
  split; [eapply Frame.same_trans; eassumption|]. intros t' Ht'.
  destruct (HrA w1) as (dA2 & HA2 & HsubA & _).
  { eapply Frame.same_trans; eassumption. }
  { cbn. rewrite lookup_insert_ne by (apply not_eq_sym, npmImportForProject_ne).
    now rewrite HnB. }
  destruct (HrB t' (after w1 dA2) Ht' Hw1 eq_refl)
    as (dB2 & HB2 & HsubB & HnilB).
  rewrite (HnilB (ex_intro _ u eq_refl)) in *.
  exists (dA2 ++ [] ++ [req]). unfold bind at 1. rewrite HA2, Hv.
  unfold bind at 1. rewrite HB2, after_after, Hu.
  unfold bind at 1. erewrite HrC by exact Hw1.
  rewrite !after_after.
  split.
  { unfold bind, npmResolutionCache_set, ret, after, w1.
    cbn. rewrite insert_insert_eq. now rewrite <- !app_assoc. }
  split; [repeat apply sublist_app; auto; reflexivity|].
  intros _. apply Forall_app. split; [eapply Forall_sublist; eassumption|].
  repeat constructor.
Qed.

End Stages.
End Rerun.

(** ** Repeated calls *)

Module Twice.
Import JsString JsStringFacts Imported Vocabulary Reads Rerun.

Section Calls.
Variable host : Host.

(** Once the key of [findNpmPackage] holds a node name, a call makes no
    collaborator call at all. *)
Lemma cached_match_no_calls (e r f : string) (w : World) (name : string) :
  npmResolutionCache (this w) !! npmImportForProject e r = Some (Some name) ->
  name <> "" ->
  calls (snd (findProjectWithImport host e r f w)) = calls w.
Proof.
  intros Hk Hname. unfold findProjectWithImport.
  unfold bind at 1. unfold getThis.
  destruct (isRelativePath e); [reflexivity|].
  unfold bind at 1, lift.
  destruct (resolveViaPaths host (this w) e) as [[found|]|err];
    [reflexivity| |reflexivity].
  destruct (builtInModuleSet_has host e); [reflexivity|].
  unfold bind at 1. rewrite (findNpmPackage_hit host e r w _ Hk).
  cbn [ofCached truthy].
  apply String.eqb_neq in Hname. now rewrite Hname.
Qed.

Lemma twice (e r f : string) (w : World) :
  exists r1 d1 w1 d2,
    findProjectWithImport host e r f w = (r1, w1) /\
    calls w1 = calls w ++ d1 /\
    findProjectWithImport host e r f w1 = (r1, after w1 d2) /\
    sublist d2 d1 /\
    ((exists v, r1 = Return v) ->
     Forall (fun c => isLanguageResolution c = false) d2) /\
    (isRelativePath e = true \/ resolveViaPaths host (this w) e <> Return None \/
     builtInModuleSet_has host e = true -> d1 = []).
Proof.
  destruct (isRelativePath e) eqn:Hrel.
  { eexists _, [], w, []. rewrite after_nil, app_nil_r.
    unfold findProjectWithImport, bind, getThis, ret. rewrite Hrel.
    repeat split; constructor. }
  destruct (resolveViaPaths host (this w) e) as [[found|]|err] eqn:Hpaths.
  { eexists _, [], w, []. rewrite after_nil, app_nil_r.
    unfold findProjectWithImport, bind, getThis, ret, lift. rewrite Hrel, Hpaths.
    repeat split; constructor. }
  2:{ eexists _, [], w, []. rewrite after_nil, app_nil_r.
      unfold findProjectWithImport, bind, getThis, ret, lift. rewrite Hrel, Hpaths.
      repeat split; constructor. }
  destruct (builtInModuleSet_has host e) eqn:Hbuiltin.
  { exists (Return VNull), [], (snd (npmResolutionCache_set e None w)), [].
    rewrite after_nil, app_nil_r.
    unfold findProjectWithImport, bind, getThis, ret, lift.
    rewrite Hrel, Hpaths, Hbuiltin.
    rewrite (resolveViaPaths_same host (this w)) by (repeat split).
    rewrite Hpaths. cbn. rewrite insert_insert_eq.
    repeat split; constructor. }
  rewrite (findProjectWithImport_fallback host e r f w Hrel Hpaths Hbuiltin).
  destruct (fallbackChain_twice host (this w) e r f w (Frame.same_refl _))
    as (r1 & d1 & w1 & H1 & Hc & Hs & Hre).
  destruct (Hre (this w1) Hs) as (d2 & H2 & Hsub & Hts).
  exists r1, d1, w1, d2.
  rewrite (findProjectWithImport_fallback host e r f w1 Hrel); auto.
  - repeat (split; [assumption|]). intros [H|[H|H]]; congruence.
  - rewrite (resolveViaPaths_same host (this w)); auto.
Qed.

End Calls.
End Twice.

(** ** A specifier that nothing resolves *)

Module NoMatch.
Import JsString Imported Vocabulary Reads Rerun.

Lemma findProjectOfResolvedModule_not_null (t : TargetProjectLocator) (p : string) :
  findProjectOfResolvedModule t p <> VNull.
Proof.
  unfold findProjectOfResolvedModule.
  destruct (startsWith p "node_modules/" || includes p "/node_modules/");
    [discriminate|].
  now destruct (findMatchingProjectFiles t _).
Qed.

Lemma firstResolvedProject_truthy (host : Host) (t : TargetProjectLocator)
    (path e : string) (targets : list string) (v : value) :
  firstResolvedProject host t path e targets = Some v -> truthy v = true.
Proof.
  induction targets as [|p rest IH]; cbn [firstResolvedProject]; [discriminate|].
  destruct (truthy (findProjectOfResolvedModule t (expandTarget host path e p)))
    eqn:Hp; [|exact IH].
  intros H. injection H as <-. exact Hp.
Qed.

Lemma resolveViaPaths_truthy (host : Host) (t : TargetProjectLocator)
    (e : string) (v : value) :
  resolveViaPaths host t e = Return (Some v) -> truthy v = true.
Proof.
  unfold resolveViaPaths.
  destruct (findPaths t e) as [[path [targets|member]]|]; [|discriminate|discriminate].
  intros [= H]. eapply firstResolvedProject_truthy; eauto.
Qed.

Section Chain.
Variable host : Host.

Lemma resolveViaRequire_not_null (e f : string) (w w' : World) (v : value) :
  resolveViaRequire host e f w = (Return (Some v), w') -> v <> VNull.
Proof.
  unfold resolveViaRequire, resolveImportWithRequire, tryCatch, bind, getThis,
    ret, invoke.
  destruct (requireResolve host e (Path.dirname f)); cbn [this calls];
    [|discriminate].
  intros H. injection H as <- _. apply findProjectOfResolvedModule_not_null.
Qed.

Lemma languageStep_logs (t : TargetProjectLocator) (e f : string) (w : World) :
  exists d,
    calls (snd (languageStep host t e f w)) = calls w ++ d /\
    Forall (fun c => isLanguageResolution c = true) d.
Proof.
  unfold languageStep. destruct (tsc_config (tsConfig t)).
  - apply Logs.logs_resolveImportWithTypescript.
  - exists []. rewrite app_nil_r. split; [reflexivity | constructor].
Qed.

(** When the chain ends with [null], the runtime resolver was invoked
    exactly once on the way. *)
Lemma fallbackChain_no_match (t : TargetProjectLocator) (e r f : string) (w : World) :
  fst (fallbackChain host t e r f w) = Return VNull ->
  exists d,
    calls (snd (fallbackChain host t e r f w)) = calls w ++ d /\
    count isRuntimeResolution d = 1.
Proof.
  destruct (fallbackChain host t e r f w) as [res w'] eqn:E. cbn [fst snd].
  intros ->. unfold fallbackChain in E.
  destruct (Logs.logs_findNpmPackage host e r w) as (dA & HcA & HfA).
  destruct (findNpmPackage_twice host e r w) as (v & _ & wa & HA & _).
  rewrite HA in HcA. cbn [snd] in HcA.
  unfold bind at 1 in E. rewrite HA in E.
  destruct (truthy v) eqn:Hv.
  { injection E as -> _. discriminate Hv. }
  destruct (languageStep_logs t e f wa) as (dB & HcB & HfB).
  unfold bind at 1 in E.
  destruct (languageStep host t e f wa) as [[u|x] wb]; cbn [snd] in HcB;
    [|discriminate E].
  destruct (truthy u) eqn:Hu.
  { injection E as -> _. discriminate Hu. }
  destruct (resolveViaRequire_twice host e f wb) as (x & HC & _).
  unfold bind at 1 in E. rewrite HC in E.
  destruct x as [found|].
  { injection E as -> _. now apply resolveViaRequire_not_null in HC. }
  injection E as <-.
  exists (dA ++ dB ++ [CallRequireResolve e (Path.dirname f)]).
  split.
  - cbn. now rewrite HcB, HcA, <- !app_assoc.
  - rewrite !Logs.count_app.
    rewrite (Logs.count_none _ dA), (Logs.count_none _ dB); [reflexivity| |].
    + eapply Forall_impl; [exact HfB|]. now intros [].
    + eapply Forall_impl; [exact HfA|]. now intros [].
Qed.

Lemma no_match_runs_runtime_once (e r f : string) (w : World) :
  builtInModuleSet_has host e = false ->
  fst (findProjectWithImport host e r f w) = Return VNull ->
  exists d,
    calls (snd (findProjectWithImport host e r f w)) = calls w ++ d /\
    count isRuntimeResolution d = 1.
Proof.
  intros Hb.
  destruct (isRelativePath e) eqn:Hrel.
  { unfold findProjectWithImport, bind, getThis, ret. rewrite Hrel. cbn [fst].
    intros H. injection H as H.
    now apply findProjectOfResolvedModule_not_null in H. }
  destruct (resolveViaPaths host (this w) e) as [[v|]|err] eqn:Hpaths.
  { unfold findProjectWithImport, bind, getThis, ret, lift. rewrite Hrel, Hpaths.
    cbn [fst]. intros H. injection H as ->.
    apply resolveViaPaths_truthy in Hpaths. discriminate Hpaths. }
  2:{ unfold findProjectWithImport, bind, getThis, ret, lift. rewrite Hrel, Hpaths.
      discriminate. }
  rewrite (findProjectWithImport_fallback host e r f w Hrel Hpaths Hb).
  apply fallbackChain_no_match.
Qed.

End Chain.
End NoMatch.

(** ** The properties of [findProjectWithImport] *)

Lemma builtInModuleSet_has_plain (host : Host) (m : string) :
  In m (builtinModules host) -> builtInModuleSet_has host m = true.
Proof.
  intros H. unfold builtInModuleSet_has, builtInModuleSet.
  apply existsb_exists. exists m. split; [|apply String.eqb_refl].
  apply in_or_app. now left.
Qed.

Lemma builtInModuleSet_has_prefixed (host : Host) (m : string) :
  In m (builtinModules host) -> builtInModuleSet_has host ("node:" +:+ m) = true.
Proof.
  intros H. unfold builtInModuleSet_has, builtInModuleSet.
  apply existsb_exists. exists ("node:" +:+ m). split; [|apply String.eqb_refl].
  apply in_or_app. right. now apply (in_map (fun x => "node:" +:+ x)).
Qed.

(** C10. A call to [findProjectWithImport], whatever its arguments and
    however it ends, leaves [nodes], [externalNodes], [projectRootMappings],
    [npmProjects], [tsConfig] and [paths] as they were; of the eight fields of
    the instance only [typescriptResolutionCache] and [npmResolutionCache] can
    differ afterwards. *)
Theorem findProjectWithImport_frame (host : Host)
    (importExpr projectRoot filePath : string) (w : World) :
  let t := this w in
  let t' := this (snd (findProjectWithImport host importExpr projectRoot filePath w)) in
  nodes t' = nodes t /\
  externalNodes t' = externalNodes t /\
  projectRootMappings t' = projectRootMappings t /\
  npmProjects t' = npmProjects t /\
  tsConfig t' = tsConfig t /\
  paths t' = paths t.
Proof.
  exact (Frame.framed_findProjectWithImport host importExpr projectRoot filePath w).
Qed.

(** C8. For a builtin module name, plain or with the [node:] prefix, a call
    invokes no collaborator, in particular not the package-descriptor
    locator; and when the specifier is not relative and no alias maps it to a
    project, the call stores [null] under the specifier in
    [npmResolutionCache], touches nothing else and returns [null]. *)
Theorem builtin_short_circuit (host : Host) (m importExpr projectRoot filePath : string)
    (w : World) :
  In m (builtinModules host) ->
  importExpr = m \/ importExpr = "node:" +:+ m ->
  let result := findProjectWithImport host importExpr projectRoot filePath w in
  calls (snd result) = calls w /\
  (Imported.isRelativePath importExpr = false ->
   resolveViaPaths host (this w) importExpr = Return None ->
   fst result = Return VNull /\
   npmResolutionCache (this (snd result)) =
     <[importExpr := None]> (npmResolutionCache (this w)) /\
   typescriptResolutionCache (this (snd result)) =
     typescriptResolutionCache (this w)).
Proof.
  intros Hin Hspec.
  assert (Hb : builtInModuleSet_has host importExpr = true).
  { destruct Hspec as [->| ->];
      [now apply builtInModuleSet_has_plain | now apply builtInModuleSet_has_prefixed]. }
  cbv zeta.
  unfold findProjectWithImport, bind, getThis, ret, lift, npmResolutionCache_set.
  destruct (Imported.isRelativePath importExpr).
  { split; [reflexivity | discriminate]. }
  destruct (resolveViaPaths host (this w) importExpr) as [[found|]|err].
  { split; [reflexivity | intros _; discriminate]. }
  2:{ split; [reflexivity | intros _; discriminate]. }
  rewrite Hb. cbn. repeat split.
Qed.

Lemma builtin_short_circuit_witness :
  let h := Demo.host [] in
  In "fs" (builtinModules h) /\
  let result :=
    findProjectWithImport h "node:fs" "apps/app1" "apps/app1/src/main" (Demo.fresh h) in
  calls (snd result) = [] /\ fst result = Return VNull.
Proof.
  cbv zeta. split; [simpl; auto|].
  destruct (builtin_short_circuit (Demo.host []) "fs" "node:fs" "apps/app1"
              "apps/app1/src/main" (Demo.fresh (Demo.host [])))
    as [Hcalls Hrest]; [simpl; auto | right; reflexivity |].
  split; [exact Hcalls|].
  destruct Hrest as [Hres _]; [reflexivity | reflexivity | exact Hres].
Defined.

(** C9, as amended. Two successive calls with the same arguments end the same
    way, with the same value or the same exception, and the second leaves
    both caches as the first left them. The second call invokes no
    collaborator that the first did not invoke; after a first call that
    returned it never invokes the language resolver; neither call invokes
    anything when the specifier is relative, mapped to a project by an alias,
    or a builtin; and the second invokes nothing once the package key of the
    call holds a node name. *)
Theorem findProjectWithImport_twice (host : Host)
    (importExpr projectRoot filePath : string) (w : World) :
  exists r1 d1 w1 d2,
    findProjectWithImport host importExpr projectRoot filePath w = (r1, w1) /\
    calls w1 = calls w ++ d1 /\
    findProjectWithImport host importExpr projectRoot filePath w1 =
      (r1, {| this := this w1; calls := calls w1 ++ d2 |}) /\
    sublist d2 d1 /\
    ((exists v, r1 = Return v) ->
     Vocabulary.count Vocabulary.isLanguageResolution d2 = 0) /\
    (Imported.isRelativePath importExpr = true \/
     resolveViaPaths host (this w) importExpr <> Return None \/
     builtInModuleSet_has host importExpr = true -> d1 = [] /\ d2 = []) /\
    (forall name,
       npmResolutionCache (this w1) !!
         Vocabulary.npmImportForProject importExpr projectRoot = Some (Some name) ->
       name <> "" -> d2 = []).
Proof.
  destruct (Twice.twice host importExpr projectRoot filePath w)
    as (r1 & d1 & w1 & d2 & H1 & Hc & H2 & Hsub & Hts & Hearly).
  exists r1, d1, w1, d2. repeat (split; [assumption|]).
  split; [intros Hr; apply Logs.count_none; auto|].
  split.
  { intros Hcase. specialize (Hearly Hcase). subst d1. split; [reflexivity|].
    now apply sublist_nil_r in Hsub. }
  intros name Hk Hname.
  pose proof (Twice.cached_match_no_calls host importExpr projectRoot filePath
                w1 name Hk Hname) as Hno.
  rewrite H2 in Hno. cbn in Hno.
  rewrite <- (app_nil_r (calls w1)) in Hno at 2.
  now apply app_inv_head in Hno.
Qed.

(** C9, as stated, fails: a specifier that only the runtime resolver finds is
    resolved to the same project twice, and the second call invokes the
    package-descriptor locator and the runtime resolver again. *)
Lemma second_call_repeats_work :
  let h := Demo.requireFindsLib (Demo.host []) in
  let first := findProjectWithImport h "lib-alias" "apps/app1" "apps/app1/src/main"
                 (Demo.fresh h) in
  let second := findProjectWithImport h "lib-alias" "apps/app1" "apps/app1/src/main"
                  (snd first) in
  fst first = Return (VStr "lib") /\
  fst second = Return (VStr "lib") /\
  calls (snd second) =
    calls (snd first) ++
    [CallFindExternalPackageJsonPath "lib-alias" "/work/apps/app1";
     CallRequireResolve "lib-alias" "apps/app1/src"] /\
  calls (snd second) <> calls (snd first).
Proof. vm_compute. repeat split; discriminate. Qed.

(** C1, as amended. Not every outcome is memoized under the specifier and
    the project root: what the runtime resolver finds, or fails to find, is
    never stored. For a specifier that is not a builtin and that a call
    resolves to nothing, returning [null], a repeated call with the same
    arguments returns [null] again; it does not run the language resolution
    again, and the runtime resolution runs once in each of the two calls. *)
Theorem no_match_repeats_runtime_resolution (host : Host)
    (importExpr projectRoot filePath : string) (w : World) :
  builtInModuleSet_has host importExpr = false ->
  fst (findProjectWithImport host importExpr projectRoot filePath w) = Return VNull ->
  exists d1 w1 d2,
    findProjectWithImport host importExpr projectRoot filePath w = (Return VNull, w1) /\
    calls w1 = calls w ++ d1 /\
    findProjectWithImport host importExpr projectRoot filePath w1 =
      (Return VNull, {| this := this w1; calls := calls w1 ++ d2 |}) /\
    Vocabulary.count Vocabulary.isRuntimeResolution d1 = 1 /\
    Vocabulary.count Vocabulary.isRuntimeResolution d2 = 1 /\
    Vocabulary.count Vocabulary.isLanguageResolution d2 = 0.
Proof.
  intros Hb Hnull.
  destruct (Twice.twice host importExpr projectRoot filePath w)
    as (r1 & d1 & w1 & d2 & H1 & Hc & H2 & _ & Hts & _).
  rewrite H1 in Hnull. cbn [fst] in Hnull. subst r1.
  exists d1, w1, d2. repeat (split; [assumption|]).
  destruct (NoMatch.no_match_runs_runtime_once host importExpr projectRoot filePath w Hb)
    as (e1 & He1 & Hn1); [now rewrite H1|].
  destruct (NoMatch.no_match_runs_runtime_once host importExpr projectRoot filePath w1 Hb)
    as (e2 & He2 & Hn2); [now rewrite H2|].
  rewrite H1 in He1. rewrite H2 in He2. cbn in He1, He2.
  rewrite Hc in He1. apply app_inv_head in He1. apply app_inv_head in He2.
  subst e1 e2. repeat split; auto.
  apply Logs.count_none, Hts. now exists VNull.
Qed.

Lemma no_match_repeats_runtime_resolution_witness :
  let h := Demo.host [] in
  exists d1 w1 d2,
    findProjectWithImport h "nothing" "apps/app1" "apps/app1/src/main" (Demo.fresh h)
      = (Return VNull, w1) /\
    calls w1 = calls (Demo.fresh h) ++ d1 /\
    findProjectWithImport h "nothing" "apps/app1" "apps/app1/src/main" w1
      = (Return VNull, {| this := this w1; calls := calls w1 ++ d2 |}) /\
    Vocabulary.count Vocabulary.isRuntimeResolution d1 = 1 /\
    Vocabulary.count Vocabulary.isRuntimeResolution d2 = 1 /\
    Vocabulary.count Vocabulary.isLanguageResolution d2 = 0.
Proof.
  cbv zeta.
  apply (no_match_repeats_runtime_resolution (Demo.host []) "nothing" "apps/app1"
           "apps/app1/src/main" (Demo.fresh (Demo.host []))).
  - reflexivity.
  - vm_compute. reflexivity.
Defined.

(** C1, as stated, fails: a specifier that nothing resolves returns [null]
    twice, and after the two calls the runtime resolver has run twice, not
    once. *)
Lemma no_match_is_not_memoized :
  let h := Demo.host [] in
  let first := findProjectWithImport h "nothing" "apps/app1" "apps/app1/src/main"
                 (Demo.fresh h) in
  let second := findProjectWithImport h "nothing" "apps/app1" "apps/app1/src/main"
                  (snd first) in
  fst first = Return VNull /\
  fst second = Return VNull /\
  Vocabulary.count Vocabulary.isLanguageResolution (calls (snd second)) = 1 /\
  Vocabulary.count Vocabulary.isRuntimeResolution (calls (snd second)) = 2 /\
  Vocabulary.count Vocabulary.isRuntimeResolution (calls (snd second)) <> 1.
Proof. vm_compute. repeat split. discriminate. Qed.

(** Where the [null] of "nothing found, cache for later" lands. The first
    call stores it under the bare specifier, the key read by
    [findNpmPackage] stays empty, and the second call locates the package
    descriptor again. *)
Lemma no_match_package_lookup_repeated :
  let h := Demo.host [] in
  let first := findProjectWithImport h "nothing" "apps/app1" "apps/app1/src/main"
                 (Demo.fresh h) in
  let second := findProjectWithImport h "nothing" "apps/app1" "apps/app1/src/main"
                  (snd first) in
  npmResolutionCache (this (snd first)) !! "nothing" = Some None /\
  npmResolutionCache (this (snd first)) !!
    Vocabulary.npmImportForProject "nothing" "apps/app1" = None /\
  Vocabulary.count Vocabulary.isPackageLookup (calls (snd second)) = 2.
Proof. vm_compute. repeat split. Qed.

Module DependencyDirs.
Import JsString JsStringFacts Vocabulary.

Lemma hasDependencyDir_join (l : list string) :
  hasDependencyDir l = true ->
  startsWith (join "/" l) "node_modules/" = true \/
  includes (join "/" l) "/node_modules/" = true.
Proof.
  induction l as [|s rest IH]; [discriminate|].
  destruct rest as [|s' rest']; [discriminate|].
  cbn [hasDependencyDir]. intros H.
  rewrite join_cons by discriminate.
  apply orb_true_iff in H. destruct H as [H|H].
  - apply String.eqb_eq in H. subst s. left.
    rewrite <- string_app_assoc. apply (startsWith_app "node_modules/").
  - right. destruct (IH H) as [Hs|Hi].
    + apply includes_app, includes_here.
      rewrite string_app_cons, string_app_nil. cbn [startsWith].
      now rewrite Ascii.eqb_refl.
    + rewrite <- string_app_assoc. now apply includes_app.
Qed.

(** The guard of [findProjectOfResolvedModule] fires on every path that
    traverses an installed-dependency directory. *)
Lemma traverses_guard (p : string) :
  traversesNodeModules p = true ->
  startsWith p "node_modules/" || includes p "/node_modules/" = true.
Proof.
  unfold traversesNodeModules. intros H.
  apply hasDependencyDir_join in H. rewrite join_split in H.
  apply orb_true_iff. exact H.
Qed.

Lemma findProjectOfResolvedModule_guard (t : TargetProjectLocator) (p : string) :
  traversesNodeModules p = true -> findProjectOfResolvedModule t p = VUndefined.
Proof.
  intros H. unfold findProjectOfResolvedModule. now rewrite traverses_guard.
Qed.

End DependencyDirs.

(** C6. A path that traverses an installed-dependency directory, that is, a
    path with a [node_modules] component before its last one, is mapped to no
    project by [findProjectOfResolvedModule], whatever the project roots are;
    hence by no strategy: a relative import that joins to such a path returns
    [undefined], an alias target that expands to it is passed over, a module
    the language resolver reports there (or the cache holds) gives
    [undefined], and so does a file the runtime resolver reports there. *)
Theorem node_modules_never_internal (host : Host) (t : TargetProjectLocator)
    (p : string) :
  Vocabulary.traversesNodeModules p = true ->
  findProjectOfResolvedModule t p = VUndefined /\
  (forall e r f w,
     this w = t -> Imported.isRelativePath e = true ->
     Path.pjoin [Path.dirname f; e] = p ->
     findProjectWithImport host e r f w = (Return VUndefined, w)) /\
  (forall path e target rest,
     expandTarget host path e target = p ->
     firstResolvedProject host t path e (target :: rest) =
     firstResolvedProject host t path e rest) /\
  (forall e f w,
     this w = t ->
     typescriptResolutionCache t !! e = Some (Some p) \/
     (typescriptResolutionCache t !! e = None /\
      resolveModuleByImport host e f (tsc_absolutePath (tsConfig t)) =
        Return (Some p)) ->
     fst (resolveImportWithTypescript host e f w) = Return VUndefined) /\
  (forall e f w resolved,
     this w = t ->
     requireResolve host e (Path.dirname f) = Return resolved ->
     Path.relative (cwd host) (workspaceRoot host) resolved = p ->
     fst (resolveViaRequire host e f w) = Return (Some VUndefined)).
Proof.
  intros Hp.
  pose proof (DependencyDirs.findProjectOfResolvedModule_guard t p Hp) as Hg.
  split; [exact Hg|]. split; [|split; [|split]].
  - intros e r f w Ht Hrel Hjoin.
    unfold findProjectWithImport, bind, getThis, ret.
    now rewrite Hrel, Hjoin, Ht, Hg.
  - intros path e target rest Hexp. cbn [firstResolvedProject].
    now rewrite Hexp, Hg.
  - intros e f w Ht Hcase.
    unfold resolveImportWithTypescript, bind, getThis, ret, invoke,
      typescriptResolutionCache_set.
    rewrite Ht. destruct Hcase as [Hc|[Hc Hr]].
    + rewrite Hc. cbn [ofCached]. rewrite Hg.
      now destruct (truthy (VStr p) && negb (JsString.includes p "node_modules/")).
    + rewrite Hc, Hr. cbn [ofOption fst]. rewrite Hg.
      now destruct (truthy (VStr p) && negb (JsString.includes p "node_modules/")).
  - intros e f w resolved Ht Hr Hrel.
    unfold resolveViaRequire, resolveImportWithRequire, tryCatch, bind, getThis,
      ret, invoke.
    rewrite Hr. cbn [this fst]. now rewrite Hrel, Ht, Hg.
Qed.

Lemma node_modules_never_internal_witness :
  Vocabulary.traversesNodeModules "libs/shared/node_modules/dep/index.js" = true /\
  Imported.findProjectForPath "libs/shared/node_modules/dep/index.js"
    (projectRootMappings Demo.vendored) = Some "dep" /\
  findProjectOfResolvedModule Demo.vendored "libs/shared/node_modules/dep/index.js"
    = VUndefined.
Proof.
  split; [reflexivity|]. split; [vm_compute; reflexivity|].
  apply (node_modules_never_internal (Demo.host []) Demo.vendored
           "libs/shared/node_modules/dep/index.js").
  reflexivity.
Defined.

Module AliasTable.
Import JsString JsStringFacts Vocabulary.

(** Scanning the keys and reading the entry of the key found is scanning
    the entries. *)
Lemma find_key_entry (P : string -> bool) (table : PathsTable) :
  match find P (map fst table) with
  | Some k =>
      match getProperty k table with
      | Some entry => Some (k, entry)
      | None => None
      end
  | None => None
  end = option_map (fun entry => (fst entry, Targets (snd entry)))
          (find (fun entry => P (fst entry)) table).
Proof.
  induction table as [|[k0 v0] rest IH]; [reflexivity|].
  cbn [map fst find]. destruct (P k0) eqn:Hk0.
  - unfold getProperty. cbn [getOwn]. now rewrite String.eqb_refl.
  - rewrite <- IH. destruct (find P (map fst rest)) as [k|] eqn:Hf; [|reflexivity].
    apply find_some in Hf. destruct Hf as [_ Hk].
    unfold getProperty. cbn [getOwn]. destruct (String.eqb k0 k) eqn:E; [|reflexivity].
    apply String.eqb_eq in E. congruence.
Qed.

Lemma wildcardMatches_prefix (e prefix : string) :
  wildcardMatches e (prefix +:+ "/*") =
  startsWith e (prefix +:+ "/") || String.eqb e prefix.
Proof.
  unfold wildcardMatches. rewrite endsWith_app, dropSuffix_app. cbn [andb].
  change (prefix +:+ "/*") with (prefix +:+ "/" +:+ "*").
  now rewrite <- string_app_assoc, dropSuffix_app.
Qed.

Lemma findPaths_exact (t : TargetProjectLocator) (table : PathsTable)
    (e : string) (targets : list string) :
  paths t = Some table -> getOwn e table = Some targets ->
  findPaths t e = Some (e, Targets targets).
Proof. intros Hp He. unfold findPaths, getProperty. now rewrite Hp, He. Qed.

Lemma findPaths_wildcard (t : TargetProjectLocator) (table : PathsTable) (e : string) :
  paths t = Some table -> getOwn e table = None -> inheritedMember e = false ->
  findPaths t e = firstWildcardMatch table e.
Proof.
  intros Hp He Hi. unfold findPaths, firstWildcardMatch. rewrite Hp.
  unfold getProperty at 1. rewrite He, Hi.
  apply find_key_entry.
Qed.

(** A name that the table does not declare and that every object inherits
    is found on the prototype. *)
Lemma findPaths_inherited (t : TargetProjectLocator) (table : PathsTable) (e : string) :
  paths t = Some table -> getOwn e table = None -> inheritedMember e = true ->
  findPaths t e = Some (e, Inherited e).
Proof. intros Hp He Hi. unfold findPaths, getProperty. now rewrite Hp, He, Hi. Qed.

End AliasTable.

(** C7, as amended. [findPaths] first reads the specifier as a key of the
    alias table: when the table declares the key, wherever it was declared,
    its target list is returned as it is. Otherwise, for a specifier that is
    not the name of a member that every object inherits ([constructor],
    [toString] and the like), the table is scanned, and the first pattern in
    declaration order that ends in [/*] and covers the specifier is used
    with its targets; a pattern [prefix/*] covers the specifiers that start
    with [prefix/] and the specifier [prefix] itself. Nothing is scored. *)
Theorem findPaths_exact_then_first_wildcard (t : TargetProjectLocator)
    (table : PathsTable) (importExpr : string) :
  paths t = Some table ->
  (forall targets,
     getOwn importExpr table = Some targets ->
     findPaths t importExpr = Some (importExpr, Targets targets)) /\
  (getOwn importExpr table = None ->
   inheritedMember importExpr = false ->
   findPaths t importExpr = Vocabulary.firstWildcardMatch table importExpr) /\
  (forall prefix,
     wildcardMatches importExpr (prefix +:+ "/*") =
     JsString.startsWith importExpr (prefix +:+ "/") || String.eqb importExpr prefix) /\
  (forall pattern,
     wildcardMatches importExpr pattern = true ->
     JsString.endsWith pattern "/*" = true).
Proof.
  intros Hp. split; [|split; [|split]].
  - intros targets. now apply AliasTable.findPaths_exact.
  - now apply AliasTable.findPaths_wildcard.
  - apply AliasTable.wildcardMatches_prefix.
  - intros pattern H. unfold wildcardMatches in H.
    now apply andb_true_iff in H.
Qed.

Lemma findPaths_exact_then_first_wildcard_witness :
  let t := this (Demo.fresh (Demo.host Demo.shadowedExact)) in
  paths t = Some Demo.shadowedExact /\
  findPaths t "@org/shared" = Some ("@org/shared", Targets ["apps/lib/src/index.ts"]) /\
  findPaths t "@org/other" = Some ("@org/*", Targets ["libs/*"]) /\
  findPaths t "@org" = Some ("@org/*", Targets ["libs/*"]).
Proof.
  cbv zeta.
  destruct (findPaths_exact_then_first_wildcard
              (this (Demo.fresh (Demo.host Demo.shadowedExact)))
              Demo.shadowedExact "@org/shared" eq_refl) as (Hexact & _).
  split; [reflexivity|]. split; [apply Hexact; reflexivity|].
  split; reflexivity.
Defined.

(** C7, as stated, fails: the first pattern in declaration order that covers
    [@org/shared] is [@org/*], yet the exact key declared after it is used. *)
Lemma findPaths_not_first_declared :
  ~ (forall (t : TargetProjectLocator) (table : PathsTable) (importExpr : string),
       paths t = Some table ->
       findPaths t importExpr = Vocabulary.firstDeclaredMatch table importExpr).
Proof.
  intros H.
  specialize (H (this (Demo.fresh (Demo.host Demo.shadowedExact)))
                Demo.shadowedExact "@org/shared" eq_refl).
  vm_compute in H. discriminate H.
Qed.

Module RootIndex.
Import JsString JsStringFacts Imported Vocabulary.

Lemma fold_insert_lookup (nodes : list (string * ProjectGraphProjectNode))
    (root k : string) :
  (forall k' n', In (k', n') nodes -> slashes (node_root n') = root -> k' = k) ->
  forall m : gmap string string,
    m !! root = Some k \/
    (exists n, In (k, n) nodes /\ slashes (node_root n) = root) ->
    fold_left (fun m kn => <[slashes (node_root (snd kn)) := fst kn]> m) nodes m
      !! root = Some k.
Proof.
  induction nodes as [|[k0 n0] rest IH]; intros Huniq m Hsrc; cbn [fold_left fst snd].
  - destruct Hsrc as [H|[n [[] _]]]; exact H.
  - apply IH; [intros k' n' Hin; apply Huniq; now right|].
    destruct (decide (slashes (node_root n0) = root)) as [E|E].
    + left. rewrite E, lookup_insert_eq. f_equal.
      apply (Huniq k0 n0); [now left | exact E].
    + rewrite lookup_insert_ne by exact E.
      destruct Hsrc as [H|[n [[Hin|Hin] Hr]]]; [now left | | right; eauto].
      injection Hin as -> ->. contradiction.
Qed.

Lemma fold_insert_lookup_none (nodes : list (string * ProjectGraphProjectNode))
    (root : string) :
  (forall k n, In (k, n) nodes -> slashes (node_root n) <> root) ->
  forall m : gmap string string,
    fold_left (fun m kn => <[slashes (node_root (snd kn)) := fst kn]> m) nodes m
      !! root = m !! root.
Proof.
  induction nodes as [|[k0 n0] rest IH]; intros Hnone m; cbn [fold_left fst snd];
    [reflexivity|].
  rewrite IH by (intros k n Hin; apply (Hnone k n); now right).
  apply lookup_insert_ne. apply (Hnone k0 n0). now left.
Qed.

Lemma index_only (t : TargetProjectLocator) (root k : string)
    (n : ProjectGraphProjectNode) :
  indexed t -> onlyProjectRootedAt t root k n ->
  projectRootMappings t !! root = Some k.
Proof.
  intros Hi (Hin & _ & Hr & Huniq). rewrite Hi.
  apply fold_insert_lookup; [exact Huniq | right; eauto].
Qed.

Lemma index_none (t : TargetProjectLocator) (root : string) :
  indexed t -> noProjectRootedAt t root -> projectRootMappings t !! root = None.
Proof.
  intros Hi Hnone. rewrite Hi.
  unfold createProjectRootMappings. now rewrite fold_insert_lookup_none.
Qed.

End RootIndex.

Module PathFacts.
Import JsString JsStringFacts Path.

Lemma dropCommon_app (l a b : list string) :
  dropCommon (l ++ a) (l ++ b) = dropCommon a b.
Proof.
  induction l as [|x l IH]; [reflexivity|].
  cbn [app dropCommon]. now rewrite String.eqb_refl.
Qed.

(** Below any working directory, [@org/shared] is the child [shared] of
    [@org/]. *)
Lemma relative_alias_child (cwd : string) :
  relative cwd "@org/" "@org/shared" = "shared".
Proof.
  unfold relative, resolveSegments, normalizeSegments.
  change (String.eqb "@org/" "@org/shared") with false.
  change (startsWith "@org/" "/") with false.
  change (startsWith "@org/shared" "/") with false.
  cbv iota. rewrite !split_app_sep, !fold_left_app.
  set (stack := fold_left (normStep false) (split "/" cwd) []).
  change (fold_left (normStep false) (split "/" "@org/") stack)
    with ("@org" :: stack).
  change (fold_left (normStep false) (split "/" "@org/shared") stack)
    with ("shared" :: "@org" :: stack).
  cbn [rev]. rewrite <- app_assoc.
  rewrite dropCommon_app. reflexivity.
Qed.

End PathFacts.

Lemma findProjectOfResolvedModule_project (t : TargetProjectLocator)
    (p k : string) (n : ProjectGraphProjectNode) :
  JsString.startsWith p "node_modules/" || JsString.includes p "/node_modules/" = false ->
  JsString.startsWith p "./" = false ->
  Imported.findProjectForPath p (projectRootMappings t) = Some k ->
  getOwn k (nodes t) = Some n ->
  findProjectOfResolvedModule t p = VStr (node_name n).
Proof.
  intros Hg Hd Hf Hn. unfold findProjectOfResolvedModule, findMatchingProjectFiles.
  now rewrite Hg, Hd, Hf, Hn.
Qed.

(** C5, as amended. A relative specifier is joined to the directory of the
    importing file and the project root index alone decides: no collaborator
    is invoked and the instance is left as it was. In particular, from the
    file [apps/app1/src/main] the specifier [../../lib/util] is the path
    [apps/lib/util], and it resolves to the project rooted at [apps/lib]
    (when no project is rooted at [apps/lib/util] itself). *)
Theorem relative_resolution (host : Host) (projectRoot : string) (w : World) :
  (forall importExpr filePath,
     Imported.isRelativePath importExpr = true ->
     findProjectWithImport host importExpr projectRoot filePath w =
       (Return (findProjectOfResolvedModule (this w)
                  (Path.pjoin [Path.dirname filePath; importExpr])), w)) /\
  Path.pjoin [Path.dirname "apps/app1/src/main"; "../../lib/util"] = "apps/lib/util" /\
  (forall k n,
     Vocabulary.indexed (this w) ->
     Vocabulary.onlyProjectRootedAt (this w) "apps/lib" k n ->
     Vocabulary.noProjectRootedAt (this w) "apps/lib/util" ->
     findProjectWithImport host "../../lib/util" projectRoot "apps/app1/src/main" w =
       (Return (VStr (node_name n)), w)).
Proof.
  assert (Hrel : forall importExpr filePath,
     Imported.isRelativePath importExpr = true ->
     findProjectWithImport host importExpr projectRoot filePath w =
       (Return (findProjectOfResolvedModule (this w)
                  (Path.pjoin [Path.dirname filePath; importExpr])), w)).
  { intros e f H. unfold findProjectWithImport, bind, getThis, ret. now rewrite H. }
  split; [exact Hrel|]. split; [reflexivity|].
  intros k n Hi Honly Hnone. rewrite Hrel by reflexivity.
  change (Path.pjoin [Path.dirname "apps/app1/src/main"; "../../lib/util"])
    with "apps/lib/util".
  rewrite (findProjectOfResolvedModule_project (this w) "apps/lib/util" k n);
    [reflexivity | reflexivity | reflexivity | | apply Honly].
  change (Imported.findProjectForPath "apps/lib/util" (projectRootMappings (this w)))
    with (Imported.firstMapped (projectRootMappings (this w))
            ["apps/lib/util"; "apps/lib"; "apps"; "."]).
  cbn [Imported.firstMapped].
  now rewrite (RootIndex.index_none _ _ Hi Hnone), (RootIndex.index_only _ _ _ _ Hi Honly).
Qed.

Lemma relative_resolution_witness :
  let h := Demo.host [] in
  findProjectWithImport h "../../lib/util" "apps/app1" "apps/app1/src/main" (Demo.fresh h)
  = (Return (VStr "lib"), Demo.fresh h).
Proof.
  cbv zeta.
  destruct (relative_resolution (Demo.host []) "apps/app1" (Demo.fresh (Demo.host [])))
    as (_ & _ & H).
  apply (H "lib" {| node_name := "lib"; node_root := "apps/lib" |}).
  - reflexivity.
  - split; [simpl; auto|]. split; [reflexivity|]. split; [reflexivity|].
    intros k' n' Hin Hr. simpl in Hin.
    destruct Hin as [Hin|[Hin|[Hin|[]]]]; injection Hin as <- <-;
      first [reflexivity | discriminate Hr].
  - intros k' n' Hin Hr. simpl in Hin.
    destruct Hin as [Hin|[Hin|[Hin|[]]]]; injection Hin as <- <-; discriminate Hr.
Defined.

(** C5, as stated, fails: from [apps/app1/src/main] the specifier
    [../lib/util] is the path [apps/app1/lib/util], which lies in the project
    rooted at [apps/app1], not in the one rooted at [apps/lib]. *)
Lemma relative_example_resolves_elsewhere :
  let h := Demo.host [] in
  let result :=
    findProjectWithImport h "../lib/util" "apps/app1" "apps/app1/src/main" (Demo.fresh h) in
  getOwn "lib" (nodes (this (Demo.fresh h)))
    = Some {| node_name := "lib"; node_root := "apps/lib" |} /\
  Path.pjoin [Path.dirname "apps/app1/src/main"; "../lib/util"] = "apps/app1/lib/util" /\
  fst result = Return (VStr "app1") /\
  fst result <> Return (VStr "lib").
Proof. vm_compute. repeat split. discriminate. Qed.

(** C2, as amended. A target that ends in [/*] has its last component
    replaced by what the specifier adds to the alias prefix: with [@org/*]
    mapped to [libs/*], the specifier [@org/shared] gives the candidate
    [libs/shared] and resolves to the project rooted at [libs/shared]. A
    target that does not end in [/*] is used as it is written. *)
Theorem wildcard_alias_trailing (host : Host) (projectRoot filePath : string)
    (w : World) (rest : PathsTable) (k : string) (n : ProjectGraphProjectNode) :
  paths (this w) = Some (("@org/*", ["libs/*"]) :: rest) ->
  getOwn "@org/shared" rest = None ->
  Vocabulary.indexed (this w) ->
  Vocabulary.onlyProjectRootedAt (this w) "libs/shared" k n ->
  node_name n <> "" ->
  expandTarget host "@org/*" "@org/shared" "libs/*" = "libs/shared" /\
  findProjectWithImport host "@org/shared" projectRoot filePath w =
    (Return (VStr (node_name n)), w) /\
  (forall path importExpr p,
     JsString.endsWith p "/*" = false -> expandTarget host path importExpr p = p).
Proof.
  intros Hp Hexact Hi Honly Hname.
  assert (Hexp : expandTarget host "@org/*" "@org/shared" "libs/*" = "libs/shared").
  { unfold expandTarget.
    change (JsString.endsWith "libs/*" "/*") with true. cbv iota.
    change (JsString.dropSuffix "@org/*" "*") with "@org/".
    now rewrite PathFacts.relative_alias_child. }
  split; [exact Hexp|]. split.
  - unfold findProjectWithImport, bind, getThis, ret, lift.
    change (Imported.isRelativePath "@org/shared") with false. cbv iota.
    assert (Hfp : findPaths (this w) "@org/shared"
                  = Some ("@org/*", Targets ["libs/*"])).
    { unfold findPaths, getProperty. rewrite Hp. cbn [getOwn].
      change (String.eqb "@org/*" "@org/shared") with false. cbv iota.
      rewrite Hexact.
      change (inheritedMember "@org/shared") with false. cbv iota.
      cbn [map fst find].
      change (wildcardMatches "@org/shared" "@org/*") with true. cbv iota.
      cbn [getOwn]. now rewrite String.eqb_refl. }
    unfold resolveViaPaths. rewrite Hfp. cbn [firstResolvedProject]. rewrite Hexp.
    rewrite (findProjectOfResolvedModule_project (this w) "libs/shared" k n);
      [ | reflexivity | reflexivity | | apply Honly].
    + cbn [truthy]. apply String.eqb_neq in Hname. now rewrite Hname.
    + change (Imported.findProjectForPath "libs/shared" (projectRootMappings (this w)))
        with (Imported.firstMapped (projectRootMappings (this w))
                ["libs/shared"; "libs"; "."]).
      cbn [Imported.firstMapped].
      now rewrite (RootIndex.index_only _ _ _ _ Hi Honly).
  - intros path e p H. unfold expandTarget. now rewrite H.
Qed.

Lemma wildcard_alias_trailing_witness :
  let h := Demo.host Demo.trailingWildcard in
  findProjectWithImport h "@org/shared" "apps/app1" "apps/app1/src/main" (Demo.fresh h)
  = (Return (VStr "shared"), Demo.fresh h).
Proof.
  cbv zeta.
  apply (wildcard_alias_trailing (Demo.host Demo.trailingWildcard) "apps/app1"
           "apps/app1/src/main" (Demo.fresh (Demo.host Demo.trailingWildcard)) []
           "shared" {| node_name := "shared"; node_root := "libs/shared" |}).
  - reflexivity.
  - reflexivity.
  - reflexivity.
  - split; [simpl; auto|]. split; [reflexivity|]. split; [reflexivity|].
    intros k' n' Hin Hr. simpl in Hin.
    destruct Hin as [Hin|[Hin|[Hin|[]]]]; injection Hin as <- <-;
      first [reflexivity | discriminate Hr].
  - discriminate.
Defined.

(** C2, as stated, fails: the target [libs/*/src/index] does not end in [/*],
    so nothing is substituted; the candidate is the template itself, no
    project encloses it, and with fallbacks that find nothing the call returns
    [null]. *)
Lemma interior_wildcard_not_substituted :
  let h := Demo.host Demo.interiorWildcard in
  let result :=
    findProjectWithImport h "@org/shared" "apps/app1" "apps/app1/src/main" (Demo.fresh h) in
  getOwn "shared" (nodes (this (Demo.fresh h)))
    = Some {| node_name := "shared"; node_root := "libs/shared" |} /\
  findPaths (this (Demo.fresh h)) "@org/shared"
    = Some ("@org/*", Targets ["libs/*/src/index"]) /\
  expandTarget h "@org/*" "@org/shared" "libs/*/src/index" = "libs/*/src/index" /\
  expandTarget h "@org/*" "@org/shared" "libs/*/src/index" <> "libs/shared/src/index" /\
  resolveViaPaths h (this (Demo.fresh h)) "@org/shared" = Return None /\
  fst result = Return VNull /\
  fst result <> Return (VStr "shared").
Proof. vm_compute. repeat split; discriminate. Qed.

Module Exceptions.
Import JsString Vocabulary Rerun.

Section Stages.
Variable host : Host.

Lemma findNpmPackage_returns (e r : string) (w : World) :
  exists v, fst (findNpmPackage host e r w) = Return v.
Proof.
  destruct (findNpmPackage_twice host e r w) as (v & d & w1 & H & _).
  exists v. now rewrite H.
Qed.

Lemma resolveViaRequire_returns (e f : string) (w : World) :
  exists x, fst (resolveViaRequire host e f w) = Return x.
Proof.
  destruct (resolveViaRequire_twice host e f w) as (x & H & _).
  exists x. now rewrite H.
Qed.

(** An exception leaves [resolveImportWithTypescript] only when the cache
    misses and [resolveModuleByImport] throws it. *)
Lemma resolveImportWithTypescript_throws (e f : string) (w : World) (x : exn) :
  fst (resolveImportWithTypescript host e f w) = Throw x ->
  typescriptResolutionCache (this w) !! e = None /\
  resolveModuleByImport host e f (tsc_absolutePath (tsConfig (this w))) = Throw x.
Proof.
  unfold resolveImportWithTypescript, bind, getThis, ret, invoke,
    typescriptResolutionCache_set.
  destruct (typescriptResolutionCache (this w) !! e) as [c|].
  - destruct c as [m|]; cbn [ofCached]; [|discriminate].
    destruct (truthy (VStr m) && negb (includes m "node_modules/"));
      [|discriminate].
    destruct (truthy (findProjectOfResolvedModule (this w) m)); discriminate.
  - destruct (resolveModuleByImport host e f (tsc_absolutePath (tsConfig (this w))))
      as [[m|]|y]; cbn [ofOption fst].
    + destruct (truthy (VStr m) && negb (includes m "node_modules/"));
        [|discriminate].
      destruct (truthy (findProjectOfResolvedModule (this w) m)); discriminate.
    + discriminate.
    + intros H. injection H as ->. now split.
Qed.

Lemma fallbackChain_throws (t : TargetProjectLocator) (e r f : string)
    (w : World) (x : exn) :
  sameConstructedState t (this w) ->
  fst (fallbackChain host t e r f w) = Throw x ->
  tsc_config (tsConfig t) <> None /\
  typescriptResolutionCache (this w) !! e = None /\
  resolveModuleByImport host e f (tsc_absolutePath (tsConfig t)) = Throw x.
Proof.
  intros Ht. unfold fallbackChain.
  destruct (findNpmPackage_twice host e r w)
    as (v & dA & wa & HA & _ & HsA & HtA & _).
  unfold bind at 1. rewrite HA.
  destruct (truthy v); [discriminate|].
  unfold bind at 1.
  destruct (languageStep host t e f wa) as [[u|y] wb] eqn:HB.
  - destruct (truthy u); [discriminate|].
    destruct (resolveViaRequire_twice host e f wb) as (q & HC & _).
    unfold bind at 1. rewrite HC. destruct q; discriminate.
  - cbn [fst]. intros H. injection H as ->.
    unfold languageStep in HB.
    destruct (tsc_config (tsConfig t)) eqn:Hcfg; [|discriminate HB].
    split; [discriminate|].
    pose proof (resolveImportWithTypescript_throws e f wa x) as Hthrow.
    rewrite HB in Hthrow. destruct (Hthrow eq_refl) as [Hc Hr].
    rewrite HtA in Hc. split; [exact Hc|].
    destruct Ht as (_&_&_&_&Hw&_). destruct HsA as (_&_&_&_&Hwa&_).
    now rewrite Hwa, Hw in Hr.
Qed.

End Stages.

Lemma getOwn_declared {A : Type} (P : string -> bool) (table : list (string * A))
    (k : string) :
  find P (map fst table) = Some k -> exists v, getOwn k table = Some v.
Proof.
  induction table as [|[k0 v0] rest IH]; [discriminate|].
  cbn [map fst find getOwn]. destruct (P k0).
  - intros [= <-]. rewrite String.eqb_refl. eauto.
  - intros H. destruct (String.eqb k0 k); eauto.
Qed.

(** The alias step throws only for a specifier read from the prototype. *)
Lemma resolveViaPaths_returns (host : Host) (t : TargetProjectLocator) (e : string) :
  inheritedAlias t e = false -> exists found, resolveViaPaths host t e = Return found.
Proof.
  unfold inheritedAlias, resolveViaPaths, findPaths, getProperty.
  destruct (paths t) as [table|]; [|eauto].
  destruct (getOwn e table) as [targets|]; [eauto|].
  intros ->.
  destruct (find (wildcardMatches e) (map fst table)) as [k|] eqn:Hf; [|eauto].
  destruct (getOwn_declared _ _ _ Hf) as [v ->]. eauto.
Qed.

Lemma inheritedMember_not_relative (e : string) :
  inheritedMember e = true -> Imported.isRelativePath e = false.
Proof.
  unfold inheritedMember. intros H. apply existsb_exists in H as (name & Hin & He).
  apply String.eqb_eq in He. subst name.
  cbn in Hin. repeat (destruct Hin as [<-|Hin]; [reflexivity|]). destruct Hin.
Qed.

Lemma resolveViaPaths_inherited (host : Host) (t : TargetProjectLocator) (e : string) :
  inheritedAlias t e = true -> resolveViaPaths host t e = Throw notIterable.
Proof.
  unfold inheritedAlias, resolveViaPaths, findPaths, getProperty.
  destruct (paths t) as [table|]; [|discriminate].
  destruct (getOwn e table) as [targets|]; [discriminate|].
  now intros ->.
Qed.

End Exceptions.

(** C3, as amended. For a specifier that is not read from the prototype of
    the alias table, the only exception that can leave
    [findProjectWithImport] is one thrown by the language resolver
    [resolveModuleByImport], which is called without a guard when a tsconfig
    exists and the specifier is not yet in [typescriptResolutionCache].
    Whatever the package-descriptor locator, the file reader and the JSON
    parser throw is caught in [findNpmPackage], which then returns
    [undefined]; whatever the runtime resolver throws is caught in the last
    [try] block of [findProjectWithImport]. *)
Theorem only_language_resolution_throws (host : Host)
    (importExpr projectRoot filePath : string) (w : World) :
  (forall x,
     Vocabulary.inheritedAlias (this w) importExpr = false ->
     fst (findProjectWithImport host importExpr projectRoot filePath w) = Throw x ->
     tsc_config (tsConfig (this w)) <> None /\
     typescriptResolutionCache (this w) !! importExpr = None /\
     resolveModuleByImport host importExpr filePath
       (tsc_absolutePath (tsConfig (this w))) = Throw x) /\
  (exists v, fst (findNpmPackage host importExpr projectRoot w) = Return v) /\
  (forall x,
     npmResolutionCache (this w) !!
       Vocabulary.npmImportForProject importExpr projectRoot = None ->
     findExternalPackageJsonPath host
       (parsePackageNameFromImportExpression importExpr)
       (Path.pjoin [workspaceRoot host; projectRoot]) = Throw x ->
     fst (findNpmPackage host importExpr projectRoot w) = Return VUndefined) /\
  (forall file x,
     npmResolutionCache (this w) !!
       Vocabulary.npmImportForProject importExpr projectRoot = None ->
     findExternalPackageJsonPath host
       (parsePackageNameFromImportExpression importExpr)
       (Path.pjoin [workspaceRoot host; projectRoot]) = Return (Some file) ->
     readFileSync host file = Throw x \/
     (exists content,
        readFileSync host file = Return content /\
        parseJson host content = Throw x) ->
     fst (findNpmPackage host importExpr projectRoot w) = Return VUndefined) /\
  (forall x,
     requireResolve host importExpr (Path.dirname filePath) = Throw x ->
     fst (resolveViaRequire host importExpr filePath w) = Return None).
Proof.
  split; [|split; [|split; [|split]]].
  - intros x Hown.
    destruct (Imported.isRelativePath importExpr) eqn:Hrel.
    { unfold findProjectWithImport, bind, getThis, ret. rewrite Hrel. discriminate. }
    destruct (Exceptions.resolveViaPaths_returns host _ _ Hown) as [[found|] Hpaths].
    { unfold findProjectWithImport, bind, getThis, ret, lift. rewrite Hrel, Hpaths.
      discriminate. }
    destruct (builtInModuleSet_has host importExpr) eqn:Hb.
    { unfold findProjectWithImport, bind, getThis, ret, lift.
      rewrite Hrel, Hpaths, Hb. discriminate. }
    rewrite (Rerun.findProjectWithImport_fallback host _ _ _ _ Hrel Hpaths Hb).
    apply Exceptions.fallbackChain_throws. apply Frame.same_refl.
  - apply Exceptions.findNpmPackage_returns.
  - intros x Hc Hf. unfold Vocabulary.npmImportForProject in Hc.
    unfold findNpmPackage, bind, tryCatch, getThis, ret, invoke.
    now rewrite Hc, Hf.
  - intros file x Hc Hf Hthrow. unfold Vocabulary.npmImportForProject in Hc.
    unfold findNpmPackage, bind, tryCatch, getThis, ret, invoke, lift.
    rewrite Hc, Hf. cbn [this calls].
    destruct (truthy (ofOption (Some file))); [|reflexivity].
    change (default "" (Some file)) with file.
    destruct Hthrow as [Hr|[content [Hr Hj]]]; rewrite Hr; [reflexivity|].
    now rewrite Hj.
  - intros x Hr.
    unfold resolveViaRequire, resolveImportWithRequire, tryCatch, bind, ret, invoke.
    now rewrite Hr.
Qed.

Lemma only_language_resolution_throws_witness :
  let h := Demo.throwingTypescript (Demo.host []) in
  fst (findProjectWithImport h "nothing" "apps/app1" "apps/app1/src/main" (Demo.fresh h))
    = Throw (Error "resolution error") /\
  resolveModuleByImport h "nothing" "apps/app1/src/main"
    (tsc_absolutePath (tsConfig (this (Demo.fresh h)))) = Throw (Error "resolution error").
Proof.
  cbv zeta.
  destruct (only_language_resolution_throws
              (Demo.throwingTypescript (Demo.host [])) "nothing" "apps/app1"
              "apps/app1/src/main"
              (Demo.fresh (Demo.throwingTypescript (Demo.host [])))) as (H & _).
  split; [vm_compute; reflexivity|].
  apply (H (Error "resolution error")); vm_compute; reflexivity.
Defined.

(** C3, as stated, fails: a resolution error thrown by the language resolver
    is caught nowhere and reaches the caller. *)
Lemma language_resolution_error_propagates :
  let h := Demo.throwingTypescript (Demo.host []) in
  fst (findProjectWithImport h "nothing" "apps/app1" "apps/app1/src/main" (Demo.fresh h))
    = Throw (Error "resolution error") /\
  ~ (exists v,
       fst (findProjectWithImport h "nothing" "apps/app1" "apps/app1/src/main"
              (Demo.fresh h)) = Return v).
Proof.
  vm_compute. split; [reflexivity|]. intros [v H]. discriminate H.
Qed.

Module Scan.

(** [Array.prototype.find] returns the first element that satisfies the
    predicate. *)
Lemma find_first {A : Type} (P : A -> bool) (l : list A) :
  (exists x, In x l /\ P x = true) ->
  exists before first rest,
    l = before ++ first :: rest /\
    Forall (fun x => P x = false) before /\
    P first = true /\
    find P l = Some first.
Proof.
  induction l as [|a l IH]; intros [x [Hin Hx]]; [destruct Hin|].
  destruct (P a) eqn:Ha.
  - exists [], a, l. cbn [find app]. rewrite Ha. repeat split. constructor.
  - destruct Hin as [->|Hin]; [congruence|].
    destruct IH as (before & first & rest & -> & Hb & Hf & Hfind); [eauto|].
    exists (a :: before), first, rest. cbn [find app]. rewrite Ha.
    repeat split; auto.
Qed.

Lemma matchesDescriptor_iff (json : PackageJson) (name version : string)
    (node : ProjectGraphExternalNode) :
  pkg_name json = Some name -> pkg_version json = Some version ->
  matchesDescriptor json node = true <->
  ext_packageName node = name /\ ext_version node = version.
Proof.
  intros Hn Hv. unfold matchesDescriptor. rewrite Hn, Hv.
  rewrite andb_true_iff, !String.eqb_eq. reflexivity.
Qed.

End Scan.

(** C4. The package name of a specifier is its first segment, or its first
    two when it starts with [@]. For a specifier that is not relative, not
    mapped to a project by an alias and not a builtin, and whose package key
    is not yet cached: when the descriptor located for the package name
    declares a name and a version, and some scanned external node declares
    both, the call returns the identifier of the first such node in scan
    order and caches it under the package key. *)
Theorem external_package_match (host : Host)
    (importExpr projectRoot filePath : string) (w : World)
    (file content : string) (json : PackageJson) (name version : string) :
  Imported.isRelativePath importExpr = false ->
  resolveViaPaths host (this w) importExpr = Return None ->
  builtInModuleSet_has host importExpr = false ->
  npmResolutionCache (this w) !!
    Vocabulary.npmImportForProject importExpr projectRoot = None ->
  findExternalPackageJsonPath host
    (parsePackageNameFromImportExpression importExpr)
    (Path.pjoin [workspaceRoot host; projectRoot]) = Return (Some file) ->
  file <> "" ->
  readFileSync host file = Return content ->
  parseJson host content = Return json ->
  pkg_name json = Some name ->
  pkg_version json = Some version ->
  (exists node, In node (npmProjects (this w)) /\
                ext_packageName node = name /\ ext_version node = version) ->
  (forall node, In node (npmProjects (this w)) -> ext_name node <> "") ->
  (forall s,
     parsePackageNameFromImportExpression s =
     if JsString.startsWith s "@"
     then JsString.join "/" (firstn 2 (JsString.split "/" s))
     else hd "" (JsString.split "/" s)) /\
  (parsePackageNameFromImportExpression "left-pad" = "left-pad" /\
   parsePackageNameFromImportExpression "lodash/fp/get" = "lodash" /\
   parsePackageNameFromImportExpression "@scope/pkg/deep/file" = "@scope/pkg") /\
  exists before first rest,
    npmProjects (this w) = before ++ first :: rest /\
    Forall (fun node => ~ (ext_packageName node = name /\ ext_version node = version))
      before /\
    ext_packageName first = name /\ ext_version first = version /\
    let result := findProjectWithImport host importExpr projectRoot filePath w in
    fst result = Return (VStr (ext_name first)) /\
    npmResolutionCache (this (snd result)) !!
      Vocabulary.npmImportForProject importExpr projectRoot
      = Some (Some (ext_name first)).
Proof.
  intros Hrel Hpaths Hb Hc Hf Hfile Hr Hj Hn Hv [node (Hin & Hnm & Hvs)] Hnames.
  split; [reflexivity|]. split; [repeat split|].
  destruct (Scan.find_first (matchesDescriptor json) (npmProjects (this w)))
    as (before & first & rest & Hsplit & Hbefore & Hfirst & Hfind).
  { exists node. split; [exact Hin|].
    apply (Scan.matchesDescriptor_iff json name version); auto. }
  exists before, first, rest.
  apply (Scan.matchesDescriptor_iff json name version) in Hfirst; auto.
  destruct Hfirst as [Hfn Hfv].
  split; [exact Hsplit|]. split.
  { eapply Forall_impl; [exact Hbefore|]. intros x Hx Hm.
    apply (Scan.matchesDescriptor_iff json name version) in Hm; auto. congruence. }
  split; [exact Hfn|]. split; [exact Hfv|].
  assert (Htruthy : negb (String.eqb (ext_name first) "") = true).
  { apply negb_true_iff, String.eqb_neq, Hnames.
    rewrite Hsplit. apply in_or_app. right. now left. }
  assert (Hpath : truthy (ofOption (Some file)) = true).
  { cbn. now apply negb_true_iff, String.eqb_neq. }
  cbv zeta. unfold Vocabulary.npmImportForProject in *.
  unfold findProjectWithImport, bind, getThis, ret.
  rewrite Hrel, Hpaths, Hb.
  unfold findNpmPackage, bind, tryCatch, getThis, ret, invoke, lift,
    npmResolutionCache_set.
  rewrite Hc, Hf. cbn [this calls]. rewrite Hpath.
  change (default "" (Some file)) with file.
  rewrite Hr, Hj. cbn [this calls]. rewrite Hfind. cbn [truthy].
  rewrite Htruthy. cbn. split; [reflexivity | apply lookup_insert_eq].
Qed.

Lemma external_package_match_witness :
  let h := Demo.host [] in
  let result :=
    findProjectWithImport h "left-pad" "apps/app1" "apps/app1/src/main" (Demo.fresh h) in
  fst result = Return (VStr "npm:left-pad") /\
  npmResolutionCache (this (snd result)) !! "left-pad__apps/app1"
    = Some (Some "npm:left-pad").
Proof.
  cbv zeta.
  destruct (external_package_match (Demo.host []) "left-pad" "apps/app1"
              "apps/app1/src/main" (Demo.fresh (Demo.host []))
              "/work/node_modules/left-pad/package.json" Demo.leftPadJson
              {| pkg_name := Some "left-pad"; pkg_version := Some "1.2.0" |}
              "left-pad" "1.2.0")
    as (_ & _ & before & first & rest & Hsplit & Hbefore & Hn & Hv & Hres & Hcache);
    try reflexivity.
  - discriminate.
  - exists {| ext_name := "npm:left-pad";
              ext_packageName := "left-pad"; ext_version := "1.2.0" |}.
    split; [simpl; auto | split; reflexivity].
  - intros node Hin. simpl in Hin.
    destruct Hin as [<-|[<-|[<-|[]]]]; discriminate.
  - assert (Hfirst : first = {| ext_name := "npm:left-pad";
                                ext_packageName := "left-pad";
                                ext_version := "1.2.0" |}).
    { destruct before as [|b0 [|b1 before]].
      - injection Hsplit as <- _. discriminate Hv.
      - now injection Hsplit as _ <- _.
      - injection Hsplit as <- <- Hrest. inversion Hbefore as [|? ? _ Hb1]; subst.
        inversion Hb1 as [|? ? Hno _]; subst. exfalso. apply Hno. now split. }
    rewrite Hfirst in Hres, Hcache. split; [exact Hres | exact Hcache].
Defined.

(** ** Further properties of the locator *)

Module Origin.
Import JsString Imported Vocabulary Provenance Rerun.

Lemma findProjectOfResolvedModule_origin (t : TargetProjectLocator) (p s : string) :
  findProjectOfResolvedModule t p = VStr s -> isProjectName t s.
Proof.
  unfold findProjectOfResolvedModule, findMatchingProjectFiles.
  destruct (startsWith p "node_modules/" || includes p "/node_modules/");
    [discriminate|].
  destruct (findProjectForPath _ (projectRootMappings t)) as [k|]; [|discriminate].
  destruct (getOwn k (nodes t)) as [n|] eqn:Hn; [|discriminate].
  intros H. injection H as <-. now exists k, n.
Qed.

Lemma isProjectName_same (t t' : TargetProjectLocator) (s : string) :
  sameConstructedState t t' -> isProjectName t' s -> isProjectName t s.
Proof. intros (Hn & _) (k & n & H & E). exists k, n. now rewrite <- Hn. Qed.

Lemma firstResolvedProject_origin (host : Host) (t : TargetProjectLocator)
    (path e : string) (targets : list string) (s : string) :
  firstResolvedProject host t path e targets = Some (VStr s) -> isProjectName t s.
Proof.
  induction targets as [|p rest IH]; cbn [firstResolvedProject]; [discriminate|].
  destruct (truthy (findProjectOfResolvedModule t (expandTarget host path e p)));
    [|exact IH].
  intros H. injection H as H. now apply findProjectOfResolvedModule_origin in H.
Qed.

Section Stages.
Variable host : Host.

Lemma findNpmPackage_origin (e r : string) (w w' : World) (s : string) :
  findNpmPackage host e r w = (Return (VStr s), w') ->
  isExternalName (this w) s \/
  npmResolutionCache (this w) !! npmImportForProject e r = Some (Some s).
Proof.
  unfold findNpmPackage, npmImportForProject, bind, tryCatch, getThis, ret, invoke,
    lift, npmResolutionCache_set.
  destruct (npmResolutionCache (this w) !! _) as [[c|]|]; cbn [ofCached].
  - intros H. injection H as <- _. now right.
  - discriminate.
  - destruct (findExternalPackageJsonPath host _ _) as [p|x]; cbn [this calls];
      [|discriminate].
    destruct (truthy (ofOption p)); [|discriminate].
    destruct (readFileSync host _) as [content|x]; cbn [this calls]; [|discriminate].
    destruct (parseJson host content) as [json|x]; cbn [this calls]; [|discriminate].
    destruct (find (matchesDescriptor json) (npmProjects (this w))) as [n|] eqn:Hn;
      [|discriminate].
    intros H. injection H as <- _. left. exists n. split; [|reflexivity].
    now apply find_some in Hn.
Qed.

Lemma resolveImportWithTypescript_origin (e f : string) (w w' : World) (s : string) :
  resolveImportWithTypescript host e f w = (Return (VStr s), w') ->
  isProjectName (this w) s.
Proof.
  unfold resolveImportWithTypescript, bind, getThis, ret, invoke,
    typescriptResolutionCache_set.
  assert (Hleaf : forall (m : string) (w0 : World),
    (if truthy (VStr m) && negb (includes m "node_modules/")
     then if truthy (findProjectOfResolvedModule (this w) m)
          then fun w1 : World => (Return (findProjectOfResolvedModule (this w) m), w1)
          else fun w1 : World => (Return VUndefined, w1)
     else fun w1 : World => (Return VUndefined, w1)) w0 = (Return (VStr s), w') ->
    isProjectName (this w) s).
  { intros m w0.
    destruct (truthy (VStr m) && negb (includes m "node_modules/")); [|discriminate].
    destruct (truthy (findProjectOfResolvedModule (this w) m)); [|discriminate].
    intros H. injection H as H _.
    now apply findProjectOfResolvedModule_origin in H. }
  destruct (typescriptResolutionCache (this w) !! e) as [[m|]|]; cbn [ofCached].
  - apply Hleaf.
  - discriminate.
  - destruct (resolveModuleByImport host e f _) as [[m|]|x]; cbn [this calls ofOption];
      [apply Hleaf | discriminate | discriminate].
Qed.

Lemma resolveViaRequire_origin (e f : string) (w w' : World) (s : string) :
  resolveViaRequire host e f w = (Return (Some (VStr s)), w') ->
  isProjectName (this w) s.
Proof.
  unfold resolveViaRequire, resolveImportWithRequire, tryCatch, bind, getThis,
    ret, invoke.
  destruct (requireResolve host e (Path.dirname f)); cbn [this calls];
    [|discriminate].
  intros H. injection H as H _. now apply findProjectOfResolvedModule_origin in H.
Qed.

Lemma fallbackChain_origin (t : TargetProjectLocator) (e r f : string)
    (w w' : World) (s : string) :
  fallbackChain host t e r f w = (Return (VStr s), w') ->
  isProjectName (this w) s \/ isExternalName (this w) s \/
  npmResolutionCache (this w) !! npmImportForProject e r = Some (Some s).
Proof.
  intros E. unfold fallbackChain in E.
  pose proof (Frame.framed_findNpmPackage host e r w) as HsA.
  unfold bind at 1 in E.
  destruct (findNpmPackage host e r w) as [[v|x] wa] eqn:HA; [|discriminate E].
  cbn [snd] in HsA.
  destruct (truthy v).
  { injection E as -> _. right. now apply findNpmPackage_origin in HA. }
  unfold bind at 1 in E.
  destruct (languageStep host t e f wa) as [[u|x] wb] eqn:HB; [|discriminate E].
  assert (HsB : sameConstructedState (this wa) (this wb)).
  { unfold languageStep in HB. destruct (tsc_config (tsConfig t)).
    - pose proof (Frame.framed_resolveImportWithTypescript host e f wa) as H.
      now rewrite HB in H.
    - injection HB as _ <-. apply Frame.same_refl. }
  destruct (truthy u).
  { injection E as -> _. left. apply (isProjectName_same _ (this wa)); [exact HsA|].
    unfold languageStep in HB. destruct (tsc_config (tsConfig t)); [|discriminate HB].
    now apply resolveImportWithTypescript_origin in HB. }
  unfold bind at 1 in E.
  destruct (resolveViaRequire host e f wb) as [[q|x] wc] eqn:HC; [|discriminate E].
  destruct q as [found|]; [|discriminate E].
  injection E as -> _. left.
  apply (isProjectName_same _ (this wb));
    [eapply Frame.same_trans; eassumption|].
  now apply resolveViaRequire_origin in HC.
Qed.

End Stages.
End Origin.

(** X1. An identifier returned by [findProjectWithImport] is never made up:
    it is the [name] of a project node of the instance, or the [name] of one
    of the scanned external nodes, or the string that [npmResolutionCache]
    already held under the package key of the call. *)
Theorem returned_identifier_origin (host : Host)
    (importExpr projectRoot filePath : string) (w : World) (s : string) :
  fst (findProjectWithImport host importExpr projectRoot filePath w) = Return (VStr s) ->
  Provenance.isProjectName (this w) s \/
  Provenance.isExternalName (this w) s \/
  npmResolutionCache (this w) !!
    Vocabulary.npmImportForProject importExpr projectRoot = Some (Some s).
Proof.
  destruct (Imported.isRelativePath importExpr) eqn:Hrel.
  { unfold findProjectWithImport, bind, getThis, ret. rewrite Hrel. cbn [fst].
    intros H. injection H as H. left.
    now apply Origin.findProjectOfResolvedModule_origin in H. }
  destruct (resolveViaPaths host (this w) importExpr) as [[v|]|err] eqn:Hpaths.
  { unfold findProjectWithImport, bind, getThis, ret, lift. rewrite Hrel, Hpaths.
    cbn [fst]. intros H. injection H as ->. left.
    unfold resolveViaPaths in Hpaths.
    destruct (findPaths (this w) importExpr) as [[path [targets|member]]|];
      [|discriminate|discriminate].
    injection Hpaths as Hpaths.
    now apply Origin.firstResolvedProject_origin in Hpaths. }
  2:{ unfold findProjectWithImport, bind, getThis, ret, lift. rewrite Hrel, Hpaths.
      discriminate. }
  destruct (builtInModuleSet_has host importExpr) eqn:Hb.
  { unfold findProjectWithImport, bind, getThis, ret, lift. rewrite Hrel, Hpaths, Hb.
    discriminate. }
  rewrite (Rerun.findProjectWithImport_fallback host _ _ _ _ Hrel Hpaths Hb).
  destruct (Vocabulary.fallbackChain host (this w) importExpr projectRoot filePath w)
    as [res w'] eqn:E.
  cbn [fst]. intros ->. now apply Origin.fallbackChain_origin in E.
Qed.

Lemma returned_identifier_origin_witness :
  let h := Demo.host [] in
  Provenance.isProjectName (this (Demo.fresh h)) "npm:left-pad" \/
  Provenance.isExternalName (this (Demo.fresh h)) "npm:left-pad" \/
  npmResolutionCache (this (Demo.fresh h)) !!
    Vocabulary.npmImportForProject "left-pad" "apps/app1" = Some (Some "npm:left-pad").
Proof.
  cbv zeta.
  apply (returned_identifier_origin (Demo.host []) "left-pad" "apps/app1"
           "apps/app1/src/main" (Demo.fresh (Demo.host [])) "npm:left-pad").
  vm_compute. reflexivity.
Defined.

Module Kept.
Import JsString Imported Vocabulary Survival Rerun.

Lemma keeps_refl (e : string) (t : TargetProjectLocator) : keepsEntries e t t.
Proof. split; auto. Qed.

Lemma keeps_trans (e : string) (t1 t2 t3 : TargetProjectLocator) :
  keepsEntries e t1 t2 -> keepsEntries e t2 t3 -> keepsEntries e t1 t3.
Proof. intros [A B] [C D]. split; eauto. Qed.

Section Stages.
Variable host : Host.

Lemma findNpmPackage_keeps (e r : string) (w : World) :
  keepsEntries e (this w) (this (snd (findNpmPackage host e r w))).
Proof.
  destruct (findNpmPackage_twice host e r w)
    as (v & d & w1 & H & _ & _ & Hts & Hnpm & _).
  rewrite H. cbn [snd]. split.
  - intros k c Hk. now rewrite Hts.
  - intros k c _ Hk.
    destruct (decide (k = npmImportForProject e r)) as [->|Hne].
    + rewrite (findNpmPackage_hit host e r w _ Hk) in H. now injection H as _ <-.
    + now rewrite Hnpm.
Qed.

Lemma resolveImportWithTypescript_keeps (e f : string) (w : World) :
  keepsEntries e (this w) (this (snd (resolveImportWithTypescript host e f w))).
Proof.
  unfold resolveImportWithTypescript, bind, getThis, ret, invoke,
    typescriptResolutionCache_set.
  destruct (typescriptResolutionCache (this w) !! e) as [c|] eqn:Hc.
  - assert (Hsame : forall (b1 b2 : bool) (v : value),
      this (snd ((if b1 then if b2 then fun w1 : World => (Return v, w1)
                            else fun w1 : World => (Return VUndefined, w1)
                  else fun w1 : World => (Return VUndefined, w1)) w)) = this w)
      by (intros [] [] ?; reflexivity).
    destruct (ofCached c); cbn [fst snd]; rewrite ?Hsame; apply keeps_refl.
  - assert (Hset : forall (o : outcome value * World) (t' : TargetProjectLocator),
      this (snd o) = t' -> keepsEntries e (this w) t' ->
      keepsEntries e (this w) (this (snd o))) by (intros ? ? ->; auto).
    assert (Hins : forall v,
      keepsEntries e (this w)
        {| nodes := nodes (this w); externalNodes := externalNodes (this w);
           projectRootMappings := projectRootMappings (this w);
           npmProjects := npmProjects (this w); tsConfig := tsConfig (this w);
           paths := paths (this w);
           typescriptResolutionCache := <[e:=v]> (typescriptResolutionCache (this w));
           npmResolutionCache := npmResolutionCache (this w) |}).
    { intros v. split; cbn; [|auto]. intros k c Hk.
      rewrite lookup_insert_ne; [exact Hk|]. intros ->. congruence. }
    destruct (resolveModuleByImport host e f _) as [[m|]|x]; cbn [this calls ofOption].
    + eapply Hset; [|apply Hins].
      destruct (truthy (VStr m) && negb (includes m "node_modules/")); [|reflexivity].
      destruct (truthy (findProjectOfResolvedModule (this w) m)); reflexivity.
    + eapply Hset; [reflexivity | apply Hins].
    + apply keeps_refl.
Qed.

Lemma resolveViaRequire_this (e f : string) (w : World) :
  this (snd (resolveViaRequire host e f w)) = this w.
Proof.
  destruct (resolveViaRequire_twice host e f w) as (x & H & _). now rewrite H.
Qed.

Lemma npmResolutionCache_set_keeps (e : string) (w : World) :
  keepsEntries e (this w) (this (snd (npmResolutionCache_set e None w))).
Proof.
  split; cbn; [auto|]. intros k c Hk H. now rewrite lookup_insert_ne.
Qed.

Lemma fallbackChain_keeps (t : TargetProjectLocator) (e r f : string) (w : World) :
  keepsEntries e (this w) (this (snd (fallbackChain host t e r f w))).
Proof.
  unfold fallbackChain.
  pose proof (findNpmPackage_keeps e r w) as HA.
  unfold bind at 1.
  destruct (findNpmPackage host e r w) as [[v|x] wa]; cbn [snd] in *; [|exact HA].
  destruct (truthy v); [exact HA|].
  assert (HB : keepsEntries e (this wa) (this (snd (languageStep host t e f wa)))).
  { unfold languageStep. destruct (tsc_config (tsConfig t));
      [apply resolveImportWithTypescript_keeps | apply keeps_refl]. }
  unfold bind at 1.
  destruct (languageStep host t e f wa) as [[u|x] wb]; cbn [snd] in *;
    [|eapply keeps_trans; eassumption].
  assert (Hb : keepsEntries e (this w) (this wb)) by (eapply keeps_trans; eassumption).
  destruct (truthy u); [exact Hb|].
  pose proof (resolveViaRequire_this e f wb) as HC.
  unfold bind at 1.
  destruct (resolveViaRequire host e f wb) as [[q|x] wc]; cbn [snd] in *;
    [|now rewrite HC].
  destruct q as [found|]; cbn [snd ret]; [now rewrite HC|].
  eapply keeps_trans; [|apply npmResolutionCache_set_keeps]. now rewrite HC.
Qed.

End Stages.
End Kept.

(** X2. The caches are written once per key: an entry that
    [typescriptResolutionCache] holds before a call to
    [findProjectWithImport] is the same after it, however the call ends, and
    so is every entry of [npmResolutionCache] except the one under the bare
    specifier of the call. *)
Theorem caches_keep_entries (host : Host)
    (importExpr projectRoot filePath : string) (w : World) :
  let w' := snd (findProjectWithImport host importExpr projectRoot filePath w) in
  (forall k c,
     typescriptResolutionCache (this w) !! k = Some c ->
     typescriptResolutionCache (this w') !! k = Some c) /\
  (forall k c,
     k <> importExpr ->
     npmResolutionCache (this w) !! k = Some c ->
     npmResolutionCache (this w') !! k = Some c).
Proof.
  cbv zeta.
  change (Survival.keepsEntries importExpr (this w)
            (this (snd (findProjectWithImport host importExpr projectRoot filePath w)))).
  destruct (Imported.isRelativePath importExpr) eqn:Hrel.
  { unfold findProjectWithImport, bind, getThis, ret. rewrite Hrel.
    apply Kept.keeps_refl. }
  destruct (resolveViaPaths host (this w) importExpr) as [[v|]|err] eqn:Hpaths.
  { unfold findProjectWithImport, bind, getThis, ret, lift. rewrite Hrel, Hpaths.
    apply Kept.keeps_refl. }
  2:{ unfold findProjectWithImport, bind, getThis, ret, lift. rewrite Hrel, Hpaths.
      apply Kept.keeps_refl. }
  destruct (builtInModuleSet_has host importExpr) eqn:Hb.
  { unfold findProjectWithImport, bind, getThis, ret, lift. rewrite Hrel, Hpaths, Hb.
    apply Kept.npmResolutionCache_set_keeps. }
  rewrite (Rerun.findProjectWithImport_fallback host _ _ _ _ Hrel Hpaths Hb).
  apply Kept.fallbackChain_keeps.
Qed.

Module Quiet.
Import Vocabulary Logs.

Lemma logs_weaken {A : Type} (P Q : Call -> Prop) (m : M A) :
  (forall c, P c -> Q c) -> logs P m -> logs Q m.
Proof.
  intros HPQ Hm w. destruct (Hm w) as (d & Hd & Hf). exists d.
  split; [exact Hd|]. eapply Forall_impl; eauto.
Qed.

Lemma logs_resolveViaRequire (host : Host) (e f : string) :
  logs (fun c => isLanguageResolution c = false) (resolveViaRequire host e f).
Proof. unfold resolveViaRequire, resolveImportWithRequire. repeat logs_step. Qed.

Lemma logs_fallbackChain (host : Host) (t : TargetProjectLocator) (e r f : string) :
  tsc_config (tsConfig t) = None ->
  logs (fun c => isLanguageResolution c = false) (fallbackChain host t e r f).
Proof.
  intros Hcfg. unfold fallbackChain, languageStep. rewrite Hcfg.
  apply logs_bind.
  { eapply logs_weaken; [|apply logs_findNpmPackage]. now intros []. }
  intros v. destruct (truthy v); [apply logs_ret|].
  apply logs_bind; [apply logs_ret|]. intros u.
  destruct (truthy u); [apply logs_ret|].
  apply logs_bind; [apply logs_resolveViaRequire|].
  intros [found|]; repeat logs_step.
Qed.

Lemma logs_findProjectWithImport (host : Host) (e r f : string) (w : World) :
  tsc_config (tsConfig (this w)) = None ->
  exists d,
    calls (snd (findProjectWithImport host e r f w)) = calls w ++ d /\
    Forall (fun c => isLanguageResolution c = false) d.
Proof.
  intros Hcfg.
  assert (Hnone : forall res : outcome value,
    exists d, calls (snd (res, w)) = calls w ++ d /\
              Forall (fun c => isLanguageResolution c = false) d).
  { intros res. exists []. rewrite app_nil_r. split; [reflexivity | constructor]. }
  destruct (Imported.isRelativePath e) eqn:Hrel.
  { unfold findProjectWithImport, bind, getThis, ret. rewrite Hrel. apply Hnone. }
  destruct (resolveViaPaths host (this w) e) as [[v|]|err] eqn:Hpaths.
  { unfold findProjectWithImport, bind, getThis, ret, lift. rewrite Hrel, Hpaths.
    apply Hnone. }
  2:{ unfold findProjectWithImport, bind, getThis, ret, lift. rewrite Hrel, Hpaths.
      apply Hnone. }
  destruct (builtInModuleSet_has host e) eqn:Hb.
  { unfold findProjectWithImport, bind, getThis, ret, lift. rewrite Hrel, Hpaths, Hb.
    exists []. rewrite app_nil_r. split; [reflexivity | constructor]. }
  rewrite (Rerun.findProjectWithImport_fallback host _ _ _ _ Hrel Hpaths Hb).
  now apply logs_fallbackChain.
Qed.

End Quiet.

(** X3. Without a root tsconfig the constructor succeeds with an instance
    that has no alias table, so [findPaths] answers [undefined] for every
    specifier; and on that instance, and on every instance that carries the
    same [tsConfig], no call to [findProjectWithImport] invokes the language
    resolver. *)
Theorem without_tsconfig (host : Host)
    (nodes0 : list (string * ProjectGraphProjectNode))
    (externalNodes0 : list (string * ProjectGraphExternalNode)) :
  getRootTsConfigFileName host = None ->
  exists t,
    new_TargetProjectLocator host nodes0 externalNodes0 = Return t /\
    (forall importExpr, findPaths t importExpr = None) /\
    forall importExpr projectRoot filePath w,
      tsConfig (this w) = tsConfig t ->
      Vocabulary.count Vocabulary.isLanguageResolution
        (calls (snd (findProjectWithImport host importExpr projectRoot filePath w)))
      = Vocabulary.count Vocabulary.isLanguageResolution (calls w).
Proof.
  intros Hname. unfold new_TargetProjectLocator, getRootTsConfig. rewrite Hname.
  eexists. split; [reflexivity|]. split; [reflexivity|].
  intros e r f w Hts.
  destruct (Quiet.logs_findProjectWithImport host e r f w) as (d & Hd & Hf).
  { now rewrite Hts. }
  rewrite Hd, Logs.count_app, (Logs.count_none _ d Hf). lia.
Qed.

Lemma without_tsconfig_witness :
  exists t,
    new_TargetProjectLocator
      {| workspaceRoot := "/work"; cwd := "/work"; builtinModules := ["fs"];
         getRootTsConfigFileName := None;
         readJsonFile := fun _ => Throw (Error "ENOENT");
         findExternalPackageJsonPath := fun _ _ => Return None;
         readFileSync := fun _ => Throw (Error "ENOENT");
         parseJson := fun _ => Throw (Error "JSON");
         resolveModuleByImport := fun _ _ _ => Throw (Error "no tsconfig");
         requireResolve := fun _ _ => Throw (Error "MODULE_NOT_FOUND") |}
      Demo.projects Demo.externals = Return t /\
    (forall importExpr, findPaths t importExpr = None).
Proof.
  destruct (without_tsconfig
    {| workspaceRoot := "/work"; cwd := "/work"; builtinModules := ["fs"];
       getRootTsConfigFileName := None;
       readJsonFile := fun _ => Throw (Error "ENOENT");
       findExternalPackageJsonPath := fun _ _ => Return None;
       readFileSync := fun _ => Throw (Error "ENOENT");
       parseJson := fun _ => Throw (Error "JSON");
       resolveModuleByImport := fun _ _ _ => Throw (Error "no tsconfig");
       requireResolve := fun _ _ => Throw (Error "MODULE_NOT_FOUND") |}
    Demo.projects Demo.externals eq_refl) as (t & Ht & Hp & _).
  exists t. split; [exact Ht | exact Hp].
Defined.





Module Construction.
Import JsString.

Lemma getOwn_NoDup {A : Type} (l : list (string * A)) (k : string) (v : A) :
  NoDup (map fst l) -> In (k, v) l -> getOwn k l = Some v.
Proof.
  induction l as [|[k0 v0] rest IH]; intros Hnd Hin; [destruct Hin|].
  cbn [map fst] in Hnd. apply NoDup_cons in Hnd as [Hk0 Hnd]. cbn [getOwn].
  destruct Hin as [Hin|Hin].
  - injection Hin as -> ->. now rewrite String.eqb_refl.
  - destruct (String.eqb k0 k) eqn:E; [|auto].
    apply String.eqb_eq in E. subst k0. exfalso. apply Hk0.
    apply list_elem_of_In. now apply (in_map fst) in Hin.
Qed.

Lemma scan_keys {A : Type} (P : string -> bool) (full l : list (string * A)) :
  (forall k v, In (k, v) l -> getOwn k full = Some v) ->
  flat_map (fun k => match getOwn k full with Some n => [n] | None => [] end)
    (List.filter P (map fst l))
  = map snd (List.filter (fun entry => P (fst entry)) l).
Proof.
  induction l as [|[k v] rest IH]; intros H; [reflexivity|].
  cbn [map fst List.filter]. destruct (P k).
  - cbn [flat_map map snd]. rewrite (H k v) by now left.
    cbn [app]. f_equal. apply IH. intros k' v' Hin. apply H. now right.
  - apply IH. intros k' v' Hin. apply H. now right.
Qed.

End Construction.

(** X6. The constructor scans the external nodes by key: [npmProjects] holds,
    in key order, exactly the nodes filed under a key that starts with
    [npm:]; nodes filed under any other key are left out and can never be
    matched. Both caches start empty and the node records are taken as
    given. *)
Theorem constructor_scans_npm_keys (host : Host)
    (nodes0 : list (string * ProjectGraphProjectNode))
    (externalNodes0 : list (string * ProjectGraphExternalNode))
    (t : TargetProjectLocator) :
  NoDup (map fst externalNodes0) ->
  new_TargetProjectLocator host nodes0 externalNodes0 = Return t ->
  npmProjects t =
    map snd (List.filter (fun entry => JsString.startsWith (fst entry) "npm:")
               externalNodes0) /\
  nodes t = nodes0 /\ externalNodes t = externalNodes0 /\
  projectRootMappings t = Imported.createProjectRootMappings nodes0 /\
  typescriptResolutionCache t = ∅ /\ npmResolutionCache t = ∅.
Proof.
  intros Hnd. unfold new_TargetProjectLocator.
  destruct (getRootTsConfig host) as [cfg|x]; [|discriminate].
  intros H. injection H as <-.
  cbn [npmProjects nodes externalNodes projectRootMappings
       typescriptResolutionCache npmResolutionCache].
  split; [|repeat split].
  apply (Construction.scan_keys (fun k => JsString.startsWith k "npm:")). intros k v. now apply Construction.getOwn_NoDup.
Qed.

Lemma constructor_scans_npm_keys_witness :
  npmProjects (this (Demo.fresh (Demo.host []))) = map snd Demo.externals.
Proof.
  destruct (constructor_scans_npm_keys (Demo.host []) Demo.projects Demo.externals
              (this (Demo.fresh (Demo.host [])))) as (H & _).
  - compute_done.
  - reflexivity.
  - exact H.
Defined.

(** X7. The language resolver's answer is cached under the specifier alone:
    after [resolveImportWithTypescript] has returned for a specifier from one
    importing file, a call for the same specifier from any other file
    returns the same value without invoking the resolver and leaves the
    instance as it is. *)
Theorem language_cache_ignores_file (host : Host)
    (importExpr filePath otherFile : string) (w : World) (v : value) :
  fst (resolveImportWithTypescript host importExpr filePath w) = Return v ->
  let w1 := snd (resolveImportWithTypescript host importExpr filePath w) in
  resolveImportWithTypescript host importExpr otherFile w1 = (Return v, w1).
Proof.
  destruct w as [t cs].
  unfold resolveImportWithTypescript, bind, getThis, ret, invoke,
    typescriptResolutionCache_set.
  cbn [this calls].
  destruct (typescriptResolutionCache t !! importExpr) as [c|] eqn:Hc.
  - destruct c as [m|]; cbn [ofCached truthy];
      [destruct (negb (m =? "")%string && negb (JsString.includes m "node_modules/"))
         eqn:Hb;
       [destruct (truthy (findProjectOfResolvedModule t m)) eqn:Ht|]|];
      cbn [fst snd this]; intros H; injection H as <-;
      rewrite Hc; cbn [ofCached truthy]; rewrite ?Hb, ?Ht; reflexivity.
  - destruct (resolveModuleByImport host importExpr filePath
                (tsc_absolutePath (tsConfig t))) as [[m|]|x];
      cbn [this calls ofOption truthy]; [| |discriminate].
    + destruct (negb (m =? "")%string) eqn:Hm; cbn [andb];
        [destruct (negb (JsString.includes m "node_modules/")) eqn:Hb;
         [destruct (truthy (findProjectOfResolvedModule t m)) eqn:Ht|]|];
        cbn [fst snd this]; intros H; injection H as <-;
        cbn; rewrite lookup_insert_eq; cbn [ofCached truthy andb];
        rewrite ?Hm, ?Hb; cbn [andb];
        try (change (findProjectOfResolvedModule _ m)
               with (findProjectOfResolvedModule t m); rewrite Ht);
        reflexivity.
    + cbn [fst snd this]. intros H. injection H as <-.
      cbn. rewrite lookup_insert_eq. reflexivity.
Qed.

Lemma language_cache_ignores_file_witness :
  let h := Demo.host [] in
  let w1 := snd (resolveImportWithTypescript h "x" "apps/app1/src/a.ts" (Demo.fresh h)) in
  resolveImportWithTypescript h "x" "apps/lib/src/b.ts" w1 = (Return VUndefined, w1).
Proof.
  cbv zeta.
  apply (language_cache_ignores_file (Demo.host []) "x" "apps/app1/src/a.ts"
           "apps/lib/src/b.ts" (Demo.fresh (Demo.host [])) VUndefined).
  vm_compute. reflexivity.
Defined.

(** X8. An alias with several targets resolves to the first target whose
    candidate lies in a project: targets before it whose candidates lie in no
    project (or below [node_modules]) are passed over, and the targets after
    it are not consulted. *)
Theorem first_target_in_a_project_wins (host : Host) (t : TargetProjectLocator)
    (path importExpr : string) (before : list string) (target : string)
    (rest : list string) :
  Forall (fun p =>
            truthy (findProjectOfResolvedModule t (expandTarget host path importExpr p))
            = false) before ->
  truthy (findProjectOfResolvedModule t (expandTarget host path importExpr target))
    = true ->
  firstResolvedProject host t path importExpr (before ++ target :: rest) =
    Some (findProjectOfResolvedModule t (expandTarget host path importExpr target)).
Proof.
  intros Hbefore Htarget.
  induction Hbefore as [|p before Hp _ IH]; cbn [app firstResolvedProject].
  - now rewrite Htarget.
  - now rewrite Hp.
Qed.

Lemma first_target_in_a_project_wins_witness :
  let h := Demo.host [] in
  firstResolvedProject h (this (Demo.fresh h)) "@org/util" "@org/util"
    (["dist/util"; "node_modules/util/index.js"] ++
     "apps/lib/src/index.ts" :: ["libs/shared/index.ts"])
  = Some (VStr "lib").
Proof.
  cbv zeta.
  apply (first_target_in_a_project_wins (Demo.host []) (this (Demo.fresh (Demo.host [])))
           "@org/util" "@org/util" ["dist/util"; "node_modules/util/index.js"]
           "apps/lib/src/index.ts" ["libs/shared/index.ts"]).
  - repeat constructor.
  - reflexivity.
Defined.

(** ** Facts about the further string primitives *)

Module JsTextFacts.
Import JsString JsText JsStringFacts.

Lemma hasChar_removeAll (c : ascii) (s : string) : hasChar c (removeAll c s) = false.
Proof.
  induction s as [|d s IH]; [reflexivity|].
  cbn [removeAll]. destruct (Ascii.eqb d c) eqn:E; [exact IH|].
  cbn [hasChar]. now rewrite E, IH.
Qed.

Lemma removeAll_clean (c : ascii) (s : string) :
  hasChar c s = false -> removeAll c s = s.
Proof.
  induction s as [|d s IH]; [reflexivity|].
  cbn [hasChar removeAll]. intros H. apply orb_false_iff in H as [E H].
  now rewrite E, IH.
Qed.

Lemma removeAll_app (c : ascii) (a b : string) :
  removeAll c (a +:+ b) = removeAll c a +:+ removeAll c b.
Proof.
  induction a as [|d a IH]; [reflexivity|].
  rewrite (string_app_cons d a). cbn [removeAll].
  destruct (Ascii.eqb d c); [exact IH|]. now rewrite IH.
Qed.

Lemma hasChar_trimStart (c : ascii) (s : string) :
  hasChar c s = false -> hasChar c (trimStart s) = false.
Proof.
  induction s as [|d s IH]; [reflexivity|].
  intros H. cbn [trimStart]. destruct (isWhiteSpace d); [|exact H].
  cbn [hasChar] in H. apply orb_false_iff in H as [_ H]. auto.
Qed.

Lemma hasChar_trimEnd (c : ascii) (s : string) :
  hasChar c s = false -> hasChar c (trimEnd s) = false.
Proof.
  induction s as [|d s IH]; [reflexivity|].
  cbn [hasChar]. intros H. apply orb_false_iff in H as [E H].
  specialize (IH H). cbn [trimEnd].
  destruct (trimEnd s) as [|e kept].
  - destruct (isWhiteSpace d); [reflexivity|]. cbn [hasChar]. now rewrite E.
  - cbn [hasChar] in *. now rewrite E, IH.
Qed.

Lemma hasChar_trim (c : ascii) (s : string) :
  hasChar c s = false -> hasChar c (trim s) = false.
Proof. intros H. now apply hasChar_trimEnd, hasChar_trimStart. Qed.

Lemma hasChar_substringFrom (c : ascii) (k : nat) (s : string) :
  hasChar c s = false -> hasChar c (substringFrom k s) = false.
Proof.
  revert s; induction k as [|k IH]; intros s H; [now destruct s|].
  destruct s as [|d s]; [reflexivity|].
  cbn [hasChar] in H. apply orb_false_iff in H as [_ H]. cbn [substringFrom]. auto.
Qed.

Lemma startsWith_prefix (h rest p : string) :
  startsWith h p = true -> startsWith (h +:+ rest) p = true.
Proof.
  revert h; induction p as [|c p IH]; intros h H; [reflexivity|].
  destruct h as [|d h]; [discriminate|].
  rewrite (string_app_cons d h). cbn [startsWith] in *.
  destruct (Ascii.eqb c d); [auto | discriminate].
Qed.

Lemma splitOn_nonempty (sep : string) (skip : nat) (s : string) :
  splitOn sep skip s <> [].
Proof.
  revert skip; induction s as [|c s IH]; intros skip; [discriminate|].
  cbn [splitOn]. destruct skip as [|k]; [|apply IH].
  destruct (startsWith (String c s) sep); [discriminate|].
  destruct (splitOn sep 0 s); discriminate.
Qed.

(** The first piece of a split is a prefix of the string. *)
Lemma splitOn_head (sep s h : string) (r : list string) :
  splitOn sep 0 s = h :: r -> exists rest, s = h +:+ rest.
Proof.
  revert h r; induction s as [|c s IH]; intros h r H.
  - injection H as <- _. now exists "".
  - cbn [splitOn] in H. destruct (startsWith (String c s) sep).
    + injection H as <- _. now exists (String c s).
    + destruct (splitOn sep 0 s) as [|h' r'] eqn:E.
      * injection H as <- _. now exists s.
      * injection H as <- _. destruct (IH _ _ eq_refl) as [rest ->].
        now exists rest.
Qed.

(** Without the separator there is one piece. *)
Lemma splitOn_whole (sep s : string) :
  includes s sep = false -> splitOn sep 0 s = [s].
Proof.
  induction s as [|c s IH]; [reflexivity|].
  cbn [includes]. intros H. apply orb_false_iff in H as [H1 H2].
  cbn [splitOn]. rewrite H1, (IH H2). reflexivity.
Qed.

End JsTextFacts.

(** ** Facts about the listing of Gradle projects *)

Module Listing.
Import JsString JsText JsStringFacts JsTextFacts Gradle Entries.

Lemma stripColon_clean (cleaned : string) :
  hasChar "'" cleaned = false ->
  hasChar "'" (if startsWith cleaned ":" then substringFrom 1 cleaned else cleaned)
  = false.
Proof.
  intros Hc. destruct (startsWith cleaned ":"); [|exact Hc].
  now apply hasChar_substringFrom.
Qed.

Lemma includedBuildOf_clean (dep name : string) :
  includedBuildOf dep = Return name -> hasChar "'" name = false.
Proof.
  unfold includedBuildOf.
  set (named := if startsWith dep "Included build " then _ else _).
  destruct named as [named|]; [|discriminate].
  intros [= <-]. apply stripColon_clean, hasChar_trim, hasChar_removeAll.
Qed.

(** One line keeps the entries collected so far and adds at most one. *)
Lemma processLine_grows (acc acc' : ProjectsListing) (line : string) :
  processLine acc line = Return acc' ->
  exists more, compositeProjects acc' = compositeProjects acc ++ more /\
               Forall clean more.
Proof.
  unfold processLine. intros H.
  assert (Hsame : exists more, compositeProjects acc = compositeProjects acc ++ more /\
                               Forall clean more)
    by (exists []; split; [now rewrite app_nil_r | constructor]).
  destruct (startsWith line "Root project").
  { injection H as <-. exact Hsame. }
  destruct (truthy (ofOption (projectName acc))); [|injection H as <-; exact Hsame].
  destruct (splitOn "--- " 0 line) as [|indents more]; [injection H as <-; exact Hsame|].
  destruct (String.eqb indents "\" || String.eqb indents "+");
    [|injection H as <-; exact Hsame].
  destruct more as [|dep more]; [discriminate|].
  destruct (includedBuildOf dep) as [name|e] eqn:E; [|discriminate].
  destruct (truthy (VStr name)) eqn:Et; injection H as <-; [|exact Hsame].
  exists [name]. split; [reflexivity|].
  constructor; [|constructor]. split.
  - intros ->. discriminate.
  - eapply includedBuildOf_clean; eauto.
Qed.

Lemma processLines_grows (lines : list string) (acc acc' : ProjectsListing) :
  processLines acc lines = Return acc' ->
  exists more, compositeProjects acc' = compositeProjects acc ++ more /\
               Forall clean more.
Proof.
  revert acc; induction lines as [|line lines IH]; intros acc H; cbn [processLines] in H.
  - injection H as <-. exists []. split; [now rewrite app_nil_r | constructor].
  - destruct (processLine acc line) as [acc1|e] eqn:E; [|discriminate].
    destruct (processLine_grows _ _ _ E) as (m1 & E1 & F1).
    destruct (IH _ H) as (m2 & -> & F2). rewrite E1.
    exists (m1 ++ m2). split; [now rewrite app_assoc | now apply Forall_app].
Qed.

Lemma processLines_app (l1 l2 : list string) (acc : ProjectsListing) :
  processLines acc (l1 ++ l2) =
  match processLines acc l1 with
  | Return acc' => processLines acc' l2
  | Throw e => Throw e
  end.
Proof.
  revert acc; induction l1 as [|line l1 IH]; intros acc; [reflexivity|].
  cbn [processLines app]. destruct (processLine acc line); [apply IH | reflexivity].
Qed.

(** A line that starts no root project is skipped while no root project
    has been named. *)
Lemma processLine_before_root (acc : ProjectsListing) (line : string) :
  truthy (ofOption (projectName acc)) = false ->
  startsWith line "Root project" = false ->
  processLine acc line = Return acc.
Proof. intros Hn Hl. unfold processLine. now rewrite Hl, Hn. Qed.

End Listing.

(** X9. The entries of [compositeProjects] that [processProjects] returns
    are never empty and hold no apostrophe, whatever the lines are. *)
Theorem composite_projects_clean (projectsLines : list string)
    (listing : Gradle.ProjectsListing) :
  Gradle.processProjects projectsLines = Return listing ->
  Forall (fun name => name <> "" /\ JsText.hasChar "'" name = false)
         (Gradle.compositeProjects listing).
Proof.
  intros H. destruct (Listing.processLines_grows _ _ _ H) as (more & -> & F).
  exact F.
Qed.

Lemma composite_projects_clean_witness :
  Gradle.processProjects
    ["Root project 'demo'"; "+--- Project ':app'";
     "\--- Included build ':build-logic' (n)"]
  = Return {| Gradle.projectName := Some "demo";
              Gradle.compositeProjects := ["app"; "build-logic"] |} /\
  Forall (fun name => name <> "" /\ JsText.hasChar "'" name = false)
         ["app"; "build-logic"].
Proof.
  split; [vm_compute; reflexivity|].
  apply (composite_projects_clean
           ["Root project 'demo'"; "+--- Project ':app'";
            "\--- Included build ':build-logic' (n)"]
           {| Gradle.projectName := Some "demo";
              Gradle.compositeProjects := ["app"; "build-logic"] |}).
  vm_compute; reflexivity.
Defined.

(** X10. Lines that come before the first [Root project] line are
    ignored by [processProjects], whatever they hold: no entry is read from
    them and none of them makes the call throw. *)
Theorem lines_before_root_ignored (before rest : list string) :
  Forall (fun line => JsString.startsWith line "Root project" = false) before ->
  Gradle.processProjects (before ++ rest) = Gradle.processProjects rest.
Proof.
  intros H. unfold Gradle.processProjects.
  induction H as [|line before Hl _ IH]; [reflexivity|].
  cbn [app Gradle.processLines].
  rewrite Listing.processLine_before_root by (reflexivity || exact Hl).
  exact IH.
Qed.

Lemma lines_before_root_ignored_witness :
  Gradle.processProjects
    (["+--- Project ':early'"; "+--- "; "+"] ++ ["Root project 'demo'"; "+--- Project ':app'"])
  = Gradle.processProjects ["Root project 'demo'"; "+--- Project ':app'"].
Proof.
  apply (lines_before_root_ignored ["+--- Project ':early'"; "+--- "; "+"]).
  repeat constructor.
Defined.

(** X11. Reading more lines only adds to the end of [compositeProjects]:
    when [processProjects] returns for a listing, it returns for every
    leading part of it, and the entries of the leading part are the first
    entries of the whole. *)
Theorem longer_listing_extends (lines further : list string)
    (whole : Gradle.ProjectsListing) :
  Gradle.processProjects (lines ++ further) = Return whole ->
  exists part more,
    Gradle.processProjects lines = Return part /\
    Gradle.compositeProjects whole = Gradle.compositeProjects part ++ more.
Proof.
  unfold Gradle.processProjects. rewrite Listing.processLines_app.
  destruct (Gradle.processLines _ lines) as [part|e]; [|discriminate].
  intros H. destruct (Listing.processLines_grows _ _ _ H) as (more & E & _).
  now exists part, more.
Qed.

Lemma longer_listing_extends_witness :
  exists part more,
    Gradle.processProjects ["Root project 'demo'"; "+--- Project ':app'"] = Return part /\
    ["app"; "lib"] = Gradle.compositeProjects part ++ more.
Proof.
  apply (longer_listing_extends
           ["Root project 'demo'"; "+--- Project ':app'"]
           ["\--- Project ':lib'"]
           {| Gradle.projectName := Some "demo";
              Gradle.compositeProjects := ["app"; "lib"] |}).
  vm_compute; reflexivity.
Defined.

(** X12. Once a root project is named, a line made of [+] or [\] only, or of
    [+--- ] or [\--- ] followed by a text that starts with neither
    [Included build ] nor [Project ], makes [processProjects] throw a
    TypeError, whatever the lines after it are. *)
Theorem unknown_entry_throws (before after : list string)
    (listing : Gradle.ProjectsListing) (mark dep : string) :
  Gradle.processProjects before = Return listing ->
  truthy (ofOption (Gradle.projectName listing)) = true ->
  mark = "+" \/ mark = "\" ->
  JsString.startsWith dep "Included build " = false ->
  JsString.startsWith dep "Project " = false ->
  Gradle.processProjects (before ++ (mark +:+ "--- " +:+ dep) :: after)
    = Throw Gradle.typeError /\
  Gradle.processProjects (before ++ mark :: after) = Throw Gradle.typeError.
Proof.
  intros Hb Hn Hm Hi Hp. unfold Gradle.processProjects in *.
  rewrite !Listing.processLines_app, Hb. cbn [Gradle.processLines].
  assert (Hdep : forall line,
            JsString.startsWith line "Root project" = false ->
            JsText.splitOn "--- " 0 line = mark :: JsText.splitOn "--- " 0 dep ->
            Gradle.processLine listing line = Throw Gradle.typeError).
  { intros line Hr Hs. unfold Gradle.processLine. rewrite Hr, Hn, Hs.
    assert (Hmark : (String.eqb mark "\" || String.eqb mark "+") = true)
      by (destruct Hm as [-> | ->]; reflexivity).
    rewrite Hmark.
    destruct (JsText.splitOn "--- " 0 dep) as [|piece more] eqn:E.
    { now apply JsTextFacts.splitOn_nonempty in E. }
    destruct (JsTextFacts.splitOn_head _ _ _ _ E) as [rest ->].
    unfold Gradle.includedBuildOf.
    destruct (JsString.startsWith piece "Included build ") eqn:E1.
    { now rewrite (JsTextFacts.startsWith_prefix _ rest _ E1) in Hi. }
    destruct (JsString.startsWith piece "Project ") eqn:E2.
    { now rewrite (JsTextFacts.startsWith_prefix _ rest _ E2) in Hp. }
    reflexivity. }
  split.
  - rewrite Hdep; [reflexivity| |]; destruct Hm as [-> | ->]; reflexivity.
  - assert (Hbare : Gradle.processLine listing mark = Throw Gradle.typeError).
    { unfold Gradle.processLine. destruct Hm as [-> | ->];
        (replace (JsString.startsWith _ "Root project") with false by reflexivity);
        rewrite Hn; reflexivity. }
    now rewrite Hbare.
Qed.

Lemma unknown_entry_throws_witness :
  Gradle.processProjects
    (["Root project 'demo'"] ++ ("+" +:+ "--- " +:+ "No sub-projects") :: ["+--- Project ':app'"])
    = Throw Gradle.typeError /\
  Gradle.processProjects (["Root project 'demo'"] ++ "+" :: ["+--- Project ':app'"])
    = Throw Gradle.typeError.
Proof.
  apply (unknown_entry_throws ["Root project 'demo'"] ["+--- Project ':app'"]
           {| Gradle.projectName := Some "demo"; Gradle.compositeProjects := [] |}
           "+" "No sub-projects").
  - vm_compute; reflexivity.
  - reflexivity.
  - left; reflexivity.
  - reflexivity.
  - reflexivity.
Defined.

(** ** Reading one well-formed entry of the listing *)

Module Entry.
Import JsString JsText JsStringFacts JsTextFacts Gradle.

Lemma startsWith_foreign (c : ascii) (p a b : string) :
  p <> "" -> hasChar c p = false ->
  startsWith (a +:+ String c b) p = startsWith a p.
Proof.
  revert a; induction p as [|x p IH]; intros a Hne Hc; [congruence|].
  cbn [hasChar] in Hc. apply orb_false_iff in Hc as [Hx Hc].
  destruct a as [|d a].
  - rewrite string_app_nil. cbn [startsWith]. now rewrite Hx.
  - rewrite (string_app_cons d a). cbn [startsWith].
    destruct (Ascii.eqb x d); [|reflexivity].
    destruct p as [|y p]; [reflexivity|]. apply IH; [discriminate | exact Hc].
Qed.

(** An occurrence of [p] cannot span a character that [p] does not hold. *)
Lemma includes_foreign (c : ascii) (p a b : string) :
  p <> "" -> hasChar c p = false ->
  includes (a +:+ String c b) p = includes a p || includes b p.
Proof.
  intros Hne Hc. induction a as [|d a IH].
  - rewrite string_app_nil. cbn [includes].
    pose proof (startsWith_foreign c p "" b Hne Hc) as Hs.
    rewrite string_app_nil in Hs. rewrite Hs.
    destruct p; [congruence | reflexivity].
  - rewrite (string_app_cons d a). cbn [includes].
    rewrite <- (string_app_cons d a), startsWith_foreign, IH by assumption.
    now rewrite orb_assoc.
Qed.

Lemma substring_substringFrom (k : nat) (s : string) :
  s = String.substring 0 k s +:+ substringFrom k s.
Proof.
  revert s; induction k as [|k IH]; intros s.
  - destruct s; reflexivity.
  - destruct s as [|c s]; [reflexivity|].
    cbn [String.substring substringFrom]. rewrite string_app_cons. now rewrite <- IH.
Qed.

Lemma endsWith_split (s p : string) :
  endsWith s p = true -> exists a, s = a +:+ p.
Proof.
  unfold endsWith. intros H. apply andb_true_iff in H as [_ H].
  apply String.eqb_eq in H.
  exists (String.substring 0 (String.length s - String.length p) s).
  rewrite <- H at 2. apply substring_substringFrom.
Qed.

Lemma string_app_inj_last (a b : string) (c d : ascii) :
  a +:+ String c "" = b +:+ String d "" -> c = d.
Proof.
  revert b; induction a as [|x a IH]; intros b H.
  - destruct b as [|y b]; [now injection H|].
    rewrite string_app_nil, string_app_cons in H. injection H as _ H.
    destruct b; discriminate.
  - destruct b as [|y b].
    + rewrite string_app_nil, string_app_cons in H. injection H as _ H.
      destruct a; discriminate.
    + rewrite !string_app_cons in H. injection H as _ H. eauto.
Qed.

Lemma endsWith_last (a p : string) (c d : ascii) :
  c <> d -> endsWith (a +:+ String c "") (p +:+ String d "") = false.
Proof.
  intros Hcd. destruct (endsWith _ _) eqn:E; [|reflexivity].
  apply endsWith_split in E as [a' E].
  rewrite <- string_app_assoc in E. now apply string_app_inj_last in E.
Qed.

Lemma trim_colon (n : string) : trim (":" +:+ n) = ":" +:+ trimEnd n.
Proof.
  rewrite !string_app_cons, !string_app_nil.
  change (trim (String ":" n)) with (trimEnd (String ":" n)).
  cbn [trimEnd]. destruct (trimEnd n); reflexivity.
Qed.

(** The text between [':] and ['], without the white space at its end. *)
Lemma includedBuildOf_quoted (kind n note : string) :
  kind = "Project " \/ kind = "Included build " ->
  note = "" \/ note = " (n)" ->
  hasChar "'" n = false ->
  includedBuildOf (kind +:+ "':" +:+ n +:+ "'" +:+ note) = Return (trimEnd n).
Proof.
  intros Hk Hnote Hn.
  assert (Hnamed : includedBuildOf (kind +:+ "':" +:+ n +:+ "'" +:+ note) =
            let cleaned := trim (removeAll "'" (dropSuffix ("':" +:+ n +:+ "'" +:+ note) " (n)")) in
            Return (if startsWith cleaned ":" then substringFrom 1 cleaned else cleaned))
    by (destruct Hk as [-> | ->]; reflexivity).
  rewrite Hnamed; clear Hnamed.
  assert (Hdrop : dropSuffix ("':" +:+ n +:+ "'" +:+ note) " (n)" = "':" +:+ n +:+ "'").
  { destruct Hnote as [-> | ->].
    - rewrite string_app_empty_r. unfold dropSuffix.
      rewrite <- (string_app_assoc "':" n "'").
      assert (He : endsWith (("':" +:+ n) +:+ "'") " (n)" = false)
        by now apply (endsWith_last ("':" +:+ n) " (n" "'" ")").
      now rewrite He.
    - rewrite <- (string_app_assoc n "'" " (n)"), <- (string_app_assoc "':" (n +:+ "'") " (n)").
      apply dropSuffix_app. }
  cbv zeta. rewrite Hdrop.
  assert (Hrm : removeAll "'" ("':" +:+ n +:+ "'") = ":" +:+ n).
  { change (removeAll "'" ("':" +:+ n +:+ "'")) with (String ":" (removeAll "'" (n +:+ "'"))).
    rewrite removeAll_app, (removeAll_clean _ _ Hn). cbn [removeAll].
    now rewrite string_app_empty_r. }
  rewrite Hrm, trim_colon. reflexivity.
Qed.

Lemma splitOn_entry (mark dep : string) :
  mark = "+" \/ mark = "\" ->
  includes dep "--- " = false ->
  splitOn "--- " 0 (mark +:+ "--- " +:+ dep) = [mark; dep].
Proof.
  intros Hm Hd.
  assert (H : splitOn "--- " 0 (mark +:+ "--- " +:+ dep) = mark :: splitOn "--- " 0 dep)
    by (destruct Hm as [-> | ->]; reflexivity).
  now rewrite H, splitOn_whole.
Qed.

Lemma includes_quoted (kind n note : string) :
  kind = "Project " \/ kind = "Included build " ->
  note = "" \/ note = " (n)" ->
  includes n "--- " = false ->
  includes (kind +:+ "':" +:+ n +:+ "'" +:+ note) "--- " = false.
Proof.
  intros Hk Hnote Hn.
  assert (H : includes (kind +:+ "':" +:+ n +:+ "'" +:+ note) "--- "
              = includes (n +:+ String "'" note) "--- ")
    by (destruct Hk as [-> | ->]; reflexivity).
  rewrite H, includes_foreign, Hn by (discriminate || reflexivity).
  destruct Hnote as [-> | ->]; reflexivity.
Qed.

End Entry.

(** X13. Once a root project is named, a line [+--- Project ':n'] (or with
    [\], with [Included build], with [ (n)] at its end) whose [n] holds no
    apostrophe and no [--- ] adds [n] without the white space at its end to
    [compositeProjects], and adds nothing when that leaves no character;
    white space at the start of [n] is kept. *)
Theorem quoted_entry_read (before : list string) (listing : Gradle.ProjectsListing)
    (mark kind n note : string) :
  Gradle.processProjects before = Return listing ->
  truthy (ofOption (Gradle.projectName listing)) = true ->
  mark = "+" \/ mark = "\" ->
  kind = "Project " \/ kind = "Included build " ->
  note = "" \/ note = " (n)" ->
  JsText.hasChar "'" n = false ->
  JsString.includes n "--- " = false ->
  Gradle.processProjects
    (before ++ [mark +:+ "--- " +:+ kind +:+ "':" +:+ n +:+ "'" +:+ note])
  = Return (if String.eqb (JsText.trimEnd n) "" then listing
            else {| Gradle.projectName := Gradle.projectName listing;
                    Gradle.compositeProjects :=
                      Gradle.compositeProjects listing ++ [JsText.trimEnd n] |}).
Proof.
  intros Hb Hroot Hm Hk Hnote Hq Hsep. unfold Gradle.processProjects in *.
  rewrite Listing.processLines_app, Hb. cbn [Gradle.processLines].
  unfold Gradle.processLine.
  assert (Hline : JsString.startsWith
            (mark +:+ "--- " +:+ kind +:+ "':" +:+ n +:+ "'" +:+ note) "Root project"
            = false)
    by (destruct Hm as [-> | ->]; reflexivity).
  rewrite Hline, Hroot.
  rewrite Entry.splitOn_entry by (auto using Entry.includes_quoted).
  assert (Hmark : (String.eqb mark "\" || String.eqb mark "+") = true)
    by (destruct Hm as [-> | ->]; reflexivity).
  rewrite Hmark, Entry.includedBuildOf_quoted by assumption.
  cbn [truthy]. now destruct (String.eqb (JsText.trimEnd n) "").
Qed.

Lemma quoted_entry_read_witness :
  Gradle.processProjects
    (["Root project 'demo'"] ++
     ["\" +:+ "--- " +:+ "Included build " +:+ "':" +:+ " build-logic  " +:+ "'" +:+ " (n)"])
  = Return {| Gradle.projectName := Some "demo";
              Gradle.compositeProjects := [" build-logic"] |}.
Proof.
  apply (quoted_entry_read ["Root project 'demo'"]
           {| Gradle.projectName := Some "demo"; Gradle.compositeProjects := [] |}
           "\" "Included build " " build-logic  " " (n)").
  - vm_compute; reflexivity.
  - reflexivity.
  - right; reflexivity.
  - right; reflexivity.
  - right; reflexivity.
  - reflexivity.
  - reflexivity.
Defined.

(** ** The migration of the graph cache directory *)

Module MigrationFacts.
Import JsString JsText JsStringFacts Migration.

Lemma memoryTree_laws : TreeLaws (gmap string string).
Proof.
  split.
  - intros t path content. apply lookup_insert_eq.
  - intros t path other content Hne. apply lookup_insert_ne. congruence.
Qed.

(** [replace] puts the new text in the place of the first occurrence. *)
Lemma replaceFirst_split (pat by_ s : string) :
  includes s pat = true ->
  exists pre post,
    s = pre +:+ pat +:+ post /\
    replaceFirst pat by_ s = pre +:+ by_ +:+ post /\
    forall pre' post', s = pre' +:+ pat +:+ post' ->
                       String.length pre <= String.length pre'.
Proof.
  induction s as [|c s IH]; intros H.
  - assert (Hs : startsWith "" pat = true) by (destruct pat; [reflexivity | discriminate]).
    destruct (startsWith_split _ _ Hs) as [r E].
    exists "", r. split; [exact E|]. split.
    + cbn [replaceFirst]. rewrite Hs. rewrite E at 1. now rewrite substringFrom_app.
    + intros; simpl; lia.
  - destruct (startsWith (String c s) pat) eqn:Hs.
    + destruct (startsWith_split _ _ Hs) as [r E].
      exists "", r. split; [exact E|]. split.
      * cbn [replaceFirst]. rewrite Hs. rewrite E at 1. now rewrite substringFrom_app.
      * intros; simpl; lia.
    + cbn [includes] in H. rewrite Hs in H.
      destruct (IH H) as (pre & post & E & R & Hmin).
      exists (String c pre), post. split; [rewrite string_app_cons; now rewrite <- E|].
      split.
      * cbn [replaceFirst]. rewrite Hs, R. reflexivity.
      * intros pre' post' E'. destruct pre' as [|d pre'].
        { rewrite string_app_nil in E'. rewrite E', startsWith_app in Hs. discriminate. }
        rewrite string_app_cons in E'. injection E' as _ E'.
        specialize (Hmin _ _ E'). simpl. lia.
Qed.

Lemma includes_middle (pre mid post : string) :
  includes (pre +:+ mid +:+ post) mid = true.
Proof. apply includes_app, includes_here, startsWith_app. Qed.

(** The text the migration puts in the place of [.nx/cache]. *)
Lemma both_entries :
  join (String "010"%char EmptyString) [".nx/cache"; ".nx/workspace-data"]
  = ".nx/cache" +:+ String "010"%char EmptyString +:+ ".nx/workspace-data".
Proof. reflexivity. Qed.

Lemma includes_replaced (pre post : string) :
  includes
    (pre +:+ (".nx/cache" +:+ String "010"%char EmptyString +:+ ".nx/workspace-data")
         +:+ post)
    ".nx/workspace-data" = true.
Proof.
  rewrite !string_app_assoc.
  apply includes_app, includes_app, includes_app, includes_here, startsWith_app.
Qed.

Section OnATree.
Context {T : Type} `{TreeLaws T}.

(** What the migration does, by the content of [.gitignore]. *)
Lemma moveGraphCacheDirectory_writes (tree : T) (gitignore : string) :
  read tree ".gitignore" = Some gitignore ->
  includes gitignore ".nx/workspace-data" = false ->
  includes gitignore ".nx/cache" = true ->
  moveGraphCacheDirectory tree =
  write tree ".gitignore"
    (replaceFirst ".nx/cache"
       (".nx/cache" +:+ String "010"%char EmptyString +:+ ".nx/workspace-data")
       gitignore).
Proof.
  intros Hr Hw Hc. unfold moveGraphCacheDirectory. rewrite Hr, Hw, Hc.
  destruct gitignore; [discriminate | reflexivity].
Qed.

Lemma moveGraphCacheDirectory_cases (tree : T) :
  moveGraphCacheDirectory tree = tree \/
  exists gitignore,
    read tree ".gitignore" = Some gitignore /\
    includes gitignore ".nx/workspace-data" = false /\
    includes gitignore ".nx/cache" = true.
Proof.
  unfold moveGraphCacheDirectory.
  destruct (read tree ".gitignore") as [gitignore|]; [|now left].
  destruct (negb (truthy (VStr gitignore))); [now left|].
  destruct (includes gitignore ".nx/workspace-data") eqn:Hw; [now left|].
  destruct (includes gitignore ".nx/cache") eqn:Hc; [|now left].
  right. now exists gitignore.
Qed.

Lemma moveGraphCacheDirectory_settled (tree : T) (gitignore : string) :
  read tree ".gitignore" = Some gitignore ->
  includes gitignore ".nx/workspace-data" = true ->
  moveGraphCacheDirectory tree = tree.
Proof.
  intros Hr Hw. unfold moveGraphCacheDirectory. rewrite Hr, Hw.
  now destruct (negb _).
Qed.

End OnATree.

End MigrationFacts.

(** X14. Running the migration [moveGraphCacheDirectory] a second time
    changes nothing: on any tree that reads back what was written, the
    result of two runs is the result of one. *)
Theorem migration_idempotent {T : Type} `{Migration.TreeLaws T} (tree : T) :
  Migration.moveGraphCacheDirectory (Migration.moveGraphCacheDirectory tree)
  = Migration.moveGraphCacheDirectory tree.
Proof.
  destruct (MigrationFacts.moveGraphCacheDirectory_cases tree)
    as [E | (gitignore & Hr & Hw & Hc)].
  - now rewrite !E.
  - rewrite (MigrationFacts.moveGraphCacheDirectory_writes tree gitignore Hr Hw Hc).
    destruct (MigrationFacts.replaceFirst_split ".nx/cache"
                (".nx/cache" +:+ String "010"%char EmptyString +:+ ".nx/workspace-data")
                gitignore Hc) as (pre & post & _ & -> & _).
    eapply MigrationFacts.moveGraphCacheDirectory_settled.
    + apply Migration.read_write.
    + apply MigrationFacts.includes_replaced.
Qed.

Lemma migration_idempotent_witness :
  Migration.moveGraphCacheDirectory
    (Migration.moveGraphCacheDirectory MigrationDemo.workspace)
  = Migration.moveGraphCacheDirectory MigrationDemo.workspace.
Proof.
  exact (@migration_idempotent _ _ MigrationFacts.memoryTree_laws MigrationDemo.workspace).
Defined.

(** X15. When [.gitignore] mentions [.nx/cache] and not
    [.nx/workspace-data], the migration keeps the whole text and puts a new
    line [.nx/workspace-data] directly behind the first [.nx/cache],
    whatever follows it on that line. *)
Theorem migration_inserts_after_first {T : Type} `{Migration.TreeLaws T}
    (tree : T) (gitignore : string) :
  Migration.read tree ".gitignore" = Some gitignore ->
  JsString.includes gitignore ".nx/cache" = true ->
  JsString.includes gitignore ".nx/workspace-data" = false ->
  exists pre post,
    gitignore = pre +:+ ".nx/cache" +:+ post /\
    (forall pre' post', gitignore = pre' +:+ ".nx/cache" +:+ post' ->
                        String.length pre <= String.length pre') /\
    Migration.read (Migration.moveGraphCacheDirectory tree) ".gitignore"
    = Some (pre +:+ ".nx/cache" +:+ String "010"%char EmptyString
                +:+ ".nx/workspace-data" +:+ post).
Proof.
  intros Hr Hc Hw.
  rewrite (MigrationFacts.moveGraphCacheDirectory_writes tree gitignore Hr Hw Hc).
  destruct (MigrationFacts.replaceFirst_split ".nx/cache"
              (".nx/cache" +:+ String "010"%char EmptyString +:+ ".nx/workspace-data")
              gitignore Hc) as (pre & post & E & R & Hmin).
  exists pre, post. split; [exact E|]. split; [exact Hmin|].
  rewrite Migration.read_write, R, !JsStringFacts.string_app_assoc. reflexivity.
Qed.

Lemma migration_inserts_after_first_witness :
  exists pre post,
    MigrationDemo.gitignore = pre +:+ ".nx/cache" +:+ post /\
    (forall pre' post', MigrationDemo.gitignore = pre' +:+ ".nx/cache" +:+ post' ->
                        String.length pre <= String.length pre') /\
    Migration.read (Migration.moveGraphCacheDirectory MigrationDemo.workspace) ".gitignore"
    = Some (pre +:+ ".nx/cache" +:+ String "010"%char EmptyString
                +:+ ".nx/workspace-data" +:+ post).
Proof.
  apply (@migration_inserts_after_first _ _ MigrationFacts.memoryTree_laws
           MigrationDemo.workspace MigrationDemo.gitignore);
    vm_compute; reflexivity.
Defined.

(** X16. The migration touches no file but [.gitignore]: every other path
    reads after it as it read before. *)
Theorem migration_leaves_other_files {T : Type} `{Migration.TreeLaws T}
    (tree : T) (path : string) :
  path <> ".gitignore" ->
  Migration.read (Migration.moveGraphCacheDirectory tree) path
  = Migration.read tree path.
Proof.
  intros Hp.
  destruct (MigrationFacts.moveGraphCacheDirectory_cases tree)
    as [E | (gitignore & Hr & Hw & Hc)]; [now rewrite E|].
  rewrite (MigrationFacts.moveGraphCacheDirectory_writes tree gitignore Hr Hw Hc).
  now apply Migration.read_write_other.
Qed.

Lemma migration_leaves_other_files_witness :
  Migration.read (Migration.moveGraphCacheDirectory MigrationDemo.workspace) "README.md"
  = Migration.read MigrationDemo.workspace "README.md".
Proof.
  apply (@migration_leaves_other_files _ _ MigrationFacts.memoryTree_laws
           MigrationDemo.workspace "README.md").
  discriminate.
Defined.

(** X17. After the migration, a [.gitignore] that mentions [.nx/cache]
    mentions [.nx/workspace-data] too, whatever the tree held before. *)
Theorem migration_lists_workspace_data {T : Type} `{Migration.TreeLaws T}
    (tree : T) (gitignore' : string) :
  Migration.read (Migration.moveGraphCacheDirectory tree) ".gitignore" = Some gitignore' ->
  JsString.includes gitignore' ".nx/cache" = true ->
  JsString.includes gitignore' ".nx/workspace-data" = true.
Proof.
  intros Hr' Hc'.
  destruct (MigrationFacts.moveGraphCacheDirectory_cases tree)
    as [E | (gitignore & Hr & Hw & Hc)].
  - rewrite E in Hr'.
    destruct (JsString.includes gitignore' ".nx/workspace-data") eqn:Hw'; [reflexivity|].
    rewrite (MigrationFacts.moveGraphCacheDirectory_writes tree gitignore' Hr' Hw' Hc') in E.
    apply (f_equal (fun t => Migration.read t ".gitignore")) in E.
    rewrite Migration.read_write, Hr' in E. injection E as E.
    destruct (MigrationFacts.replaceFirst_split ".nx/cache"
                (".nx/cache" +:+ String "010"%char EmptyString +:+ ".nx/workspace-data")
                gitignore' Hc') as (pre & post & _ & R & _).
    rewrite E in R. rewrite R in Hw'.
    now rewrite MigrationFacts.includes_replaced in Hw'.
  - rewrite (MigrationFacts.moveGraphCacheDirectory_writes tree gitignore Hr Hw Hc) in Hr'.
    rewrite Migration.read_write in Hr'. injection Hr' as <-.
    destruct (MigrationFacts.replaceFirst_split ".nx/cache"
                (".nx/cache" +:+ String "010"%char EmptyString +:+ ".nx/workspace-data")
                gitignore Hc) as (pre & post & _ & -> & _).
    apply MigrationFacts.includes_replaced.
Qed.

Lemma migration_lists_workspace_data_witness :
  JsString.includes MigrationDemo.migrated ".nx/workspace-data" = true.
Proof.
  apply (@migration_lists_workspace_data _ _ MigrationFacts.memoryTree_laws
           MigrationDemo.workspace MigrationDemo.migrated);
    vm_compute; reflexivity.
Defined.

(** ** The package name of a specifier *)

Module PackageName.
Import JsString JsText JsStringFacts.

Lemma split_pieces (s : string) :
  Forall (fun piece => hasChar "/" piece = false) (split "/" s).
Proof.
  induction s as [|c s IH]; [repeat constructor|].
  cbn [split]. destruct (Ascii.eqb c "/") eqn:E; [now constructor|].
  destruct (split "/" s) as [|h r]; [repeat constructor; cbn [hasChar]; now rewrite E|].
  inversion IH as [|? ? Hh Hr]; subst. constructor; [|exact Hr].
  cbn [hasChar]. now rewrite E, Hh.
Qed.

Lemma split_piece (s : string) : hasChar "/" s = false -> split "/" s = [s].
Proof.
  induction s as [|c s IH]; [reflexivity|].
  cbn [hasChar]. intros H. apply orb_false_iff in H as [E H].
  cbn [split]. now rewrite E, (IH H).
Qed.

(** A specifier starts with [@] when its first component does. *)
Lemma startsWith_at_hd (s : string) :
  startsWith (hd "" (split "/" s)) "@" = startsWith s "@".
Proof.
  destruct s as [|c s]; [reflexivity|].
  cbn [split]. destruct (Ascii.eqb c "/") eqn:E.
  - apply Ascii.eqb_eq in E; subst c. reflexivity.
  - destruct (split "/" s); reflexivity.
Qed.

End PackageName.

(** X18. [parsePackageNameFromImportExpression] is a projection: the
    package name of a specifier is the specifier itself or what comes before
    one of its slashes, and parsing a package name gives it back, so the
    package key of the cache is the same for a package and for every path
    into it. *)
Theorem package_name_canonical (importExpression : string) :
  let name := parsePackageNameFromImportExpression importExpression in
  (importExpression = name \/ exists rest, importExpression = name +:+ "/" +:+ rest) /\
  parsePackageNameFromImportExpression name = name.
Proof.
  cbv zeta. split; [apply Reads.packageName_prefix|].
  unfold parsePackageNameFromImportExpression at 2 3.
  pose proof (PackageName.split_pieces importExpression) as Hp.
  pose proof (PackageName.startsWith_at_hd importExpression) as Hat.
  destruct (JsString.split "/" importExpression) as [|h tl] eqn:Es.
  { now apply JsStringFacts.split_nonempty in Es. }
  cbn [hd] in Hat. inversion Hp as [|? ? Hh Htl]; subst.
  destruct (JsString.startsWith importExpression "@") eqn:Escoped.
  - destruct tl as [|x tl].
    + cbn [firstn JsString.join]. unfold parsePackageNameFromImportExpression.
      now rewrite Hat, (PackageName.split_piece h Hh).
    + inversion Htl as [|? ? Hx _]; subst.
      change (JsString.join "/" (firstn 2 (h :: x :: tl))) with (h +:+ "/" +:+ x).
      unfold parsePackageNameFromImportExpression.
      rewrite (JsTextFacts.startsWith_prefix h ("/" +:+ x) "@" Hat).
      rewrite JsStringFacts.split_app_sep.
      now rewrite (PackageName.split_piece h Hh), (PackageName.split_piece x Hx).
  - cbn [hd]. unfold parsePackageNameFromImportExpression.
    now rewrite Hat, (PackageName.split_piece h Hh).
Qed.

(** ** The loop over the lines of the project reports *)

Module Turns.
Import JsString JsText JsStringFacts Gradle Reports ReportLines.

Section Host.

Variable workspaceRoot : string.
Variable cwd : string.
Variable existsSync : option string -> bool.
Variable readFileSync : string -> outcome string.
Variable normalizePath : string -> string.

Abbreviation turn := (turn workspaceRoot cwd existsSync readFileSync normalizePath).
Abbreviation turns := (turns workspaceRoot cwd existsSync readFileSync normalizePath).

Lemma turns_end (fuel : nat) (lines : list string) (st : Collected) (index : nat) :
  List.length lines <= index ->
  turns (S fuel) lines st index = Some (Return st).
Proof.
  intros Hi. cbn [Reports.turns].
  destruct (Nat.ltb_spec index (List.length lines)); [lia | reflexivity].
Qed.

Lemma turns_turn (fuel : nat) (lines : list string) (st : Collected) (index : nat) :
  index < List.length lines ->
  turns (S fuel) lines st index =
  match turn lines st index with
  | Return (st', index') => turns fuel lines st' index'
  | Throw e => Some (Throw e)
  end.
Proof.
  intros Hi. cbn [Reports.turns].
  destruct (Nat.ltb_spec index (List.length lines)); [reflexivity | lia].
Qed.

(** A line that starts no task moves the loop on by one line. *)
Lemma turn_plain (lines : list string) (st : Collected) (index : nat) :
  isTaskLine (nth index lines "") = false ->
  turn lines st index = Return (st, S index).
Proof. unfold isTaskLine, Reports.turn. now intros ->. Qed.

Lemma turns_skip (before rest : list string) (st : Collected) (fuel k : nat) :
  Forall (fun line => isTaskLine line = false) before ->
  k <= List.length before ->
  turns (List.length before - k + fuel) (before ++ rest) st k =
  turns fuel (before ++ rest) st (List.length before).
Proof.
  intros Hb. remember (List.length before - k) as d eqn:Ed.
  revert k Ed; induction d as [|d IH]; intros k Ed Hk.
  - replace k with (List.length before) by lia. reflexivity.
  - cbn [Nat.add]. rewrite turns_turn by (rewrite length_app; lia).
    rewrite turn_plain.
    + apply IH; lia.
    + rewrite app_nth1 by lia.
      apply (proj1 (List.Forall_nth _ before) Hb). lia.
Qed.

End Host.

End Turns.

(** X19. A report without any line that starts with [> Task ] (after
    trimming) is read to the end, in one turn of the loop for each line, and
    gives five empty maps; no file is looked for or read. *)
Theorem report_without_tasks (workspaceRoot cwd : string)
    (existsSync : option string -> bool) (readFileSync : string -> outcome string)
    (normalizePath : string -> string) (fuel : nat) (projectReportLines : list string) :
  Forall (fun line => ReportLines.isTaskLine line = false) projectReportLines ->
  List.length projectReportLines < fuel ->
  Reports.processProjectReports workspaceRoot cwd existsSync readFileSync normalizePath
    fuel projectReportLines
  = Some (Return ReportLines.emptyReport).
Proof.
  intros Hl Hf. unfold Reports.processProjectReports.
  pose proof (Turns.turns_skip workspaceRoot cwd existsSync readFileSync normalizePath
                projectReportLines [] Reports.nothingCollected
                (S (fuel - List.length projectReportLines - 1)) 0 Hl (Nat.le_0_l _)) as Hs.
  rewrite app_nil_r in Hs.
  replace (List.length projectReportLines - 0
           + S (fuel - List.length projectReportLines - 1)) with fuel in Hs by lia.
  rewrite Hs, Turns.turns_end by lia.
  reflexivity.
Qed.

Lemma report_without_tasks_witness :
  Reports.processProjectReports "/ws" "/ws" (fun _ => true) (fun _ => Throw (Error "EISDIR"))
    (fun path => path) 3 ["BUILD SUCCESSFUL in 1s"; "  1 actionable task: 1 executed"]
  = Some (Return ReportLines.emptyReport).
Proof.
  apply report_without_tasks; [repeat constructor | simpl; lia].
Defined.

(** ** Looking for the line that names the file of a report *)

Module Seeking.
Import JsString JsText JsStringFacts Gradle Reports ReportLines.

Lemma seekFrom_none (rest : list string) (index : nat) :
  Forall (fun line => includes line fileSeparator = false) rest ->
  seekFrom rest index = index + List.length rest.
Proof.
  intros H; revert index; induction H as [|line rest Hl _ IH]; intros index.
  - cbn. lia.
  - cbn [seekFrom List.length]. rewrite Hl, IH. lia.
Qed.

Lemma seek_none (before rest : list string) :
  Forall (fun line => includes line fileSeparator = false) rest ->
  seek (before ++ rest) (List.length before) = List.length (before ++ rest).
Proof.
  intros H. unfold seek. rewrite drop_app_length, seekFrom_none by exact H.
  now rewrite length_app.
Qed.

Lemma seek_here (before after : list string) (line : string) :
  includes line fileSeparator = true ->
  seek (before ++ line :: after) (List.length before) = List.length before.
Proof.
  intros H. unfold seek. rewrite drop_app_length. cbn [seekFrom]. now rewrite H.
Qed.

Lemma reportFile_past (lines : list string) :
  reportFile lines (List.length lines) = Throw typeError.
Proof.
  unfold reportFile.
  now rewrite (proj2 (nth_error_None lines (List.length lines)) (le_n _)).
Qed.

Lemma reportFile_here (before after : list string) (line : string) :
  reportFile (before ++ line :: after) (List.length before)
  = Return (second (splitOn fileSeparator 0 line)).
Proof.
  unfold reportFile. rewrite nth_error_app2 by lia.
  now rewrite Nat.sub_diag.
Qed.

Lemma nth_middle_line (before after : list string) (line : string) :
  nth (List.length before) (before ++ line :: after) "" = line.
Proof. rewrite app_nth2 by lia. now rewrite Nat.sub_diag. Qed.

(** A group of tasks that no empty line closes runs past the end. *)
Lemma scanTasks_unclosed (type : string) (group : list string)
    (taskTypeMap : gmap string string) :
  Forall (fun line => line <> "") group ->
  scanTasks (Some type) group taskTypeMap = Throw typeError.
Proof.
  intros H; revert taskTypeMap; induction H as [|line group Hl _ IH]; intros m.
  - reflexivity.
  - cbn [scanTasks]. apply String.eqb_neq in Hl. rewrite Hl. apply IH.
Qed.

End Seeking.

(** X20. A task line of one of the three reports after which no line
    (the task line included) holds [file://] makes [processProjectReports]
    throw a TypeError as soon as the loop reaches it, whatever the files
    hold. *)
Theorem task_without_file_throws (workspaceRoot cwd : string)
    (existsSync : option string -> bool) (readFileSync : string -> outcome string)
    (normalizePath : string -> string) (fuel : nat)
    (before after : list string) (line : string) :
  Forall (fun l => ReportLines.isTaskLine l = false) before ->
  ReportLines.isTaskLine line = true ->
  ReportLines.isReportTask line = true ->
  Forall (fun l => JsString.includes l Reports.fileSeparator = false) (line :: after) ->
  List.length before < fuel ->
  Reports.processProjectReports workspaceRoot cwd existsSync readFileSync normalizePath
    fuel (before ++ line :: after)
  = Some (Throw Gradle.typeError).
Proof.
  intros Hb Ht Hr Hn Hf. unfold Reports.processProjectReports.
  pose proof (Turns.turns_skip workspaceRoot cwd existsSync readFileSync normalizePath
                before (line :: after) Reports.nothingCollected
                (S (fuel - List.length before - 1)) 0 Hb (Nat.le_0_l _)) as Hs.
  replace (List.length before - 0 + S (fuel - List.length before - 1))
    with fuel in Hs by lia.
  rewrite Hs, Turns.turns_turn by (rewrite length_app; cbn; lia).
  clear Hs.
  assert (Hturn : Reports.turn workspaceRoot cwd existsSync readFileSync normalizePath
                    (before ++ line :: after) Reports.nothingCollected (List.length before)
                  = Throw Gradle.typeError); [|now rewrite Hturn].
  unfold Reports.turn. rewrite Seeking.nth_middle_line.
  unfold ReportLines.isTaskLine in Ht. rewrite Ht.
  unfold ReportLines.isReportTask in Hr.
  unfold Reports.dependencyReport, Reports.propertyReport, Reports.taskReport.
  destruct (JsString.endsWith (JsText.trim line) ":dependencyReport").
  { now rewrite Seeking.seek_none, Seeking.reportFile_past. }
  cbn [Reports.andThen].
  destruct (JsString.endsWith (JsText.trim line) "propertyReport").
  { now rewrite Seeking.seek_none, Seeking.reportFile_past. }
  cbn [Reports.andThen]. cbn [orb] in Hr. rewrite Hr.
  now rewrite Seeking.seek_none, Seeking.reportFile_past.
Qed.

Lemma task_without_file_throws_witness :
  Reports.processProjectReports "/ws" "/ws" (fun _ => false) (fun _ => Return "")
    (fun path => path) 2
    (["Starting a Gradle Daemon"] ++ "> Task :app:taskReport" :: ["BUILD SUCCESSFUL"])
  = Some (Throw Gradle.typeError).
Proof.
  apply task_without_file_throws;
    first [repeat constructor | reflexivity | simpl; lia].
Defined.

(** X21. In a file of tasks, a heading that ends in [tasks] and is
    underlined by as many dashes, and whose group of tasks is not closed by
    an empty line before the file ends, makes the scan throw a TypeError. *)
Theorem unclosed_task_group_throws (heading : string) (group : list string)
    (taskTypeMap : gmap string string) :
  JsString.endsWith heading "tasks" = true ->
  Forall (fun line => line <> "") group ->
  Reports.scanTasks None
    (heading :: Reports.dashes (String.length heading) :: group) taskTypeMap
  = Throw Gradle.typeError.
Proof.
  intros Hh Hg. cbn [Reports.scanTasks]. rewrite Hh, String.eqb_refl.
  now apply Seeking.scanTasks_unclosed.
Qed.

Lemma unclosed_task_group_throws_witness :
  Reports.scanTasks None
    ("Build tasks" :: Reports.dashes (String.length "Build tasks")
       :: ["assemble - Assembles the outputs of this project."]) ∅
  = Throw Gradle.typeError.
Proof.
  apply unclosed_task_group_throws; [reflexivity | repeat constructor; discriminate].
Defined.

(** ** A turn of the loop that does not move on *)

Module Stuck.
Import JsString JsText JsStringFacts Gradle Reports ReportLines.

Section Host.

Variable workspaceRoot : string.
Variable cwd : string.
Variable existsSync : option string -> bool.
Variable readFileSync : string -> outcome string.
Variable normalizePath : string -> string.

Abbreviation turnOf := (Reports.turn workspaceRoot cwd existsSync readFileSync normalizePath).
Abbreviation turnsOf := (Reports.turns workspaceRoot cwd existsSync readFileSync normalizePath).

Variables before after : list string.
Variable line : string.
Variable propertyReportLines : list string.
Variable props : Properties.

Hypothesis before_plain : Forall (fun l => isTaskLine l = false) before.
Hypothesis line_task : isTaskLine line = true.
Hypothesis line_property : endsWith (trim line) "propertyReport" = true.
Hypothesis line_address : includes line fileSeparator = true.
Hypothesis file_lines :
  linesOf existsSync readFileSync (second (splitOn fileSeparator 0 line))
  = Return propertyReportLines.
Hypothesis file_props :
  propertyLines workspaceRoot cwd noProperties propertyReportLines = Return props.
Hypothesis incomplete : complete props = false.

Lemma turn_stuck (st : Collected) :
  exists st', turnOf (before ++ line :: after) st (List.length before)
              = Return (st', List.length before).
Proof.
  unfold Reports.turn. rewrite Seeking.nth_middle_line.
  unfold isTaskLine in line_task. rewrite line_task.
  assert (Hprop : forall st0,
            propertyReport workspaceRoot cwd existsSync readFileSync normalizePath
              (before ++ line :: after) (trim line) st0 (List.length before)
            = Return (st0, List.length before, true)).
  { intros st0. unfold propertyReport.
    rewrite line_property, Seeking.seek_here, Seeking.reportFile_here by assumption.
    cbn [andThen]. rewrite file_lines. cbn [andThen]. rewrite file_props.
    cbn [andThen]. unfold complete in incomplete.
    destruct (prop_projectName props) as [a|]; [|reflexivity].
    destruct (prop_absBuildFilePath props) as [b|]; [|reflexivity].
    destruct (prop_absBuildDirPath props) as [c|]; [|reflexivity].
    cbn [ofOption] in incomplete.
    destruct (truthy (VStr a)), (truthy (VStr b)), (truthy (VStr c));
      first [discriminate | reflexivity]. }
  unfold dependencyReport.
  destruct (endsWith (trim line) ":dependencyReport").
  - rewrite Seeking.seek_here, Seeking.reportFile_here by assumption.
    cbn [andThen]. rewrite Hprop. cbn [andThen]. eexists; reflexivity.
  - cbn [andThen]. rewrite Hprop. cbn [andThen]. eexists; reflexivity.
Qed.

Lemma turns_never (fuel : nat) (st : Collected) (k : nat) :
  k <= List.length before ->
  turnsOf fuel (before ++ line :: after) st k = None.
Proof.
  revert st k; induction fuel as [|fuel IH]; intros st k Hk; [reflexivity|].
  rewrite Turns.turns_turn by (rewrite length_app; cbn; lia).
  destruct (Nat.eq_dec k (List.length before)) as [-> | Hne].
  - destruct (turn_stuck st) as [st' ->]. now apply IH.
  - rewrite Turns.turn_plain.
    + apply IH. lia.
    + rewrite app_nth1 by lia.
      apply (proj1 (List.Forall_nth _ before) before_plain). lia.
Qed.

End Host.

End Stuck.

(** X22. When the first task line of the report (the first line that
    starts with [> Task ] after trimming) ends in [propertyReport] and holds
    [file://] itself, and the file it names gives no name, build file or
    build directory (for one, when the file does not exist),
    [processProjectReports] never returns and never throws: the block ends
    in [continue] with [index] still on that line, so that no number of
    turns of the loop is enough. *)
Theorem task_line_with_own_file_never_ends (workspaceRoot cwd : string)
    (existsSync : option string -> bool) (readFileSync : string -> outcome string)
    (normalizePath : string -> string)
    (before after : list string) (line : string)
    (propertyReportLines : list string) (props : Reports.Properties) :
  Forall (fun l => ReportLines.isTaskLine l = false) before ->
  ReportLines.isTaskLine line = true ->
  JsString.endsWith (JsText.trim line) "propertyReport" = true ->
  JsString.includes line Reports.fileSeparator = true ->
  Reports.linesOf existsSync readFileSync
    (Reports.second (JsText.splitOn Reports.fileSeparator 0 line))
  = Return propertyReportLines ->
  Reports.propertyLines workspaceRoot cwd Reports.noProperties propertyReportLines
  = Return props ->
  ReportLines.complete props = false ->
  forall fuel,
    Reports.processProjectReports workspaceRoot cwd existsSync readFileSync normalizePath
      fuel (before ++ line :: after) = None.
Proof.
  intros Hb Ht Hp Ha Hl Hprops Hc fuel. unfold Reports.processProjectReports.
  rewrite (Stuck.turns_never workspaceRoot cwd existsSync readFileSync normalizePath
             before after line propertyReportLines props); auto.
  lia.
Qed.

Lemma task_line_with_own_file_never_ends_witness :
  Reports.processProjectReports "/ws" "/ws" ReportsDemo.existsSync
    ReportsDemo.readFileSync ReportsDemo.normalizePath
    1000 (["Starting a Gradle Daemon"] ++ ReportsDemo.addressed :: ["BUILD SUCCESSFUL"])
  = None.
Proof.
  apply (fun H1 H2 H3 H4 H5 H6 H7 =>
           task_line_with_own_file_never_ends "/ws" "/ws" ReportsDemo.existsSync
             ReportsDemo.readFileSync ReportsDemo.normalizePath
             ["Starting a Gradle Daemon"] ["BUILD SUCCESSFUL"] ReportsDemo.addressed
             [] Reports.noProperties H1 H2 H3 H4 H5 H6 H7 1000);
    first [reflexivity | solve [repeat constructor]].
Defined.

(** ** What every turn of the loop keeps true of the maps *)

Module ReportInvariant.
Import JsString JsText JsStringFacts Gradle Reports ReportLines.

Lemma consistent_empty : consistent emptyReport.
Proof.
  unfold consistent, emptyReport; cbn. repeat split; intros; set_solver.
Qed.

Section Host.

Variable workspaceRoot : string.
Variable cwd : string.
Variable existsSync : option string -> bool.
Variable readFileSync : string -> outcome string.
Variable normalizePath : string -> string.

Lemma dependencyReport_returned (lines : list string) (line : string)
    (st st' : Collected) (index index' : nat) :
  dependencyReport lines line st index = Return (st', index') ->
  returned st' = returned st.
Proof.
  unfold dependencyReport. destruct (endsWith line ":dependencyReport").
  - destruct (reportFile lines _); cbn [andThen]; [|discriminate].
    now intros [= <- _].
  - now intros [= <- _].
Qed.

Lemma taskReport_consistent (lines : list string) (line : string)
    (st st' : Collected) (index index' : nat) :
  taskReport existsSync readFileSync lines line st index = Return (st', index') ->
  consistent (returned st) -> consistent (returned st').
Proof.
  unfold taskReport. destruct (endsWith line "taskReport").
  - destruct (reportFile lines _) as [file|]; cbn [andThen]; [|discriminate].
    destruct (linesOf _ _ file) as [tasksFileLines|]; cbn [andThen]; [|discriminate].
    destruct (scanTasks None tasksFileLines ∅); cbn [andThen]; [|discriminate].
    intros [= <- _]. exact (fun H => H).
  - now intros [= <- _].
Qed.

Lemma propertyReport_consistent (lines : list string) (line : string)
    (st st' : Collected) (index index' : nat) (continued : bool) :
  propertyReport workspaceRoot cwd existsSync readFileSync normalizePath
    lines line st index = Return (st', index', continued) ->
  consistent (returned st) -> consistent (returned st').
Proof.
  unfold propertyReport. destruct (endsWith line "propertyReport").
  - destruct (reportFile lines _) as [file|]; cbn [andThen]; [|discriminate].
    destruct (linesOf _ _ file) as [pls|]; cbn [andThen]; [|discriminate].
    destruct (propertyLines _ _ noProperties pls) as [props|]; cbn [andThen];
      [|discriminate].
    destruct (prop_projectName props) as [projectName|]; [|now intros [= <- _ _]].
    destruct (prop_absBuildFilePath props) as [absBuildFilePath|];
      [|now intros [= <- _ _]].
    destruct (prop_absBuildDirPath props) as [absBuildDirPath|];
      [|now intros [= <- _ _]].
    destruct (_ || _); [now intros [= <- _ _]|].
    intros [= <- _ _] (Hdeps & Hdirs & Hnames).
    unfold consistent. cbn [returned gradleFileToGradleProjectMap buildFileToDepsMap
                            gradleFileToOutputDirsMap gradleProjectToProjectName].
    rewrite !dom_insert_L, <- Hdeps, <- Hdirs. repeat split.
    intros buildFile gradleProject Hlook.
    destruct (decide (buildFile =
                      normalizePath (Path.relative cwd workspaceRoot absBuildFilePath)))
      as [-> | Hne].
    + rewrite lookup_insert_eq in Hlook. injection Hlook as <-.
      rewrite lookup_insert_eq. eauto.
    + rewrite lookup_insert_ne in Hlook by congruence.
      apply Hnames in Hlook.
      destruct (decide (gradleProject
                        = substringBetween 7 (String.length line - 15) line)) as [-> | Hn].
      * rewrite lookup_insert_eq. eauto.
      * rewrite lookup_insert_ne by congruence. exact Hlook.
  - now intros [= <- _ _].
Qed.

Lemma turn_consistent (lines : list string) (st st' : Collected) (index index' : nat) :
  turn workspaceRoot cwd existsSync readFileSync normalizePath lines st index
  = Return (st', index') ->
  consistent (returned st) -> consistent (returned st').
Proof.
  unfold turn. destruct (startsWith _ "> Task "); [|now intros [= <- _]].
  destruct (dependencyReport lines _ st index) as [[st1 index1]|] eqn:E1;
    cbn [andThen]; [|discriminate].
  apply dependencyReport_returned in E1.
  destruct (propertyReport _ _ _ _ _ lines _ st1 index1) as [[[st2 index2] continued]|] eqn:E2;
    cbn [andThen]; [|discriminate].
  pose proof (propertyReport_consistent _ _ _ _ _ _ _ E2) as H2. rewrite E1 in H2.
  destruct continued; [intros [= <- _]; exact H2|].
  destruct (taskReport _ _ lines _ st2 index2) as [[st3 index3]|] eqn:E3;
    cbn [andThen]; [|discriminate].
  pose proof (taskReport_consistent _ _ _ _ _ _ E3) as H3.
  intros [= <- _]. auto.
Qed.

Lemma turns_consistent (fuel : nat) (lines : list string) (st st' : Collected)
    (index : nat) :
  turns workspaceRoot cwd existsSync readFileSync normalizePath fuel lines st index
  = Some (Return st') ->
  consistent (returned st) -> consistent (returned st').
Proof.
  revert st index; induction fuel as [|fuel IH]; intros st index; [discriminate|].
  cbn [turns]. destruct (index <? List.length lines)%nat; [|now intros [= <-]].
  destruct (turn _ _ _ _ _ lines st index) as [[st1 index1]|] eqn:E; [|discriminate].
  intros H Hc. eapply IH; [exact H|]. eapply turn_consistent; eauto.
Qed.

End Host.

End ReportInvariant.

(** X23. In every report that [processProjectReports] returns, the three
    maps keyed by build file ([gradleFileToGradleProjectMap],
    [buildFileToDepsMap], [gradleFileToOutputDirsMap]) have the same keys,
    and the Gradle project of every build file has an entry in
    [gradleProjectToProjectName]. *)
Theorem returned_maps_consistent (workspaceRoot cwd : string)
    (existsSync : option string -> bool) (readFileSync : string -> outcome string)
    (normalizePath : string -> string) (fuel : nat) (projectReportLines : list string)
    (report : Reports.GradleReport) :
  Reports.processProjectReports workspaceRoot cwd existsSync readFileSync normalizePath
    fuel projectReportLines = Some (Return report) ->
  ReportLines.consistent report.
Proof.
  unfold Reports.processProjectReports.
  destruct (Reports.turns _ _ _ _ _ fuel projectReportLines _ 0) as [[st|]|] eqn:E;
    [|discriminate|discriminate].
  intros [= <-]. eapply ReportInvariant.turns_consistent; [exact E|].
  exact ReportInvariant.consistent_empty.
Qed.

Lemma returned_maps_consistent_witness :
  exists report,
    Reports.processProjectReports "/ws" "/ws" ReportsDemo.existsSync
      ReportsDemo.readFileSync ReportsDemo.normalizePath 4 ReportsDemo.projectReportLines
    = Some (Return report) /\
    Reports.gradleFileToGradleProjectMap report !! "app/build.gradle" = Some ":app" /\
    ReportLines.consistent report.
Proof.
  eexists. split; [vm_compute; reflexivity|]. split; [vm_compute; reflexivity|].
  apply (returned_maps_consistent "/ws" "/ws" ReportsDemo.existsSync
           ReportsDemo.readFileSync ReportsDemo.normalizePath 4
           ReportsDemo.projectReportLines).
  vm_compute; reflexivity.
Defined.

(** ** How far a turn of the loop moves *)

Module Progress.
Import JsString JsText JsStringFacts Gradle Reports ReportLines.

Lemma seekFrom_ge (rest : list string) (index : nat) : index <= seekFrom rest index.
Proof.
  revert index; induction rest as [|line rest IH]; intros index; cbn [seekFrom]; [lia|].
  destruct (includes line fileSeparator); [lia|]. specialize (IH (S index)). lia.
Qed.

Lemma seek_ge (lines : list string) (index : nat) : index <= seek lines index.
Proof. apply seekFrom_ge. Qed.

(** The search stays on a line only if that line holds the separator. *)
Lemma seek_stay (lines : list string) (index : nat) :
  index < List.length lines ->
  seek lines index = index ->
  includes (nth index lines "") fileSeparator = true.
Proof.
  intros Hi. unfold seek.
  destruct (lookup_lt_is_Some_2 lines index Hi) as [line E].
  rewrite (nth_lookup_Some _ _ "" _ E), (drop_S _ _ _ E). cbn [seekFrom].
  destruct (includes line fileSeparator); [reflexivity|].
  pose proof (seekFrom_ge (skipn (S index) lines) (S index)). lia.
Qed.

Section Host.

Variable workspaceRoot : string.
Variable cwd : string.
Variable existsSync : option string -> bool.
Variable readFileSync : string -> outcome string.
Variable normalizePath : string -> string.

Lemma dependencyReport_index (lines : list string) (line : string)
    (st st' : Collected) (index index' : nat) :
  dependencyReport lines line st index = Return (st', index') ->
  index <= index'.
Proof.
  unfold dependencyReport. destruct (endsWith line ":dependencyReport").
  - destruct (reportFile lines _); cbn [andThen]; [|discriminate].
    intros [= _ <-]. apply seek_ge.
  - intros [= _ <-]. lia.
Qed.

Lemma taskReport_index (lines : list string) (line : string)
    (st st' : Collected) (index index' : nat) :
  taskReport existsSync readFileSync lines line st index = Return (st', index') ->
  index <= index'.
Proof.
  unfold taskReport. destruct (endsWith line "taskReport").
  - destruct (reportFile lines _) as [file|]; cbn [andThen]; [|discriminate].
    destruct (linesOf _ _ file) as [tasksFileLines|]; cbn [andThen]; [|discriminate].
    destruct (scanTasks None tasksFileLines ∅); cbn [andThen]; [|discriminate].
    intros [= _ <-]. apply seek_ge.
  - intros [= _ <-]. lia.
Qed.

Lemma propertyReport_index (lines : list string) (line : string)
    (st st' : Collected) (index index' : nat) (continued : bool) :
  propertyReport workspaceRoot cwd existsSync readFileSync normalizePath
    lines line st index = Return (st', index', continued) ->
  index <= index' /\ (continued = true -> index' = seek lines index).
Proof.
  unfold propertyReport. destruct (endsWith line "propertyReport").
  - destruct (reportFile lines _) as [file|]; cbn [andThen]; [|discriminate].
    destruct (linesOf _ _ file) as [pls|]; cbn [andThen]; [|discriminate].
    destruct (propertyLines _ _ noProperties pls) as [props|]; cbn [andThen];
      [|discriminate].
    assert (Hg := seek_ge lines index).
    destruct (prop_projectName props); [|now intros [= _ <- _]].
    destruct (prop_absBuildFilePath props); [|now intros [= _ <- _]].
    destruct (prop_absBuildDirPath props); [|now intros [= _ <- _]].
    destruct (_ || _); now intros [= _ <- _].
  - intros [= _ <- <-]. split; [lia | discriminate].
Qed.

(** A turn moves [index] on unless it stands on a task line that holds the
    separator. *)
Lemma turn_moves (lines : list string) (st st' : Collected) (index index' : nat) :
  index < List.length lines ->
  isTaskLine (nth index lines "") && includes (nth index lines "") fileSeparator = false ->
  turn workspaceRoot cwd existsSync readFileSync normalizePath lines st index
  = Return (st', index') ->
  index < index'.
Proof.
  intros Hi Hfree. unfold turn. unfold isTaskLine in Hfree.
  destruct (startsWith _ "> Task "); [|intros [= _ <-]; lia].
  cbn [andb] in Hfree.
  destruct (dependencyReport lines _ st index) as [[st1 index1]|] eqn:E1;
    cbn [andThen]; [|discriminate].
  apply dependencyReport_index in E1.
  destruct (propertyReport _ _ _ _ _ lines _ st1 index1) as [[[st2 index2] continued]|] eqn:E2;
    cbn [andThen]; [|discriminate].
  apply propertyReport_index in E2 as [Hle Hcont].
  destruct continued.
  - intros [= _ <-]. specialize (Hcont eq_refl).
    destruct (Nat.eq_dec index2 index) as [Heq|]; [|lia].
    assert (index1 = index) by lia. subst index1. rewrite Heq in Hcont.
    symmetry in Hcont. apply seek_stay in Hcont; [congruence | exact Hi].
  - destruct (taskReport _ _ lines _ st2 index2) as [[st3 index3]|] eqn:E3;
      cbn [andThen]; [|discriminate].
    apply taskReport_index in E3. intros [= _ <-]. lia.
Qed.

Lemma turns_end_within (lines : list string) (fuel : nat) (st : Collected) (index : nat) :
  Forall (fun line => isTaskLine line && includes line fileSeparator = false) lines ->
  List.length lines - index < fuel ->
  exists result,
    turns workspaceRoot cwd existsSync readFileSync normalizePath fuel lines st index
    = Some result.
Proof.
  intros Hfree. revert st index; induction fuel as [|fuel IH]; intros st index Hf; [lia|].
  cbn [turns]. destruct (Nat.ltb_spec index (List.length lines)) as [Hi|Hi]; [|eauto].
  destruct (turn _ _ _ _ _ lines st index) as [[st1 index1]|e] eqn:E; [|eauto].
  apply turn_moves in E; [|exact Hi|].
  - apply IH. lia.
  - apply (proj1 (List.Forall_nth _ lines) Hfree). exact Hi.
Qed.

End Host.

End Progress.

(** X24. When no task line of the report holds [file://] itself,
    [processProjectReports] ends, by returning or by throwing, within one
    turn of the loop for each line: every turn moves [index] forward. *)
Theorem report_loop_ends (workspaceRoot cwd : string)
    (existsSync : option string -> bool) (readFileSync : string -> outcome string)
    (normalizePath : string -> string) (fuel : nat) (projectReportLines : list string) :
  Forall (fun line => ReportLines.isTaskLine line
                      && JsString.includes line Reports.fileSeparator = false)
         projectReportLines ->
  List.length projectReportLines < fuel ->
  exists result,
    Reports.processProjectReports workspaceRoot cwd existsSync readFileSync normalizePath
      fuel projectReportLines = Some result.
Proof.
  intros Hfree Hf. unfold Reports.processProjectReports.
  destruct (Progress.turns_end_within workspaceRoot cwd existsSync readFileSync
              normalizePath projectReportLines fuel Reports.nothingCollected 0 Hfree)
    as [result ->]; [lia|].
  destruct result; eauto.
Qed.

Lemma report_loop_ends_witness :
  exists result,
    Reports.processProjectReports "/ws" "/ws" ReportsDemo.existsSync
      ReportsDemo.readFileSync ReportsDemo.normalizePath 4 ReportsDemo.projectReportLines
    = Some result.
Proof.
  apply report_loop_ends; [repeat constructor | simpl; lia].
Defined.

(** ** The cached report *)

Module CacheFacts.
Import JsString JsText Gradle Reports ReportCache.

Section Host.

Variable settingFiles : list string.
Variable execGradle : string -> string -> outcome string.

Lemma forEachSettingFile_log (files : list string) (g g' : Gathered)
    (log log' : list (string * string)) :
  forEachSettingFile execGradle g log files = (Return g', log') ->
  log' = log ++ runsFor files.
Proof.
  revert g log; induction files as [|file files IH]; intros g log.
  - intros [= _ <-]. now rewrite app_nil_r.
  - cbn [forEachSettingFile].
    destruct (forSettingFile execGradle g log file) as [[g1|e] log1] eqn:E;
      [|discriminate].
    intros H. apply IH in H. subst log'.
    assert (log1 = log ++ [("projectReport", Path.dirname file);
                           ("projects", Path.dirname file)]) as ->.
    { unfold forSettingFile in E.
      destruct (execGradle "projects" _); [|now injection E].
      destruct (processProjects _); [now injection E | discriminate]. }
    cbn [runsFor flat_map]. now rewrite <- app_assoc.
Qed.

(** When every run of Gradle fails, nothing is gathered. *)
Lemma forEachSettingFile_failing (files : list string) (g : Gathered)
    (log : list (string * string)) :
  (forall task dir, exists e, execGradle task dir = Throw e) ->
  forEachSettingFile execGradle g log files = (Return g, log ++ runsFor files).
Proof.
  intros Hfail. revert log; induction files as [|file files IH]; intros log.
  - cbn. now rewrite app_nil_r.
  - cbn [forEachSettingFile]. unfold forSettingFile.
    destruct (Hfail "projectReport" (Path.dirname file)) as [e1 ->].
    destruct (Hfail "projects" (Path.dirname file)) as [e2 ->].
    destruct g. cbn [gathered_lines gathered_settings gathered_names].
    rewrite IH. cbn [runsFor flat_map]. now rewrite <- app_assoc.
Qed.

End Host.

Lemma runs_when_empty (workspaceRoot cwd : string)
    (existsSync : option string -> bool) (readFileSync : string -> outcome string)
    (normalizePath : string -> string) (settingFiles : list string)
    (execGradle : string -> string -> outcome string)
    (fuel : nat) (w w' : ModuleState) (report : FullReport) :
  gradleReportCache w = None ->
  getGradleReport workspaceRoot cwd existsSync readFileSync normalizePath
    settingFiles execGradle fuel w = Some (Return report, w') ->
  execs w' = execs w ++ runsFor settingFiles.
Proof.
  intros Hc. unfold getGradleReport. rewrite Hc.
  destruct (runProjectsForSettingsFiles _ _ _) as [[g|e] log] eqn:E; [|discriminate].
  apply forEachSettingFile_log in E.
  destruct (processProjectReports _ _ _ _ _ fuel _) as [[r|e]|];
    [|discriminate|discriminate].
  intros [= _ <-]. exact E.
Qed.

End CacheFacts.

(** X25. [getGradleReport] caches what it returns and nothing else: after
    a call that returned a report, the module holds it and every later call
    returns it without running Gradle or reading the lines again; after a
    call that threw, the module holds no report. *)
Theorem cache_holds_last_success (workspaceRoot cwd : string)
    (existsSync : option string -> bool) (readFileSync : string -> outcome string)
    (normalizePath : string -> string) (settingFiles : list string)
    (execGradle : string -> string -> outcome string)
    (fuel : nat) (w w' : ReportCache.ModuleState)
    (result : outcome ReportCache.FullReport) :
  ReportCache.getGradleReport workspaceRoot cwd existsSync readFileSync normalizePath
    settingFiles execGradle fuel w = Some (result, w') ->
  match result with
  | Return report =>
      ReportCache.gradleReportCache w' = Some report /\
      forall fuel',
        ReportCache.getGradleReport workspaceRoot cwd existsSync readFileSync
          normalizePath settingFiles execGradle fuel' w' = Some (Return report, w')
  | Throw _ => ReportCache.gradleReportCache w' = None
  end.
Proof.
  unfold ReportCache.getGradleReport at 1.
  destruct (ReportCache.gradleReportCache w) as [cached|] eqn:Ec.
  - intros [= <- <-]. split; [exact Ec|].
    intros fuel'. unfold ReportCache.getGradleReport. now rewrite Ec.
  - destruct (ReportCache.runProjectsForSettingsFiles _ _ _) as [[g|e] log].
    + destruct (Reports.processProjectReports _ _ _ _ _ fuel _) as [[report|e]|];
        [| |discriminate].
      * intros [= <- <-]. split; [reflexivity|]. reflexivity.
      * intros [= <- <-]. reflexivity.
    + intros [= <- <-]. reflexivity.
Qed.

Lemma cache_holds_last_success_witness :
  let full := {| ReportCache.maps := ReportLines.emptyReport;
                 ReportCache.settingsFileToProjectNameMap := ∅;
                 ReportCache.projectNames := ∅ |} in
  let w' := {| ReportCache.gradleReportCache := Some full; ReportCache.execs := [] |} in
  ReportCache.gradleReportCache w' = Some full /\
  forall fuel',
    ReportCache.getGradleReport "/ws" "/ws" ReportsDemo.existsSync
      ReportsDemo.readFileSync ReportsDemo.normalizePath [] (fun _ _ => Return "")
      fuel' w' = Some (Return full, w').
Proof.
  exact (cache_holds_last_success "/ws" "/ws" ReportsDemo.existsSync
           ReportsDemo.readFileSync ReportsDemo.normalizePath [] (fun _ _ => Return "")
           1 {| ReportCache.gradleReportCache := None; ReportCache.execs := [] |}
           _ (Return _) eq_refl).
Defined.

(** X26. A call of [getGradleReport] that finds no cached report and
    returns has run Gradle twice for each settings file, in the order of the
    files and in the directory of each: [projectReport], then [projects]. *)
Theorem gradle_runs_of_a_call (workspaceRoot cwd : string)
    (existsSync : option string -> bool) (readFileSync : string -> outcome string)
    (normalizePath : string -> string) (settingFiles : list string)
    (execGradle : string -> string -> outcome string)
    (fuel : nat) (w w' : ReportCache.ModuleState) (report : ReportCache.FullReport) :
  ReportCache.gradleReportCache w = None ->
  ReportCache.getGradleReport workspaceRoot cwd existsSync readFileSync normalizePath
    settingFiles execGradle fuel w = Some (Return report, w') ->
  ReportCache.execs w' = ReportCache.execs w ++ ReportCache.runsFor settingFiles.
Proof.
  apply CacheFacts.runs_when_empty.
Qed.

Lemma gradle_runs_of_a_call_witness :
  exists report w',
    ReportCache.getGradleReport "/ws" "/ws" ReportsDemo.existsSync
      ReportsDemo.readFileSync ReportsDemo.normalizePath
      ["settings.gradle"; "lib/settings.gradle.kts"]
      (fun task _ => if String.eqb task "projects" then Return "Root project 'demo'"
                     else Throw (Error "no such task"))
      1 {| ReportCache.gradleReportCache := None; ReportCache.execs := [] |}
    = Some (Return report, w') /\
    ReportCache.execs w'
    = [("projectReport", "."); ("projects", ".");
       ("projectReport", "lib"); ("projects", "lib")].
Proof.
  eexists. eexists. split; [vm_compute; reflexivity|].
  eapply (gradle_runs_of_a_call "/ws" "/ws" ReportsDemo.existsSync
           ReportsDemo.readFileSync ReportsDemo.normalizePath
           ["settings.gradle"; "lib/settings.gradle.kts"]
           (fun task _ => if String.eqb task "projects" then Return "Root project 'demo'"
                          else Throw (Error "no such task"))
           1 {| ReportCache.gradleReportCache := None; ReportCache.execs := [] |});
    [reflexivity | vm_compute; reflexivity].
Defined.

(** X27. A failing Gradle does not make [getGradleReport] throw: when
    every run of Gradle throws, the call still makes all its runs, returns a
    report whose maps and names are all empty, and caches it. *)
Theorem failing_gradle_tolerated (workspaceRoot cwd : string)
    (existsSync : option string -> bool) (readFileSync : string -> outcome string)
    (normalizePath : string -> string) (settingFiles : list string)
    (execGradle : string -> string -> outcome string)
    (fuel : nat) (w : ReportCache.ModuleState) :
  (forall task dir, exists e, execGradle task dir = Throw e) ->
  ReportCache.gradleReportCache w = None ->
  0 < fuel ->
  let full := {| ReportCache.maps := ReportLines.emptyReport;
                 ReportCache.settingsFileToProjectNameMap := ∅;
                 ReportCache.projectNames := ∅ |} in
  ReportCache.getGradleReport workspaceRoot cwd existsSync readFileSync normalizePath
    settingFiles execGradle fuel w
  = Some (Return full,
          {| ReportCache.gradleReportCache := Some full;
             ReportCache.execs := ReportCache.execs w ++ ReportCache.runsFor settingFiles |}).
Proof.
  intros Hfail Hc Hf. cbv zeta. unfold ReportCache.getGradleReport. rewrite Hc.
  unfold ReportCache.runProjectsForSettingsFiles.
  rewrite CacheFacts.forEachSettingFile_failing by exact Hfail.
  destruct fuel as [|fuel]; [lia|]. reflexivity.
Qed.

Lemma failing_gradle_tolerated_witness :
  let full := {| ReportCache.maps := ReportLines.emptyReport;
                 ReportCache.settingsFileToProjectNameMap := ∅;
                 ReportCache.projectNames := ∅ |} in
  ReportCache.getGradleReport "/ws" "/ws" ReportsDemo.existsSync
    ReportsDemo.readFileSync ReportsDemo.normalizePath ["settings.gradle"]
    (fun _ _ => Throw (Error "ENOENT"))
    1 {| ReportCache.gradleReportCache := None; ReportCache.execs := [] |}
  = Some (Return full,
          {| ReportCache.gradleReportCache := Some full;
             ReportCache.execs := [] ++ ReportCache.runsFor ["settings.gradle"] |}).
Proof.
  apply (failing_gradle_tolerated "/ws" "/ws" ReportsDemo.existsSync
           ReportsDemo.readFileSync ReportsDemo.normalizePath ["settings.gradle"]
           (fun _ _ => Throw (Error "ENOENT"))
           1 {| ReportCache.gradleReportCache := None; ReportCache.execs := [] |}).
  - intros task dir. eexists; reflexivity.
  - reflexivity.
  - lia.
Defined.

(** X28. [invalidateGradleReportCache] forgets the report and nothing else:
    whatever the module held, the next call of [getGradleReport] that returns
    has run Gradle afresh, twice for each settings file, after the runs made
    before. *)
Theorem invalidation_forces_rerun (workspaceRoot cwd : string)
    (existsSync : option string -> bool) (readFileSync : string -> outcome string)
    (normalizePath : string -> string) (settingFiles : list string)
    (execGradle : string -> string -> outcome string)
    (fuel : nat) (w w' : ReportCache.ModuleState) (report : ReportCache.FullReport) :
  ReportCache.getGradleReport workspaceRoot cwd existsSync readFileSync normalizePath
    settingFiles execGradle fuel (ReportCache.invalidateGradleReportCache w)
  = Some (Return report, w') ->
  ReportCache.execs w' = ReportCache.execs w ++ ReportCache.runsFor settingFiles.
Proof.
  intros H. apply CacheFacts.runs_when_empty in H; [exact H | reflexivity].
Qed.

Lemma invalidation_forces_rerun_witness :
  let full := {| ReportCache.maps := ReportLines.emptyReport;
                 ReportCache.settingsFileToProjectNameMap := ∅;
                 ReportCache.projectNames := ∅ |} in
  ReportCache.execs
    {| ReportCache.gradleReportCache := Some full;
       ReportCache.execs := [("projectReport", "."); ("projects", ".");
                             ("projectReport", "."); ("projects", ".")] |}
  = [("projectReport", "."); ("projects", ".")] ++ ReportCache.runsFor ["settings.gradle"].
Proof.
  exact (invalidation_forces_rerun "/ws" "/ws" ReportsDemo.existsSync
           ReportsDemo.readFileSync ReportsDemo.normalizePath ["settings.gradle"]
           (fun _ _ => Throw (Error "ENOENT")) 1
           {| ReportCache.gradleReportCache :=
                Some {| ReportCache.maps := ReportLines.emptyReport;
                        ReportCache.settingsFileToProjectNameMap := ∅;
                        ReportCache.projectNames := ∅ |};
              ReportCache.execs := [("projectReport", "."); ("projects", ".")] |}
           _ _ eq_refl).
Defined.

(** X29. A specifier that is read from the prototype of the alias table
    (the table does not declare it, and it is the name of a member that every
    object inherits, such as [constructor] or [toString]) makes [findPaths]
    return that member in the place of a target list, and makes
    [findProjectWithImport] throw a TypeError when it iterates over it,
    before any collaborator is invoked and with the instance unchanged. *)
Theorem inherited_member_specifier_throws (host : Host)
    (importExpr projectRoot filePath : string) (w : World) :
  Vocabulary.inheritedAlias (this w) importExpr = true ->
  findPaths (this w) importExpr = Some (importExpr, Inherited importExpr) /\
  findProjectWithImport host importExpr projectRoot filePath w = (Throw notIterable, w).
Proof.
  intros H.
  assert (Hm : inheritedMember importExpr = true /\
               findPaths (this w) importExpr = Some (importExpr, Inherited importExpr)).
  { unfold Vocabulary.inheritedAlias in H.
    destruct (paths (this w)) as [table|] eqn:Hp; [|discriminate].
    destruct (getOwn importExpr table) eqn:Ho; [discriminate|].
    split; [exact H|]. now apply (AliasTable.findPaths_inherited _ table). }
  destruct Hm as [Hm Hf]. split; [exact Hf|].
  unfold findProjectWithImport, bind, getThis, lift.
  rewrite (Exceptions.inheritedMember_not_relative _ Hm).
  now rewrite (Exceptions.resolveViaPaths_inherited host _ _ H).
Qed.

Lemma inherited_member_specifier_throws_witness :
  let h := Demo.host Demo.trailingWildcard in
  findPaths (this (Demo.fresh h)) "constructor" = Some ("constructor", Inherited "constructor") /\
  findProjectWithImport h "constructor" "apps/app1" "apps/app1/src/main" (Demo.fresh h)
  = (Throw notIterable, Demo.fresh h).
Proof.
  cbv zeta.
  apply (inherited_member_specifier_throws (Demo.host Demo.trailingWildcard)
           "constructor" "apps/app1" "apps/app1/src/main"
           (Demo.fresh (Demo.host Demo.trailingWildcard))).
  reflexivity.
Defined.
